(** * EPLQ data converters: OSM extracts to POI records

    A shallow embedding of the two Geofabrik converter scripts,
    [geofabrik_to_csv.py] (XML only) and [geofabrik_to_csv_pbf.py]
    (XML and PBF), followed by the properties of their categorizers,
    description builders, per-file parsers and multi-file loops.

    Conventions.
    - A Python [str] is a Rocq [string]; a character stands for a code
      point below 256.
    - A Python [dict] with string keys and values is a [gmap string string].
    - A Python [float] is a primitive binary64 [float]; only its comparison
      [<=] is used.  The builtin [float(s)] is a parameter [py_float] of the
      parsers ([None] stands for [ValueError]).
    - A Python [int] is a [Z]; [len] is [Z.of_nat (length _)].
    - An exception is an explicit [Raised] outcome.
    - The libraries the scripts call are modelled by what they hand to the
      scripts: [iterparse] by its events and the way the read ends; osmium
      by the nodes it decodes, with a location that raises when it is read
      unless it is valid; the [csv] reader by the rows it returns for the
      rows written to a temporary file. *)

From Stdlib Require Import Floats.PrimFloat.
From Stdlib Require Import ZArith Lia Ascii String.
From stdpp Require Import gmap strings list.

Local Open Scope Z_scope.
Local Open Scope string_scope.

(** ** Python builtins used by the scripts *)

Module Py.

(** Truth value of a [str]: false exactly for the empty string. *)
Definition truthy (s : string) : bool :=
  match s with
  | EmptyString => false
  | String _ _ => true
  end.

(** Truth value of a value that is [None] or a [str]. *)
Definition truthy_opt (o : option string) : bool :=
  match o with
  | None => false
  | Some s => truthy s
  end.

(** Truth value of an [int] or [None]. *)
Definition truthy_int (o : option Z) : bool :=
  match o with
  | None => false
  | Some z => negb (z =? 0)%Z
  end.

(** [x in [a, b, ...]] for strings. *)
Definition in_list (x : string) (l : list string) : bool :=
  existsb (String.eqb x) l.

(** [d.get(k, default)]. *)
Definition get (d : gmap string string) (k default : string) : string :=
  match d !! k with
  | Some v => v
  | None => default
  end.

(** [k in d]. *)
Definition has_key (d : gmap string string) (k : string) : bool :=
  match d !! k with
  | Some _ => true
  | None => false
  end.

(** [a or b] on strings: the first operand when it is truthy. *)
Definition or_str (a b : string) : string :=
  if truthy a then a else b.

Definition code (c : ascii) : N := Ascii.N_of_ascii c.

Definition is_upper_ascii (c : ascii) : bool :=
  ((65 <=? code c) && (code c <=? 90))%N.

Definition is_lower_ascii (c : ascii) : bool :=
  ((97 <=? code c) && (code c <=? 122))%N.

(** [str.lower] on one code point below 256: [A-Z] and the Latin-1
    capitals (192 to 222 except the multiplication sign 215). *)
Definition lower_char (c : ascii) : ascii :=
  if (is_upper_ascii c
      || ((192 <=? code c) && (code c <=? 222) && negb (code c =? 215)))%N
  then Ascii.ascii_of_N (code c + 32)
  else c.

Fixpoint lower (s : string) : string :=
  match s with
  | EmptyString => EmptyString
  | String c s' => String (lower_char c) (lower s')
  end.

(** [str.title] restricted to ASCII text (its only arguments in the
    scripts are the category labels): a letter that follows a letter is
    lowered, any other letter is raised. *)
Definition upper_char_ascii (c : ascii) : ascii :=
  if is_lower_ascii c then Ascii.ascii_of_N (code c - 32) else c.

Definition lower_char_ascii (c : ascii) : ascii :=
  if is_upper_ascii c then Ascii.ascii_of_N (code c + 32) else c.

Fixpoint title_from (prev_cased : bool) (s : string) : string :=
  match s with
  | EmptyString => EmptyString
  | String c s' =>
      String (if prev_cased then lower_char_ascii c else upper_char_ascii c)
             (title_from (is_upper_ascii c || is_lower_ascii c) s')
  end.

Definition title (s : string) : string := title_from false s.

(** [sub in s] for strings. *)
Fixpoint contains (sub s : string) : bool :=
  String.prefix sub s
  || match s with
     | EmptyString => false
     | String _ s' => contains sub s'
     end.

(** [str.isspace] on one code point below 256. *)
Definition is_space (c : ascii) : bool :=
  (((9 <=? code c) && (code c <=? 13))
   || ((28 <=? code c) && (code c <=? 32))
   || (code c =? 133) || (code c =? 160))%N.

Fixpoint lstrip (s : string) : string :=
  match s with
  | EmptyString => EmptyString
  | String c s' => if is_space c then lstrip s' else s
  end.

Fixpoint rstrip (s : string) : string :=
  match s with
  | EmptyString => EmptyString
  | String c s' =>
      match rstrip s' with
      | EmptyString => if is_space c then EmptyString else String c EmptyString
      | r => String c r
      end
  end.

(** [str.strip()]. *)
Definition strip (s : string) : string := rstrip (lstrip s).

(** [l.append(x)]. *)
Definition append {A : Type} (l : list A) (x : A) : list A :=
  (l ++ [x])%list.

(** [sep.join(parts)]. *)
Definition join (sep : string) (parts : list string) : string :=
  String.concat sep parts.

(** [a <= x <= b] on floats. *)
Definition between (a x b : float) : bool :=
  PrimFloat.leb a x && PrimFloat.leb x b.

(** Outcome of a call that may raise. *)
Inductive outcome (A : Type) : Type :=
| Returned (a : A)
| Raised.
Arguments Returned {A} a.
Arguments Raised {A}.

End Py.

Import Py.

(** ** Shared data *)

(** A POI row: the five columns of the output CSV. *)
Record poi : Type := Poi {
  name : string;
  category : string;
  latitude : float;
  longitude : float;
  description : string
}.

(** One event of [ET.iterparse(..., events=('start', 'end'))]: the element's
    tag and, for a start event, its attributes. *)
Inductive xml_event : Type :=
| Start (tag : string) (attrib : gmap string string)
| End (tag : string).

(** How an incremental read ends: the source is exhausted, or the reader
    raises at that point (malformed or truncated input, an I/O error). *)
Inductive stream_end : Type :=
| Eof
| ParseError.

(** An XML source as [iterparse] delivers it. *)
Record xml_source : Type := XmlSource {
  xml_events : list xml_event;
  xml_end : stream_end
}.

(** [len(l)]. *)
Definition len {A : Type} (l : list A) : Z := Z.of_nat (length l).

(** Truth value of a [dict]: false exactly for the empty one. *)
Definition nonempty_dict (d : gmap string string) : bool :=
  negb (bool_decide (d = ∅)).

(** What one turn of a [for] loop over a stream does next. *)
Inductive control (S : Type) : Type :=
| Continue (s : S)
| Break (s : S)
| Raise.
Arguments Continue {S} s.
Arguments Break {S} s.
Arguments Raise {S}.

(** What a run leaves behind: the rows of the output CSV, or no output
    file at all (the script reports failure, or ends with an exception). *)
Inductive run_result : Type :=
| NoOutput
| Output (rows : list poi).

Definition rows_of (r : run_result) : list poi :=
  match r with
  | NoOutput => []
  | Output rows => rows
  end.

(** [-90 <= lat <= 90 and -180 <= lng <= 180]. *)
Definition valid_coordinates (lat lng : float) : bool :=
  between (-90)%float lat 90%float && between (-180)%float lng 180%float.

(** ** geofabrik_to_csv.py *)

Module GeofabrikToCsv.

Definition categorize_poi (tags : gmap string string) : string :=
  let amenity := get tags "amenity" "" in
  let shop := get tags "shop" "" in
  let tourism := get tags "tourism" "" in
  let healthcare := get tags "healthcare" "" in
  if in_list amenity ["restaurant"; "cafe"; "fast_food"; "bar"; "pub"; "food_court"]
  then "restaurant"
  else if in_list amenity ["hotel"; "guest_house"; "hostel"; "motel"]
          || in_list tourism ["hotel"; "hostel"; "guest_house"]
  then "hotel"
  else if in_list amenity ["hospital"; "clinic"; "pharmacy"; "dentist"; "doctors"]
          || truthy healthcare
  then "hospital"
  else if in_list amenity ["bus_station"; "taxi"; "fuel"; "parking"; "ferry_terminal"]
  then "transportation"
  else if in_list amenity ["school"; "university"; "college"; "library"]
  then "education"
  else if truthy shop || in_list amenity ["marketplace"; "mall"]
  then "shopping"
  else if in_list amenity ["bank"; "atm"]
  then "bank"
  else if in_list amenity ["police"; "fire_station"; "hospital"]
  then "emergency"
  else if in_list tourism ["attraction"; "museum"; "gallery"; "zoo"; "theme_park"]
  then "tourism"
  else if in_list amenity ["cinema"; "theatre"; "casino"; "nightclub"]
  then "entertainment"
  else "other".

(** What a text file opened without [newline=''] hands to its reader
    (universal newlines): ["\r\n"] and a lone ["\r"] come as ["\n"]. *)
Fixpoint universal_newlines (s : string) : string :=
  match s with
  | EmptyString => EmptyString
  | String c s' =>
      if Ascii.eqb c "013"%char then
        match s' with
        | String c' s'' =>
            if Ascii.eqb c' "010"%char
            then String "010"%char (universal_newlines s'')
            else String "010"%char (universal_newlines s')
        | EmptyString => String "010"%char EmptyString
        end
      else String c (universal_newlines s')
  end.

(** [csv.field_size_limit()], as the [csv] module sets it: the reader
    raises [_csv.Error] on a field with more characters. *)
Definition field_size_limit : Z := 131072.

(** A text column of [temp_csv] as [csv.DictReader] returns it.
    [parse_osm_xml] writes the file through [csv.DictWriter] on a file opened
    with [newline='']; the loop of [process_geofabrik_data] reads it on a
    file opened without, so the column comes back with universal newlines
    applied (the reader undoes the quoting), unless it is longer than the
    reader allows. *)
Definition read_field (s : string) : outcome string :=
  let s := universal_newlines s in
  if (field_size_limit <? Z.of_nat (String.length s))%Z then Raised
  else Returned s.

(** A row of [temp_csv] as it is read back.  The coordinate columns come
    back as the decimal text the writer gave the floats; the row keeps the
    floats that this text denotes. *)
Definition read_back (r : poi) : outcome poi :=
  match read_field (name r), read_field (category r),
        read_field (description r) with
  | Returned name, Returned category, Returned description =>
      Returned (Poi name category (latitude r) (longitude r) description)
  | _, _, _ => Raised
  end.

(** [for row in reader: all_pois.append(row)], as the rows to append: an
    exception of the reader leaves the loop, and the function with it. *)
Fixpoint read_rows (rows : list poi) : outcome (list poi) :=
  match rows with
  | [] => Returned []
  | r :: rows =>
      match read_back r, read_rows rows with
      | Returned r, Returned rows => Returned (r :: rows)
      | _, _ => Raised
      end
  end.

Section Parser.

(** The builtin [float(s)]; [None] stands for [ValueError]. *)
Variable py_float : string → option float.

(** The local variables of [parse_osm_xml]. *)
Record parser_state : Type := ParserState {
  current_element : option string;
  current_tags : gmap string string;
  current_lat : option string;
  current_lon : option string;
  pois : list poi;
  poi_count : Z
}.

Definition initial_state : parser_state :=
  ParserState None ∅ None None [] 0.

(** The [event == 'start'] branch of the loop body. *)
Definition on_start (st : parser_state) (tag : string)
    (attrib : gmap string string) : parser_state :=
  if tag =? "node" then
    ParserState (Some "node") ∅ (attrib !! "lat") (attrib !! "lon")
                (pois st) (poi_count st)
  else if tag =? "way" then
    ParserState (Some "way") ∅ (current_lat st) (current_lon st)
                (pois st) (poi_count st)
  else if (tag =? "tag") && truthy_opt (current_element st) then
    match attrib !! "k", attrib !! "v" with
    | Some k, Some v =>
        if truthy k && truthy v then
          ParserState (current_element st) (<[k := v]> (current_tags st))
                      (current_lat st) (current_lon st)
                      (pois st) (poi_count st)
        else st
    | _, _ => st
    end
  else st.

(** The statements after [elem.clear()] in the ['end'] branch. *)
Definition reset_after (tag : string) (st : parser_state) : parser_state :=
  if (tag =? "node") || (tag =? "way") then
    ParserState None ∅ None None (pois st) (poi_count st)
  else st.

(** The [event == 'end'] branch of the loop body. *)
Definition on_end (max_pois : Z) (st : parser_state) (tag : string)
    : control parser_state :=
  if (tag =? "node") && truthy_opt (current_lat st)
     && truthy_opt (current_lon st) then
    let tags := current_tags st in
    let name := get tags "name" "" in
    if truthy name
       && (truthy_opt (tags !! "amenity") || truthy_opt (tags !! "shop")
           || truthy_opt (tags !! "tourism")
           || truthy_opt (tags !! "healthcare")) then
      let category := categorize_poi tags in
      let description :=
        or_str (get tags "amenity" "")
               (or_str (get tags "shop" "") (get tags "tourism" "")) in
      let description :=
        if truthy_opt (tags !! "cuisine")
        then description ++ " (" ++ get tags "cuisine" "" ++ ")"
        else description in
      match py_float (default "" (current_lat st)),
            py_float (default "" (current_lon st)) with
      | Some lat, Some lon =>
          let poi := Poi (strip name) category lat lon (strip description) in
          let st' := ParserState (current_element st) tags
                       (current_lat st) (current_lon st)
                       (append (pois st) poi) (poi_count st + 1) in
          if (max_pois <=? poi_count st')%Z then Break st'
          else Continue (reset_after tag st')
      | _, _ => Raise
      end
    else Continue (reset_after tag st)
  else Continue (reset_after tag st).

Definition on_event (max_pois : Z) (st : parser_state) (ev : xml_event)
    : control parser_state :=
  match ev with
  | Start tag attrib => Continue (on_start st tag attrib)
  | End tag => on_end max_pois st tag
  end.

(** [for event, elem in context]: the events are pulled one at a time;
    pulling past the last one ends the loop or raises. *)
Fixpoint parse_loop (max_pois : Z) (st : parser_state)
    (events : list xml_event) (fin : stream_end)
    : outcome (list poi) :=
  match events with
  | [] =>
      match fin with
      | Eof => Returned (pois st)
      | ParseError => Raised
      end
  | ev :: rest =>
      match on_event max_pois st ev with
      | Continue st' => parse_loop max_pois st' rest fin
      | Break st' => Returned (pois st')
      | Raise => Raised
      end
  end.

(** The [try] block of [parse_osm_xml]: [next(context)] takes the first
    event (the root's start), then the loop runs. *)
Definition parse_osm_xml_try (src : xml_source) (max_pois : Z)
    : outcome (list poi) :=
  match xml_events src with
  | [] => Raised
  | _ :: events => parse_loop max_pois initial_state events (xml_end src)
  end.

(** [parse_osm_xml(osm_file, output_csv, max_pois)]: the rows it writes
    to [output_csv]; no file is written when there are none.  Its return
    value is the number of these rows ([0] after an exception). *)
Definition parse_osm_xml (src : xml_source) (max_pois : Z) : list poi :=
  match parse_osm_xml_try src max_pois with
  | Returned pois => pois
  | Raised => []
  end.

(** The loop of [process_geofabrik_data] over [osm_files], from the
    state [(total_pois, all_pois)]: [pois_extracted] is the number of rows
    [parse_osm_xml] wrote to [temp_csv], and the rows appended to [all_pois]
    are these rows as read back from that file. *)
Fixpoint process_files (max_pois : Z) (osm_files : list xml_source)
    (total_pois : Z) (all_pois : list poi) : outcome (list poi) :=
  match osm_files with
  | [] => Returned all_pois
  | osm_file :: rest =>
      let rows := parse_osm_xml osm_file (max_pois - total_pois) in
      let pois_extracted := len rows in
      if (0 <? pois_extracted)%Z then
        match read_rows rows with
        | Returned rows =>
            let all_pois := (all_pois ++ rows)%list in
            let total_pois := total_pois + pois_extracted in
            if (max_pois <=? total_pois)%Z then Returned all_pois
            else process_files max_pois rest total_pois all_pois
        | Raised => Raised
        end
      else process_files max_pois rest total_pois all_pois
  end.

(** [process_geofabrik_data], from the point where [osm_files] is
    known: the final CSV is written when at least one row was read; an
    exception of the loop is not caught, and no file is written. *)
Definition process_geofabrik_data (osm_files : list xml_source)
    (max_pois : Z) : run_result :=
  match osm_files with
  | [] => NoOutput
  | _ :: _ =>
      match process_files max_pois osm_files 0 [] with
      | Returned [] => NoOutput
      | Returned all_pois => Output all_pois
      | Raised => NoOutput
      end
  end.

End Parser.

End GeofabrikToCsv.

(** ** geofabrik_to_csv_pbf.py *)

Module GeofabrikToCsvPbf.

(** [import osmium]: [ImportError] when the library is not installed. *)
Definition import_osmium (osmium_installed : bool) : outcome unit :=
  if osmium_installed then Returned tt else Raised.

(** The top level of the module, run when the script starts or the module
    is imported.  The [try] statement binds [OSMIUM_AVAILABLE] either way,
    but the name [osmium] only when the import succeeds; the statement
    [class POIHandler(osmium.SimpleHandler)] that follows reads that name, so
    without the library it raises [NameError] and the module does not load.
    The result is the value of [OSMIUM_AVAILABLE] in the loaded module. *)
Definition module_top_level (osmium_installed : bool) : outcome bool :=
  let '(osmium, OSMIUM_AVAILABLE) :=
    match import_osmium osmium_installed with
    | Returned module => (Some module, true)
    | Raised => (None, false)
    end in
  match osmium with
  | Some _ => Returned OSMIUM_AVAILABLE
  | None => Raised
  end.

(** [--bounds MIN_LAT MAX_LAT MIN_LNG MAX_LNG]. *)
Definition bbox : Type := float * float * float * float.

(** [min_lat <= lat <= max_lat and min_lng <= lon <= max_lng]. *)
Definition in_bounds (b : bbox) (lat lon : float) : bool :=
  let '(min_lat, max_lat, min_lng, max_lng) := b in
  between min_lat lat max_lat && between min_lng lon max_lng.

(** [max_pois and len(pois) >= max_pois]: a cap of [None] or [0] is
    falsy and never counts as reached. *)
Definition cap_reached (max_pois : option Z) (pois : list poi) : bool :=
  match max_pois with
  | Some m => negb (m =? 0)%Z && (m <=? len pois)%Z
  | None => false
  end.

(** A node as osmium hands it to the handler: the coordinates its
    location stores and the tag list [n.tags]. *)
Record osm_node : Type := OsmNode {
  location_lat : float;
  location_lon : float;
  node_tags : list (string * string)
}.

(** [n.location.lat] and [n.location.lon]: osmium raises
    [InvalidLocationError] when the location is not valid, that is, when a
    stored coordinate is outside the global range. *)
Definition location (n : osm_node) : outcome (float * float) :=
  if valid_coordinates (location_lat n) (location_lon n)
  then Returned (location_lat n, location_lon n)
  else Raised.

(** A PBF source as osmium decodes it: the nodes in file order, and how
    the decode ends. *)
Record pbf_source : Type := PbfSource {
  pbf_nodes : list osm_node;
  pbf_end : stream_end
}.

(** [{tag.k: tag.v for tag in n.tags}]: a later tag overrides an earlier
    one with the same key. *)
Definition dict_of_tags (l : list (string * string)) : gmap string string :=
  foldl (λ d kv, <[kv.1 := kv.2]> d) ∅ l.

Module POIHandler.

Record t : Type := Handler {
  pois : list poi;
  bounds : option bbox;
  max_pois : option Z;
  processed_count : Z
}.

(** [__init__]. *)
Definition init (bounds : option bbox) (max_pois : option Z) : t :=
  Handler [] bounds max_pois 0.

Definition categorize_poi (tags : gmap string string) : option string :=
  let amenity := get tags "amenity" "" in
  let shop := get tags "shop" "" in
  let tourism := get tags "tourism" "" in
  let healthcare := get tags "healthcare" "" in
  let railway := get tags "railway" "" in
  let aeroway := get tags "aeroway" "" in
  let highway := get tags "highway" "" in
  let leisure := get tags "leisure" "" in
  if in_list amenity ["restaurant"; "cafe"; "fast_food"; "bar"; "pub"; "food_court"; "biergarten"]
  then Some "restaurant"
  else if in_list amenity ["hotel"; "guest_house"; "hostel"; "motel"]
          || in_list tourism ["hotel"; "hostel"; "guest_house"; "motel"]
  then Some "hotel"
  else if in_list amenity ["hospital"; "clinic"; "pharmacy"; "dentist"; "doctors"; "veterinary"]
          || truthy healthcare
  then Some "hospital"
  else if in_list amenity ["bus_station"; "taxi"; "fuel"; "ferry_terminal"]
          || in_list railway ["station"; "halt"; "tram_stop"]
          || in_list aeroway ["aerodrome"; "helipad"]
          || (highway =? "bus_stop")
  then Some "transportation"
  else if in_list amenity ["fuel"; "charging_station"]
  then Some "gas_station"
  else if truthy shop
          || in_list amenity ["marketplace"; "shopping_centre"]
          || ((tourism =? "attraction")
              && contains "market" (lower (get tags "name" "")))
  then Some "shopping"
  else if in_list leisure ["park"; "playground"; "sports_centre"; "stadium"; "swimming_pool"; "golf_course"]
          || in_list amenity ["theatre"; "cinema"; "arts_centre"]
          || in_list tourism ["zoo"; "theme_park"]
  then Some "recreation"
  else if in_list amenity ["school"; "university"; "college"; "kindergarten"; "library"]
  then Some "education"
  else if in_list tourism ["attraction"; "museum"; "monument"; "viewpoint"; "gallery"; "information"]
          || in_list amenity ["place_of_worship"]
          || truthy_opt (tags !! "historic")
  then Some "tourism"
  else if in_list amenity ["bank"; "atm"; "post_office"; "police"; "fire_station"; "courthouse"; "townhall"]
  then Some "services"
  else None.

Definition get_description (tags : gmap string string) : string :=
  let parts : list string := [] in
  let parts := if has_key tags "amenity"
               then append parts ("Amenity: " ++ get tags "amenity" "") else parts in
  let parts := if has_key tags "shop"
               then append parts ("Shop: " ++ get tags "shop" "") else parts in
  let parts := if has_key tags "tourism"
               then append parts ("Tourism: " ++ get tags "tourism" "") else parts in
  let parts := if has_key tags "addr:street"
               then append parts ("Street: " ++ get tags "addr:street" "") else parts in
  let parts := if has_key tags "addr:city"
               then append parts ("City: " ++ get tags "addr:city" "") else parts in
  let parts := if has_key tags "cuisine"
               then append parts ("Cuisine: " ++ get tags "cuisine" "") else parts in
  let parts := if has_key tags "description"
               then append parts (get tags "description" "") else parts in
  match parts with
  | [] => "OSM Point of Interest"
  | _ :: _ => join "; " parts
  end.

(** [node(self, n)]: every [return] leaves [self] as it is; reading the
    location of the node can raise. *)
Definition node (self : t) (n : osm_node) : outcome t :=
  if cap_reached (max_pois self) (pois self) then Returned self
  else
    match match bounds self with
          | Some b =>
              match location n with
              | Returned (lat, lon) => Returned (negb (in_bounds b lat lon))
              | Raised => Raised
              end
          | None => Returned false
          end with
    | Raised => Raised
    | Returned true => Returned self
    | Returned false =>
        let tags := dict_of_tags (node_tags n) in
        if negb (nonempty_dict tags) then Returned self
        else
          match categorize_poi tags with
          | None => Returned self
          | Some category =>
              if negb (truthy category) then Returned self
              else
                let name := get tags "name" ("Unknown " ++ title category) in
                let description := get_description tags in
                match location n with
                | Raised => Raised
                | Returned (lat, lng) =>
                    if negb (valid_coordinates lat lng) then Returned self
                    else
                      Returned
                        (Handler (append (pois self)
                                         (Poi name category lat lng description))
                                 (bounds self) (max_pois self)
                                 (processed_count self))
                end
          end
    end.

(** The callbacks of one decode: [node] on every node in file order, up to
    the first one that raises. *)
Fixpoint apply_nodes (self : t) (nodes : list osm_node) : outcome t :=
  match nodes with
  | [] => Returned self
  | n :: rest =>
      match node self n with
      | Returned self => apply_nodes self rest
      | Raised => Raised
      end
  end.

(** [apply_file]: osmium decodes the whole file and calls [node] on
    every node it meets; an exception of the callback and a decode failure
    are raised to the caller. *)
Definition apply_file (self : t) (src : pbf_source) : outcome t :=
  match apply_nodes self (pbf_nodes src) with
  | Returned self =>
      match pbf_end src with
      | Eof => Returned self
      | ParseError => Raised
      end
  | Raised => Raised
  end.

End POIHandler.

Definition categorize_poi_xml (tags : gmap string string) : option string :=
  let amenity := get tags "amenity" "" in
  let shop := get tags "shop" "" in
  let tourism := get tags "tourism" "" in
  let healthcare := get tags "healthcare" "" in
  let railway := get tags "railway" "" in
  let aeroway := get tags "aeroway" "" in
  let highway := get tags "highway" "" in
  let leisure := get tags "leisure" "" in
  if in_list amenity ["restaurant"; "cafe"; "fast_food"; "bar"; "pub"; "food_court"; "biergarten"]
  then Some "restaurant"
  else if in_list amenity ["hotel"; "guest_house"; "hostel"; "motel"]
          || in_list tourism ["hotel"; "hostel"; "guest_house"; "motel"]
  then Some "hotel"
  else if in_list amenity ["hospital"; "clinic"; "pharmacy"; "dentist"; "doctors"; "veterinary"]
          || truthy healthcare
  then Some "hospital"
  else if in_list amenity ["bus_station"; "taxi"; "fuel"; "ferry_terminal"]
          || in_list railway ["station"; "halt"; "tram_stop"]
          || in_list aeroway ["aerodrome"; "helipad"]
          || (highway =? "bus_stop")
  then Some "transportation"
  else if in_list amenity ["fuel"; "charging_station"]
  then Some "gas_station"
  else if truthy shop
          || in_list amenity ["marketplace"; "shopping_centre"]
          || ((tourism =? "attraction")
              && contains "market" (lower (get tags "name" "")))
  then Some "shopping"
  else if in_list leisure ["park"; "playground"; "sports_centre"; "stadium"; "swimming_pool"; "golf_course"]
          || in_list amenity ["theatre"; "cinema"; "arts_centre"]
          || in_list tourism ["zoo"; "theme_park"]
  then Some "recreation"
  else if in_list amenity ["school"; "university"; "college"; "kindergarten"; "library"]
  then Some "education"
  else if in_list tourism ["attraction"; "museum"; "monument"; "viewpoint"; "gallery"; "information"]
          || in_list amenity ["place_of_worship"]
          || truthy_opt (tags !! "historic")
  then Some "tourism"
  else if in_list amenity ["bank"; "atm"; "post_office"; "police"; "fire_station"; "courthouse"; "townhall"]
  then Some "services"
  else None.

Definition get_description_xml (tags : gmap string string) : string :=
  let parts : list string := [] in
  let parts := if has_key tags "amenity"
               then append parts ("Amenity: " ++ get tags "amenity" "") else parts in
  let parts := if has_key tags "shop"
               then append parts ("Shop: " ++ get tags "shop" "") else parts in
  let parts := if has_key tags "tourism"
               then append parts ("Tourism: " ++ get tags "tourism" "") else parts in
  let parts := if has_key tags "addr:street"
               then append parts ("Street: " ++ get tags "addr:street" "") else parts in
  let parts := if has_key tags "addr:city"
               then append parts ("City: " ++ get tags "addr:city" "") else parts in
  let parts := if has_key tags "cuisine"
               then append parts ("Cuisine: " ++ get tags "cuisine" "") else parts in
  let parts := if has_key tags "description"
               then append parts (get tags "description" "") else parts in
  match parts with
  | [] => "OSM Point of Interest"
  | _ :: _ => join "; " parts
  end.

(** [parse_osm_pbf]; [osmium_available] is the module's
    [OSMIUM_AVAILABLE] flag. *)
Definition parse_osm_pbf (osmium_available : bool) (src : pbf_source)
    (bounds : option bbox) (max_pois : option Z) : outcome (list poi) :=
  if negb osmium_available then Raised
  else
    let handler := POIHandler.init bounds max_pois in
    match POIHandler.apply_file handler src with
    | Returned handler => Returned (POIHandler.pois handler)
    | Raised => Raised
    end.

(** An input file of [main]: its name ends in [.pbf] or it does not, and
    the matching reader sees its content as a stream. *)
Inductive osm_file : Type :=
| XmlFile (src : xml_source)
| PbfFile (src : pbf_source).

Section Parser.

(** The builtin [float(s)]; [None] stands for [ValueError]. *)
Variable py_float : string → option float.

(** The local variables of [parse_osm_xml]. *)
Record parser_state : Type := ParserState {
  current_node : option (float * float);
  current_tags : gmap string string;
  pois : list poi
}.

Definition initial_state : parser_state := ParserState None ∅ [].

(** The [event == 'start'] branch of the loop body. *)
Definition on_start (st : parser_state) (tag : string)
    (attrib : gmap string string) : control parser_state :=
  if tag =? "node" then
    match attrib !! "lat", attrib !! "lon" with
    | Some lat, Some lon =>
        if truthy lat && truthy lon then
          match py_float lat, py_float lon with
          | Some lat, Some lon =>
              Continue (ParserState (Some (lat, lon)) ∅ (pois st))
          | _, _ => Raise
          end
        else Continue st
    | _, _ => Continue st
    end
  else if (tag =? "tag") && bool_decide (is_Some (current_node st)) then
    match attrib !! "k", attrib !! "v" with
    | Some k, Some v =>
        if truthy k && truthy v then
          Continue (ParserState (current_node st)
                                (<[k := v]> (current_tags st)) (pois st))
        else Continue st
    | _, _ => Continue st
    end
  else Continue st.

(** The [event == 'end'] branch of the loop body. *)
Definition on_end (bounds : option bbox) (max_pois : option Z)
    (st : parser_state) (tag : string) : control parser_state :=
  match current_node st with
  | Some (lat, lon) =>
      if (tag =? "node") && nonempty_dict (current_tags st) then
        if match bounds with
           | Some b => negb (in_bounds b lat lon)
           | None => false
           end
        then Continue (ParserState None ∅ (pois st))
        else
          match categorize_poi_xml (current_tags st) with
          | Some category =>
              if truthy category then
                let name :=
                  get (current_tags st) "name" ("Unknown " ++ title category) in
                let description := get_description_xml (current_tags st) in
                let pois :=
                  append (pois st) (Poi name category lat lon description) in
                if cap_reached max_pois pois
                then Break (ParserState (current_node st) (current_tags st) pois)
                else Continue (ParserState None ∅ pois)
              else Continue (ParserState None ∅ (pois st))
          | None => Continue (ParserState None ∅ (pois st))
          end
      else Continue st
  | None => Continue st
  end.

Definition on_event (bounds : option bbox) (max_pois : option Z)
    (st : parser_state) (ev : xml_event) : control parser_state :=
  match ev with
  | Start tag attrib => on_start st tag attrib
  | End tag => on_end bounds max_pois st tag
  end.

(** [for event, elem in context]: the events are pulled one at a time;
    pulling past the last one ends the loop or raises. *)
Fixpoint parse_loop (bounds : option bbox) (max_pois : option Z)
    (st : parser_state) (events : list xml_event) (fin : stream_end)
    : outcome (list poi) :=
  match events with
  | [] =>
      match fin with
      | Eof => Returned (pois st)
      | ParseError => Raised
      end
  | ev :: rest =>
      match on_event bounds max_pois st ev with
      | Continue st' => parse_loop bounds max_pois st' rest fin
      | Break st' => Returned (pois st')
      | Raise => Raised
      end
  end.

(** The [try] block of [parse_osm_xml]: [next(context)] takes the first
    event (the root's start), then the loop runs. *)
Definition parse_osm_xml_try (src : xml_source) (bounds : option bbox)
    (max_pois : option Z) : outcome (list poi) :=
  match xml_events src with
  | [] => Raised
  | _ :: events =>
      parse_loop bounds max_pois initial_state events (xml_end src)
  end.

(** [parse_osm_xml]: [except Exception] turns any failure into [[]]. *)
Definition parse_osm_xml (src : xml_source) (bounds : option bbox)
    (max_pois : option Z) : list poi :=
  match parse_osm_xml_try src bounds max_pois with
  | Returned pois => pois
  | Raised => []
  end.

(** The per-file loop of [main] from the state [all_pois]; [None] is the
    [return 1] taken inside the loop.  [osmium_available] is the module's
    [OSMIUM_AVAILABLE], which [module_top_level] leaves [True] whenever the
    module loads. *)
Fixpoint main_loop (osmium_available : bool) (bounds : option bbox)
    (max_pois : Z) (osm_files : list osm_file) (all_pois : list poi)
    : option (list poi) :=
  match osm_files with
  | [] => Some all_pois
  | osm_file :: rest =>
      let parsed :=
        match osm_file with
        | PbfFile src =>
            if negb osmium_available then None
            else Some (parse_osm_pbf osmium_available src bounds
                         (Some (max_pois - len all_pois)))
        | XmlFile src =>
            Some (Returned (parse_osm_xml src bounds
                              (Some (max_pois - len all_pois))))
        end in
      match parsed with
      | None => None
      | Some (Returned pois) =>
          let all_pois := (all_pois ++ pois)%list in
          if negb (max_pois =? 0)%Z && (max_pois <=? len all_pois)%Z
          then Some all_pois
          else main_loop osmium_available bounds max_pois rest all_pois
      | Some Raised =>
          main_loop osmium_available bounds max_pois rest all_pois
      end
  end.

(** [main], from the point where [osm_files] is known, up to
    [write_csv]. *)
Definition main (osmium_available : bool) (bounds : option bbox)
    (max_pois : Z) (osm_files : list osm_file) : run_result :=
  match osm_files with
  | [] => NoOutput
  | _ :: _ =>
      match main_loop osmium_available bounds max_pois osm_files [] with
      | None => NoOutput
      | Some [] => NoOutput
      | Some all_pois => Output all_pois
      end
  end.

(** The script from its start: the module's top level, then
    [sys.exit(main())] under [if __name__ == "__main__"]. *)
Definition script (osmium_installed : bool) (bounds : option bbox)
    (max_pois : Z) (osm_files : list osm_file) : outcome run_result :=
  match module_top_level osmium_installed with
  | Returned OSMIUM_AVAILABLE =>
      Returned (main OSMIUM_AVAILABLE bounds max_pois osm_files)
  | Raised => Raised
  end.

End Parser.

End GeofabrikToCsvPbf.

(** ** Sample inputs *)

Module Samples.

Import GeofabrikToCsvPbf.

(** A reader for plain decimal literals ([-12], [25.6093]), standing in for
    the builtin [float] where a concrete run is evaluated. *)
Definition digit_value (c : ascii) : option float :=
  match c with
  | "0"%char => Some 0%float | "1"%char => Some 1%float
  | "2"%char => Some 2%float | "3"%char => Some 3%float
  | "4"%char => Some 4%float | "5"%char => Some 5%float
  | "6"%char => Some 6%float | "7"%char => Some 7%float
  | "8"%char => Some 8%float | "9"%char => Some 9%float
  | _ => None
  end.

Fixpoint decimal_digits (seen_digit seen_dot : bool) (num den : float)
    (s : string) : option float :=
  match s with
  | EmptyString => if seen_digit then Some (num / den)%float else None
  | String "."%char s' =>
      if seen_dot then None else decimal_digits seen_digit true num den s'
  | String c s' =>
      match digit_value c with
      | Some d =>
          decimal_digits true seen_dot (num * 10 + d)%float
                         (if seen_dot then (den * 10)%float else den) s'
      | None => None
      end
  end.

Definition decimal_float (s : string) : option float :=
  match s with
  | String "-"%char s' =>
      option_map PrimFloat.opp (decimal_digits false false 0%float 1%float s')
  | _ => decimal_digits false false 0%float 1%float s
  end.

(** [<tag k=... v=.../>] as its two events. *)
Definition tag_events (k v : string) : list xml_event :=
  [Start "tag" (<["k" := k]> (<["v" := v]> ∅)); End "tag"].

(** [<node lat=... lon=...> tags </node>] as its events. *)
Definition node_events (lat lon : string) (tags : list (string * string))
    : list xml_event :=
  (Start "node" (<["lat" := lat]> (<["lon" := lon]> ∅))
     :: concat (map (λ kv, tag_events kv.1 kv.2) tags) ++ [End "node"])%list.

(** [<osm> nodes </osm>], read to the end. *)
Definition osm_document (nodes : list (list xml_event)) : xml_source :=
  XmlSource (Start "osm" ∅ :: concat nodes ++ [End "osm"])%list Eof.

(** The same document cut off after its last node: the reader raises. *)
Definition truncated_document (nodes : list (list xml_event)) : xml_source :=
  XmlSource (Start "osm" ∅ :: concat nodes)%list ParseError.

(** An XML extract with two nodes that are POIs for both scripts. *)
Definition town_xml_nodes : list (list xml_event) :=
  [node_events "25.5" "85.25"
     [("name", "Cafe X"); ("amenity", "restaurant"); ("cuisine", "italian")];
   node_events "25.75" "85.5" [("name", "City Bank"); ("amenity", "bank")]].

Definition town_xml : xml_source := osm_document town_xml_nodes.

(** The same extract, cut off after the two nodes. *)
Definition truncated_town_xml : xml_source := truncated_document town_xml_nodes.

(** A node outside the global coordinate range. *)
Definition far_xml : xml_source :=
  osm_document
    [node_events "95.0" "200.0" [("name", "Far Cafe"); ("amenity", "cafe")]].

(** A node whose name is a single space. *)
Definition blank_name_xml : xml_source :=
  osm_document
    [node_events "25.5" "85.25" [("name", " "); ("amenity", "cafe")]].

(** Two nodes of a PBF file, each with a row of its own. *)
Definition cafe_node : osm_node :=
  OsmNode 25.5%float 85.25%float [("amenity", "cafe"); ("name", "Chai Point")].

Definition bank_node : osm_node :=
  OsmNode 25.75%float 85.5%float [("amenity", "bank")].

(** A node whose name tag has an empty value. *)
Definition empty_name_node : osm_node :=
  OsmNode 25.5%float 85.25%float [("name", ""); ("amenity", "cafe")].

Definition town_pbf : pbf_source := PbfSource [cafe_node; bank_node] Eof.

(** A node with tags of a POI whose location is outside the global range. *)
Definition far_node : osm_node :=
  OsmNode 95%float 200%float [("amenity", "cafe"); ("name", "Far Cafe")].


End Samples.

(** ** The specification's wording *)

Module Spec.

Import GeofabrikToCsvPbf.

(** Agreement of the three categorizers on one tag set: the text-tree
    script's [categorize_poi] and the handler's [categorize_poi] both give the
    category of [categorize_poi_xml]. *)
Definition categorizers_agree (tags : gmap string string) : Prop :=
  Some (GeofabrikToCsv.categorize_poi tags) = categorize_poi_xml tags
  ∧ POIHandler.categorize_poi tags = categorize_poi_xml tags.

(** The rule table of the PBF converter as an ordered list of predicates on
    the tag set, each with its category. *)
Definition rule : Type := (gmap string string → bool) * string.

Definition rule_table : list rule :=
  [ (λ tags, in_list (get tags "amenity" "")
               ["restaurant"; "cafe"; "fast_food"; "bar"; "pub"; "food_court";
                "biergarten"],
     "restaurant");
    (λ tags, in_list (get tags "amenity" "")
               ["hotel"; "guest_house"; "hostel"; "motel"]
             || in_list (get tags "tourism" "")
                  ["hotel"; "hostel"; "guest_house"; "motel"],
     "hotel");
    (λ tags, in_list (get tags "amenity" "")
               ["hospital"; "clinic"; "pharmacy"; "dentist"; "doctors";
                "veterinary"]
             || truthy (get tags "healthcare" ""),
     "hospital");
    (λ tags, in_list (get tags "amenity" "")
               ["bus_station"; "taxi"; "fuel"; "ferry_terminal"]
             || in_list (get tags "railway" "") ["station"; "halt"; "tram_stop"]
             || in_list (get tags "aeroway" "") ["aerodrome"; "helipad"]
             || (get tags "highway" "" =? "bus_stop"),
     "transportation");
    (λ tags, in_list (get tags "amenity" "") ["fuel"; "charging_station"],
     "gas_station");
    (λ tags, truthy (get tags "shop" "")
             || in_list (get tags "amenity" "") ["marketplace"; "shopping_centre"]
             || ((get tags "tourism" "" =? "attraction")
                 && contains "market" (lower (get tags "name" ""))),
     "shopping");
    (λ tags, in_list (get tags "leisure" "")
               ["park"; "playground"; "sports_centre"; "stadium";
                "swimming_pool"; "golf_course"]
             || in_list (get tags "amenity" "") ["theatre"; "cinema"; "arts_centre"]
             || in_list (get tags "tourism" "") ["zoo"; "theme_park"],
     "recreation");
    (λ tags, in_list (get tags "amenity" "")
               ["school"; "university"; "college"; "kindergarten"; "library"],
     "education");
    (λ tags, in_list (get tags "tourism" "")
               ["attraction"; "museum"; "monument"; "viewpoint"; "gallery";
                "information"]
             || in_list (get tags "amenity" "") ["place_of_worship"]
             || truthy_opt (tags !! "historic"),
     "tourism");
    (λ tags, in_list (get tags "amenity" "")
               ["bank"; "atm"; "post_office"; "police"; "fire_station";
                "courthouse"; "townhall"],
     "services") ].

(** First match wins: the category of the first rule, in order, whose
    predicate holds; [None] when no rule matches. *)
Fixpoint first_match (rules : list rule) (tags : gmap string string)
    : option string :=
  match rules with
  | [] => None
  | (matches, category) :: rest =>
      if matches tags then Some category else first_match rest tags
  end.

(** At least one rule of the table matches. *)
Definition some_rule_matches (tags : gmap string string) : Prop :=
  is_Some (categorize_poi_xml tags).

(** The fields of a description in their fixed order, each with its label;
    [free_text_label] is the label of the free-text description tag. *)
Definition labelled_fields (free_text_label : string)
    : list (string * string) :=
  [("amenity", "Amenity"); ("shop", "Shop"); ("tourism", "Tourism");
   ("addr:street", "Street"); ("addr:city", "City"); ("cuisine", "Cuisine");
   ("description", free_text_label)].

Definition sentinel : string := "OSM Point of Interest".

(** [describe] as worded: every present field as ["Label: value"], joined
    with ["; "]; the sentinel when none is present. *)
Definition describe_labelled (free_text_label : string)
    (tags : gmap string string) : string :=
  match omap (λ '(k, label), (λ v, label ++ ": " ++ v) <$> tags !! k)
             (labelled_fields free_text_label) with
  | [] => sentinel
  | parts => join "; " parts
  end.

(** The same with the free-text description tag appended as it is, without
    a label. *)
Definition described_fields : list (string * option string) :=
  [("amenity", Some "Amenity"); ("shop", Some "Shop");
   ("tourism", Some "Tourism"); ("addr:street", Some "Street");
   ("addr:city", Some "City"); ("cuisine", Some "Cuisine");
   ("description", None)].

Definition render (label : option string) (v : string) : string :=
  match label with
  | Some l => l ++ ": " ++ v
  | None => v
  end.

Definition describe (tags : gmap string string) : string :=
  match omap (λ '(k, label), render label <$> tags !! k) described_fields with
  | [] => sentinel
  | parts => join "; " parts
  end.

(** The row a node yields when no cap applies: the node lies in the
    bounding box if one is given, has tags, falls in a category and has
    coordinates in the global range. *)
Definition matching_poi (bounds : option bbox) (n : osm_node) : option poi :=
  let tags := dict_of_tags (node_tags n) in
  let lat := location_lat n in
  let lon := location_lon n in
  if match bounds with
     | Some b => in_bounds b lat lon
     | None => true
     end && nonempty_dict tags && valid_coordinates lat lon
  then
    match POIHandler.categorize_poi tags with
    | Some category =>
        if truthy category
        then Some (Poi (get tags "name" ("Unknown " ++ title category))
                       category lat lon (POIHandler.get_description tags))
        else None
    | None => None
    end
  else None.

(** Early exit as worded: once the handler holds its cap of rows after the
    nodes [pre], nothing after [pre] is decoded, so the call returns these
    rows whatever follows [pre] in the source. *)
Definition decode_stops_at_cap (bounds : option bbox) (cap : Z)
    (pre post : list osm_node) (fin : stream_end) : Prop :=
  ∀ h,
    POIHandler.apply_nodes (POIHandler.init bounds (Some cap)) pre
    = Returned h →
    cap_reached (Some cap) (POIHandler.pois h) = true →
    parse_osm_pbf true (PbfSource (pre ++ post) fin) bounds (Some cap)
    = Returned (POIHandler.pois h).

(** The parse of a file raises under the budget it is given: the [try]
    block of [parse_osm_xml] raises, or the decoder is there and
    [apply_file] raises. *)
Definition parse_fails (py_float : string → option float) (avail : bool)
    (bounds : option bbox) (budget : Z) (f : osm_file) : Prop :=
  match f with
  | XmlFile src => parse_osm_xml_try py_float src bounds (Some budget) = Raised
  | PbfFile src =>
      avail = true
      ∧ POIHandler.apply_file (POIHandler.init bounds (Some budget)) src
        = Raised
  end.

(** A row whose coordinates lie in the global range. *)
Definition in_global_range (r : poi) : Prop :=
  valid_coordinates (latitude r) (longitude r) = true.

(** A row whose name is not empty. *)
Definition has_name (r : poi) : Prop := truthy (name r) = true.

(** A state of the PBF converter's XML parser in which no collected tag
    has an empty value and every row has a name. *)
Definition named_state (st : parser_state) : Prop :=
  (∀ k v, current_tags st !! k = Some v → truthy v = true)
  ∧ Forall has_name (pois st).

End Spec.

(** ** Rows, labels and summaries *)

Module Rows.

Import GeofabrikToCsvPbf.

(** The categories [categorize_poi_xml] and the handler can return. *)
Definition pbf_labels : list string :=
  ["restaurant"; "hotel"; "hospital"; "transportation"; "gas_station";
   "shopping"; "recreation"; "education"; "tourism"; "services"].

(** The categories [categorize_poi] of the XML-only script can return. *)
Definition csv_labels : list string :=
  ["restaurant"; "hotel"; "hospital"; "transportation"; "education";
   "shopping"; "bank"; "emergency"; "tourism"; "entertainment"; "other"].

(** A row inside the bounding box, if one is given. *)
Definition in_box (bounds : option bbox) (r : poi) : Prop :=
  match bounds with
  | Some b => in_bounds b (latitude r) (longitude r) = true
  | None => True
  end.

(** The row the XML parser of the PBF converter appends at the end of a
    node at [lat, lon] that carries the tags [tags], if it appends one. *)
Definition xml_row (bounds : option bbox) (tags : gmap string string)
    (lat lon : float) : option poi :=
  if nonempty_dict tags
     && match bounds with
        | Some b => in_bounds b lat lon
        | None => true
        end
  then
    match categorize_poi_xml tags with
    | Some category =>
        if truthy category
        then Some (Poi (get tags "name" ("Unknown " ++ title category))
                       category lat lon (get_description_xml tags))
        else None
    | None => None
    end
  else None.

(** No value of the tag set is the empty string. *)
Definition no_empty_value (tags : gmap string string) : Prop :=
  ∀ k v, tags !! k = Some v → truthy v = true.

(** A row the XML parser of the PBF converter can append: the row of some
    node end whose tags have no empty value. *)
Definition xml_made (bounds : option bbox) (r : poi) : Prop :=
  ∃ tags lat lon, no_empty_value tags ∧ xml_row bounds tags lat lon = Some r.

(** A state of the XML parser whose collected tags have no empty value and
    whose rows were all appended in this way. *)
Definition made_state (bounds : option bbox) (st : parser_state) : Prop :=
  no_empty_value (current_tags st) ∧ Forall (xml_made bounds) (pois st).

(** Below its cap, [node] reads the location of a node when a bounding
    box is given, or else when the node has tags that fall in a category;
    this tells whether the location it then reads is not valid, so that the
    callback raises. *)
Definition reads_invalid_location (bounds : option bbox) (n : osm_node)
    : bool :=
  let tags := dict_of_tags (node_tags n) in
  negb (valid_coordinates (location_lat n) (location_lon n))
  && (bool_decide (is_Some bounds)
      || (nonempty_dict tags
          && match POIHandler.categorize_poi tags with
             | Some category => truthy category
             | None => false
             end)).

(** A string that [strip] leaves as it is. *)
Definition stripped (s : string) : Prop := strip s = s.

(** A row as the XML-only script builds it: name and description are
    stripped and the category is one of its eleven labels. *)
Definition csv_checked (r : poi) : Prop :=
  stripped (name r) ∧ stripped (description r)
  ∧ in_list (category r) csv_labels = true.

(** The category breakdown printed after a run:
    [categories[cat] = categories.get(cat, 0) + 1] for each row. *)
Definition count_categories (rows : list poi) : gmap string Z :=
  foldl (λ categories r,
           <[category r := default 0%Z (categories !! category r) + 1]>
             categories)
        ∅ rows.

(** The number of rows of category [c]. *)
Definition rows_of_category (c : string) (rows : list poi) : Z :=
  len (filter (λ r, category r = c) rows).

(** A node element of an XML extract: the texts of its [lat] and [lon]
    attributes and its [k], [v] tag pairs in document order. *)
Record xml_node : Type := XmlNode {
  lat_text : string;
  lon_text : string;
  xml_tags : list (string * string)
}.

Definition node_xml (x : xml_node) : list xml_event :=
  Samples.node_events (lat_text x) (lon_text x) (xml_tags x).

(** The extract [<osm> nodes </osm>]. *)
Definition xml_of_nodes (xs : list xml_node) : xml_source :=
  Samples.osm_document (map node_xml xs).

(** The XML node [x] and the decoded node [n] are the same node: the
    coordinate texts are there and read as the coordinates of [n], the tags
    are the same, and no tag has an empty key or value. *)
Definition same_node (py_float : string → option float) (x : xml_node)
    (n : osm_node) : Prop :=
  truthy (lat_text x) = true ∧ truthy (lon_text x) = true
  ∧ py_float (lat_text x) = Some (location_lat n)
  ∧ py_float (lon_text x) = Some (location_lon n)
  ∧ xml_tags x = node_tags n
  ∧ Forall (λ kv, truthy kv.1 = true ∧ truthy kv.2 = true) (xml_tags x).

(** The rows a file gives when it is read to its end without a cap;
    [None] when that read raises. *)
Definition file_rows (py_float : string → option float)
    (bounds : option bbox) (f : osm_file) : option (list poi) :=
  match f with
  | XmlFile src =>
      match parse_osm_xml_try py_float src bounds None with
      | Returned rows => Some rows
      | Raised => None
      end
  | PbfFile src =>
      match parse_osm_pbf true src bounds None with
      | Returned rows => Some rows
      | Raised => None
      end
  end.

(** How the files of a run fared, one entry per file: [None] for a file
    whose parse raised, [Some rows] for a file that was read to its end and
    holds [rows].  The rows of the files that parsed, in file order: *)
Definition surviving_rows (parsed : list (option (list poi))) : list poi :=
  concat (omap id parsed).


(** A run under the cap [K] whose files fare as [parsed] says; [collected]
    counts the rows of the files before.  A file marked [None] fails under
    the budget [K - collected] that the loop hands it, as [fails] tells; a
    file marked [Some rows] holds [rows] when it is read to its end, as
    [gives] tells. *)
Fixpoint run_parsed {F : Type} (fails : Z → F → Prop)
    (gives : F → list poi → Prop) (K collected : Z) (files : list F)
    (parsed : list (option (list poi))) : Prop :=
  match files, parsed with
  | [], [] => True
  | f :: files, None :: parsed =>
      ((collected < K)%Z → fails (K - collected)%Z f)
      ∧ run_parsed fails gives K collected files parsed
  | f :: files, Some rows :: parsed =>
      gives f rows
      ∧ run_parsed fails gives K (collected + len rows)%Z files parsed
  | _, _ => False
  end.


(** The events the XML parser of the PBF converter acts on: the start of
    a node or tag element and the end of a node element. *)
Definition pbf_relevant (ev : xml_event) : bool :=
  match ev with
  | Start tag _ => (tag =? "node") || (tag =? "tag")
  | End tag => tag =? "node"
  end.

(** The events the parser of the XML-only script acts on: the start of a
    node, way or tag element and the end of a node or way element. *)
Definition csv_relevant (ev : xml_event) : bool :=
  match ev with
  | Start tag _ => (tag =? "node") || (tag =? "way") || (tag =? "tag")
  | End tag => (tag =? "node") || (tag =? "way")
  end.

(** The value of the last pair with key [k] in a tag list. *)
Definition last_value (k : string) (l : list (string * string))
    : option string :=
  last (omap (λ kv, if decide (kv.1 = k) then Some kv.2 else None) l).

(** The rows the XML-only script gives for a file it reads to its end:
    what it returns under some cap that it does not fill. *)
Definition csv_file_rows (py_float : string → option float)
    (src : xml_source) (rows : list poi) : Prop :=
  ∃ M : Z, GeofabrikToCsv.parse_osm_xml_try py_float src M = Returned rows
           ∧ (len rows < M)%Z.


(** The string holds a carriage return. *)
Fixpoint has_cr (s : string) : bool :=
  match s with
  | EmptyString => false
  | String c s' => Ascii.eqb c "013"%char || has_cr s'
  end.

(** A row without a carriage return in its text columns. *)
Definition cr_free (r : poi) : Prop :=
  has_cr (name r) = false ∧ has_cr (category r) = false
  ∧ has_cr (description r) = false.

(** The two sample nodes of [Samples.town_pbf] as XML node elements. *)
Definition sample_xml_nodes : list xml_node :=
  [XmlNode "25.5" "85.25" [("amenity", "cafe"); ("name", "Chai Point")];
   XmlNode "25.75" "85.5" [("amenity", "bank")]].

End Rows.

(** ** Finding and opening the files of an extracted archive *)

Module Discovery.

(** [s.endswith(suffix)]: some tail of [s] is [suffix]. *)
Fixpoint endswith (s suffix : string) : bool :=
  (s =? suffix)
  || match s with
     | EmptyString => false
     | String _ s' => endswith s' suffix
     end.

(** [os.path.join(a, b)] on POSIX paths. *)
Definition path_join (a b : string) : string :=
  if String.prefix "/" b then b
  else if (a =? "") || endswith a "/" then a ++ b
  else a ++ "/" ++ b.

(** One triple [(root, dirs, files)] of [os.walk(directory)]. *)
Definition walk_entry : Type := string * list string * list string.

(** The file names the XML-only script keeps. *)
Definition csv_keeps (file : string) : bool :=
  endswith file ".osm" || endswith file ".osm.bz2" || endswith file ".osm.pbf".

(** [any(file.endswith(ext) for ext in [...])] of the PBF converter. *)
Definition pbf_keeps (file : string) : bool :=
  existsb (endswith file) [".osm"; ".osm.bz2"; ".osm.gz"; ".osm.pbf"].

(** The two nested loops of [find_osm_files] over the triples of
    [os.walk], for a test [keeps] on file names. *)
Definition find_files (keeps : string → bool) (walk : list walk_entry)
    : list string :=
  flat_map (λ '(root, _, files),
              map (path_join root) (List.filter keeps files))
           walk.

Module XmlOnly.

Definition find_osm_files (walk : list walk_entry) : list string :=
  find_files csv_keeps walk.

End XmlOnly.

Module Pbf.

Definition find_osm_files (walk : list walk_entry) : list string :=
  find_files pbf_keeps walk.

(** How [open_osm_file] opens a path. *)
Inductive opener : Type :=
| Bz2Text
| GzipText
| PlainText.

Definition open_osm_file (file_path : string) : opener :=
  if endswith file_path ".bz2" then Bz2Text
  else if endswith file_path ".gz" then GzipText
  else PlainText.

(** The reader [main] hands a file to: osmium for a name that ends in
    [.pbf], else the XML parser on what [open_osm_file] opens. *)
Inductive reader : Type :=
| Osmium
| XmlOn (how : opener).

Definition reader_of (osm_file : string) : reader :=
  if endswith osm_file ".pbf" then Osmium
  else XmlOn (open_osm_file osm_file).

End Pbf.

(** The reader that fits the extension of a kept file. *)
Definition fits (path : string) (r : Pbf.reader) : Prop :=
  match r with
  | Pbf.Osmium => endswith path ".osm.pbf" = true
  | Pbf.XmlOn Pbf.Bz2Text =>
      endswith path ".osm.bz2" = true
  | Pbf.XmlOn Pbf.GzipText =>
      endswith path ".osm.gz" = true
  | Pbf.XmlOn Pbf.PlainText =>
      endswith path ".osm" = true
  end.

End Discovery.

(** * Properties *)

Import GeofabrikToCsvPbf.

(** ** Categorizers *)

(** The gas-station rule can only fire on [charging_station]: its [fuel]
    entry is shadowed by the transportation rule evaluated before it. *)
Lemma gas_station_only_charging (tags : gmap string string) :
  categorize_poi_xml tags = Some "gas_station" →
  tags !! "amenity" = Some "charging_station".
Proof.
  unfold categorize_poi_xml, get.
  destruct (tags !! "amenity") as [a|] eqn:Ha; simpl.
  - repeat match goal with
           | |- context [String.eqb a ?s] =>
               destruct (String.eqb_spec a s); [subst a; simpl|]
           end;
      repeat match goal with
             | |- context [if ?b then _ else _] => destruct b; simpl
             end; congruence.
  - repeat match goal with
           | |- context [if ?b then _ else _] => destruct b; simpl
           end; congruence.
Qed.

(** Whatever else the tag set holds, [amenity=fuel] never gives
    [gas_station]. *)
Lemma amenity_fuel_never_gas_station (tags : gmap string string) :
  tags !! "amenity" = Some "fuel" →
  categorize_poi_xml tags ≠ Some "gas_station".
Proof.
  intros Hfuel Hgas. apply gas_station_only_charging in Hgas.
  rewrite Hfuel in Hgas. discriminate Hgas.
Qed.

(** C3: on the tag set [{amenity: fuel}] both categorizers of the PBF
    converter return [transportation], not [gas_station]: the transportation
    rule lists [fuel] and is evaluated first. *)
Theorem amenity_fuel_is_transportation :
  categorize_poi_xml {[ "amenity" := "fuel" ]} = Some "transportation"
  ∧ POIHandler.categorize_poi {[ "amenity" := "fuel" ]} = Some "transportation".
Proof. split; reflexivity. Qed.

(** C2, as stated, fails on [{amenity: bank}]: the services rule matches,
    [categorize_poi_xml] answers [services] and the text-tree script's
    [categorize_poi] answers [bank]. *)
Lemma categorizers_disagree_on_bank :
  ¬ (Spec.some_rule_matches {[ "amenity" := "bank" ]} →
     Spec.categorizers_agree {[ "amenity" := "bank" ]}).
Proof.
  intros H. destruct H as [H _].
  - exists "services". reflexivity.
  - vm_compute in H. discriminate H.
Qed.

(** Unfolding of [first_match] on a table that starts with a given rule. *)
Lemma first_match_cons (matches : gmap string string → bool)
    (category : string) (rest : list Spec.rule) (tags : gmap string string) :
  Spec.first_match ((matches, category) :: rest) tags
  = if matches tags then Some category else Spec.first_match rest tags.
Proof. reflexivity. Qed.

Lemma categorize_poi_xml_first_match (tags : gmap string string) :
  categorize_poi_xml tags = Spec.first_match Spec.rule_table tags.
Proof.
  unfold categorize_poi_xml, Spec.rule_table. cbv zeta.
  repeat (rewrite first_match_cons;
          match goal with
          | |- (if ?b then _ else _) = _ => destruct b; [reflexivity|]
          end).
  reflexivity.
Qed.

Lemma handler_categorize_poi_first_match (tags : gmap string string) :
  POIHandler.categorize_poi tags = Spec.first_match Spec.rule_table tags.
Proof.
  unfold POIHandler.categorize_poi, Spec.rule_table. cbv zeta.
  repeat (rewrite first_match_cons;
          match goal with
          | |- (if ?b then _ else _) = _ => destruct b; [reflexivity|]
          end).
  reflexivity.
Qed.

(** C2, amended: the two categorizers of the PBF converter, the handler's
    [categorize_poi] and [categorize_poi_xml], return the same category on
    every tag set: each is the first match, in order, of one and the same
    ten-rule table. *)
Theorem handler_and_xml_categorizers_agree (tags : gmap string string) :
  POIHandler.categorize_poi tags = categorize_poi_xml tags
  ∧ categorize_poi_xml tags = Spec.first_match Spec.rule_table tags.
Proof.
  split.
  - transitivity (Spec.first_match Spec.rule_table tags).
    + apply handler_categorize_poi_first_match.
    + symmetry. apply categorize_poi_xml_first_match.
  - apply categorize_poi_xml_first_match.
Qed.

(** ** Description builders *)

(** Both sides depend on the tag set through seven lookups only. *)
Ltac by_lookup_cases :=
  cbn -[lookup];
  match goal with
  | tags : gmap string string |- _ =>
      generalize (tags !! "amenity") (tags !! "shop") (tags !! "tourism")
                 (tags !! "addr:street") (tags !! "addr:city")
                 (tags !! "cuisine") (tags !! "description")
  end;
  intros [?|] [?|] [?|] [?|] [?|] [?|] [?|]; reflexivity.

Lemma get_description_xml_describe (tags : gmap string string) :
  get_description_xml tags = Spec.describe tags.
Proof.
  unfold get_description_xml, Spec.describe, has_key, get.
  by_lookup_cases.
Qed.

Lemma handler_get_description_describe (tags : gmap string string) :
  POIHandler.get_description tags = Spec.describe tags.
Proof.
  unfold POIHandler.get_description, Spec.describe, has_key, get.
  by_lookup_cases.
Qed.

(** C7, as stated, fails on [{description: "x"}]: whatever label the
    free-text tag is given, the builder returns the bare value. *)
Lemma description_tag_has_no_label :
  ¬ ∃ free_text_label,
      get_description_xml {[ "description" := "x" ]}
      = Spec.describe_labelled free_text_label {[ "description" := "x" ]}.
Proof.
  intros [l H]. vm_compute in H.
  destruct l as [|c [|c' l]]; simpl in H; discriminate H.
Qed.

(** With none of the seven fields present the builders return the
    sentinel; the empty tag set is one such set. *)
Lemma description_sentinel (tags : gmap string string) :
  (∀ k, k ∈ Spec.described_fields.*1 → tags !! k = None) →
  Spec.describe tags = Spec.sentinel.
Proof.
  intros Hnone. unfold Spec.describe.
  assert (Hk : ∀ k, k ∈ ["amenity"; "shop"; "tourism"; "addr:street";
                          "addr:city"; "cuisine"; "description"] →
                    tags !! k = None) by exact Hnone.
  cbn -[lookup].
  repeat (rewrite Hk by (rewrite !elem_of_cons; tauto)).
  reflexivity.
Qed.

(** C7, amended: both description builders concatenate the present fields
    among amenity, shop, tourism, street, city and cuisine, in that order,
    each as ["Label: value"], then the free-text description tag as it is
    (without a label), joined with ["; "]; when none of the seven is present
    they return ["OSM Point of Interest"]. *)
Theorem description_builders_describe (tags : gmap string string) :
  get_description_xml tags = Spec.describe tags
  ∧ POIHandler.get_description tags = Spec.describe tags.
Proof.
  split.
  - apply get_description_xml_describe.
  - apply handler_get_description_describe.
Qed.

(** ** The PBF handler *)

Section Handler.

Import POIHandler.

(** What [node] returns is the handler with at most one more row. *)
Lemma node_returned (h h' : t) (n : osm_node) :
  node h n = Returned h' →
  bounds h' = bounds h ∧ max_pois h' = max_pois h
  ∧ processed_count h' = processed_count h.
Proof.
  unfold node, location.
  repeat (match goal with
          | |- context [if ?b then _ else _] => destruct b eqn:?
          | |- context [match ?o with Some _ => _ | None => _ end] =>
              destruct o eqn:?
          end; simpl);
    intros [= <-]; auto.
Qed.

Lemma apply_nodes_returned (nodes : list osm_node) (h h' : t) :
  apply_nodes h nodes = Returned h' →
  bounds h' = bounds h ∧ max_pois h' = max_pois h
  ∧ processed_count h' = processed_count h.
Proof.
  revert h. induction nodes as [|n nodes IH]; intros h; simpl.
  - intros [= <-]. auto.
  - destruct (node h n) as [h1|] eqn:Hn; [|discriminate].
    intros Hrest. apply IH in Hrest as (-> & -> & ->).
    apply (node_returned h h1 n Hn).
Qed.

Lemma apply_nodes_app (pre post : list osm_node) (h : t) :
  apply_nodes h (pre ++ post)
  = match apply_nodes h pre with
    | Returned h' => apply_nodes h' post
    | Raised => Raised
    end.
Proof.
  revert h. induction pre as [|n pre IH]; intros h; simpl; [reflexivity|].
  destruct (node h n); [apply IH|reflexivity].
Qed.

(** The guard at the top of [node]: at the cap the callback changes nothing
    and reads nothing. *)
Lemma node_at_cap (h : t) (n : osm_node) :
  cap_reached (max_pois h) (pois h) = true → node h n = Returned h.
Proof. intros H. unfold node. rewrite H. reflexivity. Qed.

(** Below the cap the callback raises when it reads a location that is not
    valid, and else appends the node's row, if it has one. *)
Lemma node_below_cap (h : t) (n : osm_node) :
  cap_reached (max_pois h) (pois h) = false →
  node h n
  = if Rows.reads_invalid_location (bounds h) n then Raised
    else Returned
           match Spec.matching_poi (bounds h) n with
           | Some r => Handler (pois h ++ [r]) (bounds h) (max_pois h)
                               (processed_count h)
           | None => h
           end.
Proof.
  intros H.
  unfold node, location, Rows.reads_invalid_location, Spec.matching_poi.
  rewrite H.
  destruct (valid_coordinates (location_lat n) (location_lon n)) eqn:Hv;
    destruct (bounds h) as [b|]; simpl;
    try destruct (in_bounds b (location_lat n) (location_lon n)); simpl;
    try reflexivity;
    destruct (nonempty_dict (dict_of_tags (node_tags n))); simpl;
    try reflexivity;
    destruct (categorize_poi (dict_of_tags (node_tags n))) as [c|];
    simpl; try reflexivity;
    destruct (truthy c); simpl; try reflexivity;
    rewrite ?Hv; reflexivity.
Qed.

(** A node whose location is valid never makes the callback raise. *)
Lemma valid_location_read (bounds : option bbox) (n : osm_node) :
  valid_coordinates (location_lat n) (location_lon n) = true →
  Rows.reads_invalid_location bounds n = false.
Proof. intros H. unfold Rows.reads_invalid_location. rewrite H. reflexivity. Qed.

Lemma valid_locations_read (bounds : option bbox) (nodes : list osm_node) :
  Forall (λ n, valid_coordinates (location_lat n) (location_lon n) = true)
         nodes →
  existsb (Rows.reads_invalid_location bounds) nodes = false.
Proof.
  induction 1 as [|n nodes Hn _ IH]; simpl; [reflexivity|].
  rewrite (valid_location_read bounds n Hn), IH. reflexivity.
Qed.

Lemma apply_nodes_at_cap (nodes : list osm_node) (h : t) :
  cap_reached (max_pois h) (pois h) = true → apply_nodes h nodes = Returned h.
Proof.
  induction nodes as [|n nodes IH]; intros H; simpl; [reflexivity|].
  rewrite (node_at_cap h n H). apply IH, H.
Qed.

(** Without an effective cap the handler collects the row of every node,
    unless one of them makes the callback raise. *)
Lemma apply_nodes_uncapped (nodes : list osm_node) (h : t) :
  truthy_int (max_pois h) = false →
  apply_nodes h nodes
  = if existsb (Rows.reads_invalid_location (bounds h)) nodes then Raised
    else Returned
           (Handler (pois h ++ omap (Spec.matching_poi (bounds h)) nodes)
                    (bounds h) (max_pois h) (processed_count h)).
Proof.
  revert h. induction nodes as [|n nodes IH]; intros h Hcap; simpl.
  - rewrite app_nil_r. destruct h; reflexivity.
  - assert (Hbelow : cap_reached (max_pois h) (pois h) = false).
    { unfold cap_reached. destruct (max_pois h) as [m|]; [|reflexivity].
      simpl in Hcap. rewrite Hcap. reflexivity. }
    rewrite (node_below_cap h n Hbelow).
    destruct (Rows.reads_invalid_location (bounds h) n); simpl;
      [reflexivity|].
    destruct (Spec.matching_poi (bounds h) n) as [r|]; simpl.
    + rewrite IH by exact Hcap. simpl. rewrite <- app_assoc. reflexivity.
    + apply IH, Hcap.
Qed.

(** With a cap of at least one the handler never holds more rows than the
    cap. *)
Lemma apply_nodes_within_cap (m : Z) (nodes : list osm_node) (h h' : t) :
  max_pois h = Some m → (0 < m)%Z → (len (pois h) ≤ m)%Z →
  apply_nodes h nodes = Returned h' →
  (len (pois h') ≤ m)%Z.
Proof.
  revert h. induction nodes as [|n nodes IH]; intros h Hm Hpos Hlen; simpl.
  - intros [= <-]. exact Hlen.
  - destruct (node h n) as [h1|] eqn:Hn; [|discriminate].
    apply IH; [|exact Hpos|].
    + destruct (node_returned h h1 n Hn) as (_ & -> & _). exact Hm.
    + destruct (cap_reached (max_pois h) (pois h)) eqn:Hcap.
      * rewrite (node_at_cap h n Hcap) in Hn. injection Hn as <-. exact Hlen.
      * rewrite (node_below_cap h n Hcap) in Hn.
        destruct (Rows.reads_invalid_location (bounds h) n); [discriminate|].
        injection Hn as <-.
        destruct (Spec.matching_poi (bounds h) n) as [r|]; [|exact Hlen].
        simpl. rewrite Hm in Hcap. unfold cap_reached in Hcap.
        apply andb_false_iff in Hcap as [Hz|Hlt].
        -- apply negb_false_iff, Z.eqb_eq in Hz. lia.
        -- apply Z.leb_gt in Hlt. unfold len in *.
           rewrite length_app. simpl. lia.
Qed.

(** A property of rows that holds of every row a node can give holds of
    every row the handler comes to hold. *)
Lemma apply_nodes_rows (P : poi → Prop) (nodes : list osm_node) (h h' : t) :
  (∀ n r, Spec.matching_poi (bounds h) n = Some r → P r) →
  Forall P (pois h) →
  apply_nodes h nodes = Returned h' →
  Forall P (pois h').
Proof.
  intros HP. revert h HP.
  induction nodes as [|n nodes IH]; intros h HP Hall; simpl.
  - intros [= <-]. exact Hall.
  - destruct (node h n) as [h1|] eqn:Hn; [|discriminate].
    destruct (node_returned h h1 n Hn) as (Hb & _ & _).
    apply IH; [rewrite Hb; exact HP|].
    destruct (cap_reached (max_pois h) (pois h)) eqn:Hcap.
    + rewrite (node_at_cap h n Hcap) in Hn. injection Hn as <-. exact Hall.
    + rewrite (node_below_cap h n Hcap) in Hn.
      destruct (Rows.reads_invalid_location (bounds h) n); [discriminate|].
      injection Hn as <-.
      destruct (Spec.matching_poi (bounds h) n) as [r|] eqn:Hr; [|exact Hall].
      simpl. apply Forall_app. split; [exact Hall|].
      constructor; [|constructor]. exact (HP n r Hr).
Qed.

(** The row of a node passed the coordinate check. *)
Lemma matching_poi_in_range (bounds : option bbox) (n : osm_node) (r : poi) :
  Spec.matching_poi bounds n = Some r → Spec.in_global_range r.
Proof.
  unfold Spec.matching_poi. intros Hr.
  destruct (valid_coordinates (location_lat n) (location_lon n)) eqn:Hv;
    [|rewrite andb_false_r in Hr; discriminate Hr].
  repeat match type of Hr with
         | (if ?b then _ else _) = _ => destruct b; try discriminate Hr
         | match ?o with Some _ => _ | None => _ end = _ =>
             destruct o; try discriminate Hr
         end.
  injection Hr as <-. exact Hv.
Qed.

End Handler.

(** What [parse_osm_pbf] returns is what the callbacks leave in a fresh
    handler after a decode that ends well. *)
Lemma parse_osm_pbf_returned (avail : bool) (src : pbf_source)
    (bounds : option bbox) (max_pois : option Z) (rows : list poi) :
  parse_osm_pbf avail src bounds max_pois = Returned rows →
  ∃ h, POIHandler.apply_nodes (POIHandler.init bounds max_pois)
                              (pbf_nodes src) = Returned h
       ∧ POIHandler.pois h = rows ∧ pbf_end src = Eof ∧ avail = true.
Proof.
  unfold parse_osm_pbf, POIHandler.apply_file.
  destruct avail; simpl; [|discriminate].
  destruct (POIHandler.apply_nodes (POIHandler.init bounds max_pois)
                                   (pbf_nodes src)) as [h|]; [|discriminate].
  destruct (pbf_end src); [|discriminate].
  intros [= <-]. exists h. auto.
Qed.

(** The rows [parse_osm_pbf] returns lie in the global coordinate range. *)
Lemma parse_osm_pbf_in_range (avail : bool) (src : pbf_source)
    (bounds : option bbox) (max_pois : option Z) (rows : list poi) :
  parse_osm_pbf avail src bounds max_pois = Returned rows →
  Forall Spec.in_global_range rows.
Proof.
  intros H. apply parse_osm_pbf_returned in H as (h & Hh & <- & _ & _).
  apply (apply_nodes_rows Spec.in_global_range _ _ h) in Hh;
    [exact Hh| |constructor].
  intros n r. apply matching_poi_in_range.
Qed.

(** [parse_osm_pbf] with a cap of at least one returns at most that many
    rows. *)
Lemma parse_osm_pbf_within_cap (avail : bool) (src : pbf_source)
    (bounds : option bbox) (m : Z) (rows : list poi) :
  (0 < m)%Z →
  parse_osm_pbf avail src bounds (Some m) = Returned rows →
  (len rows ≤ m)%Z.
Proof.
  intros Hm H. apply parse_osm_pbf_returned in H as (h & Hh & <- & _ & _).
  apply (apply_nodes_within_cap m _ _ h) in Hh;
    [exact Hh|reflexivity|exact Hm|].
  unfold len. simpl. lia.
Qed.

(** C10: a handler built with [max_pois] equal to [None] or [0] has no cap:
    on a file whose nodes have valid locations, [parse_osm_pbf] returns the
    row of every matching node of the file. *)
Theorem zero_cap_is_no_cap (bounds : option bbox) (max_pois : option Z)
    (nodes : list osm_node) :
  max_pois = None ∨ max_pois = Some 0%Z →
  Forall (λ n, valid_coordinates (location_lat n) (location_lon n) = true)
         nodes →
  parse_osm_pbf true (PbfSource nodes Eof) bounds max_pois
  = Returned (omap (Spec.matching_poi bounds) nodes).
Proof.
  intros Hcap Hvalid. unfold parse_osm_pbf, POIHandler.apply_file. simpl.
  rewrite apply_nodes_uncapped by (destruct Hcap as [-> | ->]; reflexivity).
  simpl. rewrite (valid_locations_read bounds nodes Hvalid). reflexivity.
Qed.

(** With a cap of [0] both nodes of a two-node file give a row. *)
Lemma zero_cap_is_no_cap_witness :
  parse_osm_pbf true (PbfSource [Samples.cafe_node; Samples.bank_node] Eof)
                None (Some 0%Z)
  = Returned (omap (Spec.matching_poi None)
                   [Samples.cafe_node; Samples.bank_node])
  ∧ length (omap (Spec.matching_poi None)
                 [Samples.cafe_node; Samples.bank_node]) = 2%nat.
Proof.
  split.
  - apply zero_cap_is_no_cap.
    + right. reflexivity.
    + repeat constructor.
  - vm_compute. reflexivity.
Defined.

(** C9, as stated, fails on a file whose first node fills a cap of one and
    whose decode then fails: the failure is still met, so the handler's row
    is lost, although the cap was reached before it. *)
Lemma decode_runs_past_cap :
  ¬ Spec.decode_stops_at_cap None 1 [Samples.cafe_node] [] ParseError.
Proof.
  unfold Spec.decode_stops_at_cap. intros H.
  destruct (POIHandler.apply_nodes (POIHandler.init None (Some 1%Z))
                                   [Samples.cafe_node]) as [h|] eqn:Hh;
    [|vm_compute in Hh; discriminate Hh].
  specialize (H h eq_refl).
  vm_compute in Hh. injection Hh as <-.
  assert (Hcap : cap_reached (Some 1%Z)
            (POIHandler.pois
               {| POIHandler.pois :=
                    [{| name := "Chai Point"; category := "restaurant";
                        latitude := 25.5; longitude := 85.25;
                        description := "Amenity: cafe" |}];
                  POIHandler.bounds := None;
                  POIHandler.max_pois := Some 1%Z;
                  POIHandler.processed_count := 0 |}) = true)
    by (vm_compute; reflexivity).
  specialize (H Hcap). vm_compute in H. discriminate H.
Qed.

(** C9, amended: once the handler holds its cap of rows, every further
    [node] callback returns at its guard and leaves the handler as it is, so
    no further row is accepted; the decode itself is not stopped: it runs to
    the end of the source, and a failure it meets there still fails the
    call. *)
Theorem handler_idles_past_cap (bounds : option bbox) (cap : Z)
    (pre post : list osm_node) (fin : stream_end) (h : POIHandler.t) :
  POIHandler.apply_nodes (POIHandler.init bounds (Some cap)) pre
  = Returned h →
  cap_reached (Some cap) (POIHandler.pois h) = true →
  POIHandler.apply_nodes (POIHandler.init bounds (Some cap)) (pre ++ post)
  = Returned h
  ∧ parse_osm_pbf true (PbfSource (pre ++ post) fin) bounds (Some cap)
    = match fin with
      | Eof => Returned (POIHandler.pois h)
      | ParseError => Raised
      end.
Proof.
  intros Hpre Hcap.
  assert (Hh : POIHandler.apply_nodes (POIHandler.init bounds (Some cap))
                                      (pre ++ post) = Returned h).
  { rewrite apply_nodes_app, Hpre. apply apply_nodes_at_cap.
    destruct (apply_nodes_returned pre _ h Hpre) as (_ & -> & _).
    exact Hcap. }
  split; [exact Hh|].
  unfold parse_osm_pbf, POIHandler.apply_file. simpl. rewrite Hh.
  destruct fin; reflexivity.
Qed.

(** A cap of one, filled by the first node of a file whose decode fails after
    the second. *)
Lemma handler_idles_past_cap_witness :
  POIHandler.apply_nodes (POIHandler.init None (Some 1%Z))
                         ([Samples.cafe_node] ++ [Samples.bank_node])
  = POIHandler.apply_nodes (POIHandler.init None (Some 1%Z))
                           [Samples.cafe_node]
  ∧ parse_osm_pbf true
      (PbfSource ([Samples.cafe_node] ++ [Samples.bank_node]) ParseError)
      None (Some 1%Z)
    = Raised.
Proof.
  refine (handler_idles_past_cap None 1 [Samples.cafe_node]
            [Samples.bank_node] ParseError _ eq_refl eq_refl).
Defined.

(** ** The XML parser of the PBF converter *)

Section XmlParser.

Variable py_float : string → option float.

Lemma on_start_pois (st st' : parser_state) (tag : string)
    (attrib : gmap string string) :
  on_start py_float st tag attrib = Continue st' → pois st' = pois st.
Proof.
  unfold on_start.
  repeat match goal with
         | |- context [if ?b then _ else _] => destruct b
         | |- context [match ?o with Some _ => _ | None => _ end] => destruct o
         end; intros [= <-]; reflexivity.
Qed.

Lemma on_start_no_break (st st' : parser_state) (tag : string)
    (attrib : gmap string string) :
  on_start py_float st tag attrib ≠ Break st'.
Proof.
  unfold on_start.
  repeat match goal with
         | |- context [if ?b then _ else _] => destruct b
         | |- context [match ?o with Some _ => _ | None => _ end] => destruct o
         end; discriminate.
Qed.

(** One turn of the loop under a cap [m >= 1], entered below the cap: it
    stays below the cap, or breaks holding at most [m] rows. *)
Lemma on_event_within_cap (bounds : option bbox) (m : Z)
    (st : parser_state) (ev : xml_event) :
  (0 < m)%Z → (len (pois st) < m)%Z →
  match on_event py_float bounds (Some m) st ev with
  | Continue st' => (len (pois st') < m)%Z
  | Break st' => (len (pois st') ≤ m)%Z
  | Raise => True
  end.
Proof.
  intros Hm Hlen. destruct ev as [tag attrib|tag]; simpl.
  - destruct (on_start py_float st tag attrib) as [st'|st'|] eqn:Hs.
    + rewrite (on_start_pois _ _ _ _ Hs). exact Hlen.
    + exfalso. exact (on_start_no_break _ _ _ _ Hs).
    + exact I.
  - unfold on_end.
    destruct (current_node st) as [[lat lon]|]; [|exact Hlen].
    destruct ((tag =? "node") && nonempty_dict (current_tags st));
      [|exact Hlen].
    destruct (match bounds with
              | Some b => negb (in_bounds b lat lon)
              | None => false
              end); [exact Hlen|].
    destruct (categorize_poi_xml (current_tags st)) as [c|]; [|exact Hlen].
    destruct (truthy c); [|exact Hlen].
    match goal with
    | |- context [cap_reached (Some m) ?l] =>
        destruct (cap_reached (Some m) l) eqn:Hcap
    end; simpl.
    + unfold append, len in *. rewrite length_app. simpl. lia.
    + unfold cap_reached in Hcap.
      apply andb_false_iff in Hcap as [Hz|Hlt].
      * apply negb_false_iff, Z.eqb_eq in Hz. lia.
      * apply Z.leb_gt in Hlt. exact Hlt.
Qed.

Lemma parse_loop_within_cap (bounds : option bbox) (m : Z)
    (events : list xml_event) (fin : stream_end) (st : parser_state)
    (rows : list poi) :
  (0 < m)%Z → (len (pois st) < m)%Z →
  parse_loop py_float bounds (Some m) st events fin = Returned rows →
  (len rows ≤ m)%Z.
Proof.
  intros Hm. revert st.
  induction events as [|ev events IH]; intros st Hlen; simpl.
  - destruct fin; [|discriminate]. intros [= <-]. lia.
  - pose proof (on_event_within_cap bounds m st ev Hm Hlen) as Hev.
    destruct (on_event py_float bounds (Some m) st ev) as [st'|st'|].
    + apply IH, Hev.
    + intros [= <-]. exact Hev.
    + discriminate.
Qed.

(** [parse_osm_xml] with a cap of at least one returns at most that many
    rows. *)
Lemma parse_osm_xml_within_cap (src : xml_source) (bounds : option bbox)
    (m : Z) :
  (0 < m)%Z → (len (parse_osm_xml py_float src bounds (Some m)) ≤ m)%Z.
Proof.
  intros Hm. unfold parse_osm_xml.
  destruct (parse_osm_xml_try py_float src bounds (Some m)) as [rows|] eqn:Hp.
  - unfold parse_osm_xml_try in Hp.
    destruct (xml_events src) as [|_ events]; [discriminate|].
    apply (parse_loop_within_cap _ _ _ _ _ _ Hm) in Hp; [exact Hp|].
    unfold len. simpl. lia.
  - unfold len. simpl. lia.
Qed.

(** The loop of [main] under a positive cap, entered below the cap: what it
    collects stays within the cap. *)
Lemma main_loop_within_cap (avail : bool) (bounds : option bbox) (K : Z)
    (files : list osm_file) (all_pois out : list poi) :
  (0 < K)%Z → (len all_pois < K)%Z →
  main_loop py_float avail bounds K files all_pois = Some out →
  (len out ≤ K)%Z.
Proof.
  intros HK. revert all_pois.
  induction files as [|f files IH]; intros all_pois Hlen; simpl.
  - intros [= <-]. lia.
  - assert (Hstep : ∀ rows, (len rows ≤ K - len all_pois)%Z →
              (if cap_reached (Some K) (all_pois ++ rows)
               then Some (all_pois ++ rows)%list
               else main_loop py_float avail bounds K files (all_pois ++ rows))
              = Some out → (len out ≤ K)%Z).
    { intros rows Hrows.
      assert (Hall : (len (all_pois ++ rows) ≤ K)%Z)
        by (unfold len in *; rewrite length_app; lia).
      destruct (cap_reached (Some K) (all_pois ++ rows)) eqn:Hcap.
      - intros [= <-]. exact Hall.
      - apply IH. unfold cap_reached in Hcap.
        apply andb_false_iff in Hcap as [Hz|Hlt].
        + apply negb_false_iff, Z.eqb_eq in Hz. lia.
        + apply Z.leb_gt in Hlt. exact Hlt. }
    destruct f as [src|src].
    + apply Hstep, parse_osm_xml_within_cap. lia.
    + destruct avail; simpl; [|discriminate].
      destruct (parse_osm_pbf true src bounds (Some (K - len all_pois)))
        as [rows|] eqn:Hp.
      * apply Hstep. eapply parse_osm_pbf_within_cap; [|exact Hp]. lia.
      * apply IH, Hlen.
Qed.

End XmlParser.

(** ** The parser of the XML-only script *)

Module CsvParser.

Import GeofabrikToCsv.

Section CsvXmlParser.

Variable py_float : string → option float.

Lemma csv_on_start_pois (st : parser_state) (tag : string)
    (attrib : gmap string string) :
  pois (on_start st tag attrib) = pois st
  ∧ poi_count (on_start st tag attrib) = poi_count st.
Proof.
  unfold on_start.
  repeat match goal with
         | |- context [if ?b then _ else _] => destruct b
         | |- context [match ?o with Some _ => _ | None => _ end] => destruct o
         end; split; reflexivity.
Qed.

Lemma csv_reset_after_pois (tag : string) (st : parser_state) :
  pois (reset_after tag st) = pois st
  ∧ poi_count (reset_after tag st) = poi_count st.
Proof. unfold reset_after. destruct (_ || _); split; reflexivity. Qed.

(** One turn of the loop under a cap [m >= 1], entered below the cap with
    [poi_count] counting the rows: it stays so, or breaks holding at most
    [m] rows. *)
Lemma csv_on_event_within_cap (m : Z) (st : parser_state) (ev : xml_event) :
  (0 < m)%Z → poi_count st = len (pois st) → (len (pois st) < m)%Z →
  match on_event py_float m st ev with
  | Continue st' => poi_count st' = len (pois st') ∧ (len (pois st') < m)%Z
  | Break st' => (len (pois st') ≤ m)%Z
  | Raise => True
  end.
Proof.
  intros Hm Hcount Hlen. destruct ev as [tag attrib|tag]; simpl.
  - destruct (csv_on_start_pois st tag attrib) as [-> ->]. split; assumption.
  - assert (Hreset : poi_count (reset_after tag st)
                     = len (pois (reset_after tag st))
                     ∧ (len (pois (reset_after tag st)) < m)%Z).
    { destruct (csv_reset_after_pois tag st) as [-> ->]. split; assumption. }
    unfold on_end.
    destruct ((tag =? "node") && truthy_opt (current_lat st)
              && truthy_opt (current_lon st)); [|exact Hreset].
    destruct (truthy (get (current_tags st) "name" "") && _);
      [|exact Hreset].
    destruct (py_float (default "" (current_lat st))) as [lat|]; [|exact I].
    destruct (py_float (default "" (current_lon st))) as [lon|]; [|exact I].
    match goal with
    | |- context [(m <=? ?c)%Z] => destruct (Z.leb_spec m c) as [Hle|Hgt]
    end; simpl in *.
    + unfold append, len in *. rewrite length_app. simpl. lia.
    + match goal with
      | |- context [reset_after tag ?s] =>
          destruct (csv_reset_after_pois tag s) as [-> ->]
      end; simpl.
      unfold append, len in *. rewrite length_app in *. simpl in *. lia.
Qed.

Lemma csv_parse_loop_within_cap (m : Z) (events : list xml_event)
    (fin : stream_end) (st : parser_state) (rows : list poi) :
  (0 < m)%Z → poi_count st = len (pois st) → (len (pois st) < m)%Z →
  parse_loop py_float m st events fin = Returned rows →
  (len rows ≤ m)%Z.
Proof.
  intros Hm. revert st.
  induction events as [|ev events IH]; intros st Hcount Hlen; simpl.
  - destruct fin; [|discriminate]. intros [= <-]. lia.
  - pose proof (csv_on_event_within_cap m st ev Hm Hcount Hlen) as Hev.
    destruct (on_event py_float m st ev) as [st'|st'|].
    + destruct Hev as [Hc Hl]. apply IH; assumption.
    + intros [= <-]. exact Hev.
    + discriminate.
Qed.

(** [parse_osm_xml] with a cap of at least one writes at most that many
    rows. *)
Lemma csv_parse_osm_xml_within_cap (src : xml_source) (m : Z) :
  (0 < m)%Z → (len (parse_osm_xml py_float src m) ≤ m)%Z.
Proof.
  intros Hm. unfold parse_osm_xml.
  destruct (parse_osm_xml_try py_float src m) as [rows|] eqn:Hp.
  - unfold parse_osm_xml_try in Hp.
    destruct (xml_events src) as [|_ events]; [discriminate|].
    apply (csv_parse_loop_within_cap _ _ _ _ _ Hm) in Hp; [exact Hp| |].
    + reflexivity.
    + unfold len. simpl. lia.
  - unfold len. simpl. lia.
Qed.

(** Reading rows back keeps their number and their order. *)
Lemma read_rows_length (rows back : list poi) :
  read_rows rows = Returned back → length back = length rows.
Proof.
  revert back. induction rows as [|r rows IH]; intros back; simpl.
  - intros [= <-]. reflexivity.
  - destruct (read_back r) as [r'|]; [|discriminate].
    destruct (read_rows rows) as [rows'|]; [|discriminate].
    intros [= <-]. simpl. rewrite (IH rows' eq_refl). reflexivity.
Qed.

Lemma read_rows_app (rows1 rows2 : list poi) :
  read_rows (rows1 ++ rows2)
  = match read_rows rows1, read_rows rows2 with
    | Returned back1, Returned back2 => Returned (back1 ++ back2)%list
    | _, _ => Raised
    end.
Proof.
  induction rows1 as [|r rows1 IH]; simpl.
  - destruct (read_rows rows2); reflexivity.
  - rewrite IH. destruct (read_back r) as [r'|]; [|reflexivity].
    destruct (read_rows rows1) as [back1|]; [|reflexivity].
    destruct (read_rows rows2); reflexivity.
Qed.

Lemma read_rows_take (n : nat) (rows back : list poi) :
  read_rows rows = Returned back →
  read_rows (take n rows) = Returned (take n back).
Proof.
  revert rows back. induction n as [|n IH]; intros rows back.
  - intros _. reflexivity.
  - destruct rows as [|r rows]; simpl.
    + intros [= <-]. reflexivity.
    + destruct (read_back r) as [r'|]; [|discriminate].
      destruct (read_rows rows) as [rows'|] eqn:Hrows; [|discriminate].
      intros [= <-]. simpl. rewrite (IH rows rows' Hrows). reflexivity.
Qed.

(** The loop of [process_geofabrik_data] under a positive cap, entered
    below the cap with [total_pois] counting the rows: what it collects
    stays within the cap. *)
Lemma process_files_within_cap (K : Z) (files : list xml_source)
    (total_pois : Z) (all_pois out : list poi) :
  (0 < K)%Z → total_pois = len all_pois → (total_pois < K)%Z →
  process_files py_float K files total_pois all_pois = Returned out →
  (len out ≤ K)%Z.
Proof.
  intros HK. revert total_pois all_pois.
  induction files as [|f files IH]; intros total all_pois Htotal Hlt; simpl.
  - intros [= <-]. lia.
  - pose proof (csv_parse_osm_xml_within_cap f (K - total)) as Hrows.
    destruct (Z.ltb_spec 0 (len (parse_osm_xml py_float f (K - total))))
      as [Hsome|Hnone]; [|apply IH; assumption].
    destruct (read_rows (parse_osm_xml py_float f (K - total)))
      as [back|] eqn:Hback; [|discriminate].
    apply read_rows_length in Hback.
    assert (Hall : len (all_pois ++ back)
                   = (total + len (parse_osm_xml py_float f (K - total)))%Z)
      by (unfold len in *; rewrite length_app; lia).
    destruct (Z.leb_spec K (total + len (parse_osm_xml py_float f (K - total))))
      as [Hfull|Hmore].
    + intros [= <-]. rewrite Hall. lia.
    + apply IH; [symmetry; exact Hall|exact Hmore].
Qed.

End CsvXmlParser.

End CsvParser.

(** ** The global cap *)

(** C1: under a positive global cap [K], whatever the input files hold, the
    multi-file loops of both scripts emit at most [K] rows in total. *)
Theorem global_cap_respected :
  (∀ py_float avail bounds (K : Z) (files : list osm_file),
     (0 < K)%Z →
     (len (rows_of (main py_float avail bounds K files)) ≤ K)%Z)
  ∧ (∀ py_float (K : Z) (files : list xml_source),
       (0 < K)%Z →
       (len (rows_of (GeofabrikToCsv.process_geofabrik_data py_float files K))
        ≤ K)%Z).
Proof.
  split.
  - intros py_float avail bounds K files HK. unfold main.
    destruct files as [|f files]; [unfold len; simpl; lia|].
    destruct (main_loop py_float avail bounds K (f :: files) [])
      as [out|] eqn:Hloop; [|unfold len; simpl; lia].
    apply main_loop_within_cap in Hloop; [|exact HK|unfold len; simpl; lia].
    destruct out; [unfold len; simpl; lia|exact Hloop].
  - intros py_float K files HK. unfold GeofabrikToCsv.process_geofabrik_data.
    destruct files as [|f files]; [unfold len; simpl; lia|].
    destruct (GeofabrikToCsv.process_files py_float K (f :: files) 0 [])
      as [out|] eqn:Hloop; [|unfold len; simpl; lia].
    apply (CsvParser.process_files_within_cap py_float K _ 0 [] out HK
             eq_refl HK) in Hloop.
    destruct out; [unfold len; simpl; lia|exact Hloop].
Qed.

(** Three files of two POIs each under a cap of three, and two under the
    same cap in the XML-only script. *)
Lemma global_cap_respected_witness :
  (len (rows_of (main Samples.decimal_float true None 3
                   [XmlFile Samples.town_xml; PbfFile Samples.town_pbf;
                    XmlFile Samples.town_xml])) ≤ 3)%Z
  ∧ (len (rows_of (GeofabrikToCsv.process_geofabrik_data Samples.decimal_float
                     [Samples.town_xml; Samples.town_xml] 3)) ≤ 3)%Z.
Proof.
  split.
  - apply (proj1 global_cap_respected). lia.
  - apply (proj2 global_cap_respected). lia.
Defined.

(** ** Failing files *)

(** The turn of the loop of [main] on an XML file. *)
Lemma main_loop_xml (py_float : string → option float) (avail : bool)
    (bounds : option bbox) (K : Z) (src : xml_source)
    (rest : list osm_file) (all_pois : list poi) :
  main_loop py_float avail bounds K (XmlFile src :: rest) all_pois
  = let all_pois' :=
      (all_pois ++ parse_osm_xml py_float src bounds (Some (K - len all_pois)))%list in
    if cap_reached (Some K) all_pois' then Some all_pois'
    else main_loop py_float avail bounds K rest all_pois'.
Proof. reflexivity. Qed.

(** A file of [main] whose parse raises leaves the loop where it was. *)
Lemma main_loop_skips_failed (py_float : string → option float)
    (avail : bool) (bounds : option bbox) (K : Z) (bad : osm_file)
    (rest : list osm_file) (all_pois : list poi) :
  cap_reached (Some K) all_pois = false →
  Spec.parse_fails py_float avail bounds (K - len all_pois) bad →
  main_loop py_float avail bounds K (bad :: rest) all_pois
  = main_loop py_float avail bounds K rest all_pois.
Proof.
  intros Hcap Hfail. destruct bad as [src|src]; simpl in *.
  - unfold parse_osm_xml. rewrite Hfail, app_nil_r, Hcap. reflexivity.
  - destruct Hfail as [-> Hfail]. simpl.
    unfold parse_osm_pbf. simpl. rewrite Hfail. reflexivity.
Qed.

(** A file of [process_geofabrik_data] whose parse raises leaves the loop
    where it was. *)
Lemma process_files_skips_failed (py_float : string → option float) (K : Z)
    (bad : xml_source) (rest : list xml_source) (total_pois : Z)
    (all_pois : list poi) :
  GeofabrikToCsv.parse_osm_xml_try py_float bad (K - total_pois) = Raised →
  GeofabrikToCsv.process_files py_float K (bad :: rest) total_pois all_pois
  = GeofabrikToCsv.process_files py_float K rest total_pois all_pois.
Proof.
  intros Hfail. simpl.
  unfold GeofabrikToCsv.parse_osm_xml. rewrite Hfail. reflexivity.
Qed.

(** Anywhere in the file list: a file that raises under every budget the
    loop can hand it may be dropped from the run of [main]. *)
Lemma main_loop_without_failed (py_float : string → option float)
    (avail : bool) (bounds : option bbox) (K : Z) (bad : osm_file)
    (pre post : list osm_file) (all_pois : list poi) :
  (∀ acc, cap_reached (Some K) acc = false →
          Spec.parse_fails py_float avail bounds (K - len acc) bad) →
  cap_reached (Some K) all_pois = false →
  main_loop py_float avail bounds K (pre ++ bad :: post) all_pois
  = main_loop py_float avail bounds K (pre ++ post) all_pois.
Proof.
  intros Hfail. revert all_pois.
  induction pre as [|f pre IH]; intros all_pois Hcap.
  - apply main_loop_skips_failed; [exact Hcap|apply Hfail, Hcap].
  - rewrite <- !app_comm_cons. destruct f as [src|src].
    + rewrite !main_loop_xml. cbv zeta.
      destruct (cap_reached (Some K)
                  (all_pois ++ parse_osm_xml py_float src bounds
                                 (Some (K - len all_pois)))) eqn:Hc;
        [reflexivity|apply IH, Hc].
    + simpl. destruct avail; simpl; [|reflexivity].
      destruct (parse_osm_pbf true src bounds (Some (K - len all_pois)))
        as [rows|]; [|apply IH, Hcap].
      fold (cap_reached (Some K) (all_pois ++ rows)).
      destruct (cap_reached (Some K) (all_pois ++ rows)) eqn:Hc;
        [reflexivity|apply IH, Hc].
Qed.

(** ** The decoder library *)

(** When the module loads, the decoder library is there and
    [OSMIUM_AVAILABLE] is [True]: the guards [if not OSMIUM_AVAILABLE] of
    [parse_osm_pbf] and [main] are never taken. *)
Lemma module_loads_with_decoder (osmium_installed avail : bool) :
  module_top_level osmium_installed = Returned avail →
  osmium_installed = true ∧ avail = true.
Proof. destruct osmium_installed; [intros [= <-]; auto|discriminate]. Qed.

(** With the decoder library the script is [main] with [OSMIUM_AVAILABLE]
    set. *)
Lemma script_with_decoder (py_float : string → option float)
    (bounds : option bbox) (K : Z) (files : list osm_file) :
  script py_float true bounds K files
  = Returned (main py_float true bounds K files).
Proof. reflexivity. Qed.

(** C6: without the decoder library the script does not get to its files:
    the module's top level raises at the handler's class statement, before
    [main] is entered, whatever the files are; a run over XML files alone,
    which gives rows when the library is there, fails as well. *)
Theorem missing_decoder_fails_at_import :
  (∀ py_float bounds (K : Z) (files : list osm_file),
     script py_float false bounds K files = Raised)
  ∧ script Samples.decimal_float false None 10 [XmlFile Samples.town_xml]
    = Raised
  ∧ ∃ rows, len rows = 2%Z
            ∧ script Samples.decimal_float true None 10
                     [XmlFile Samples.town_xml]
              = Returned (Output rows).
Proof.
  split; [reflexivity|]. split; [reflexivity|].
  eexists. split; [|vm_compute; reflexivity]. reflexivity.
Qed.

(** ** Coordinates and names of the rows *)

(** C4: the XML parsers of both scripts emit a row for a node at latitude
    95 and longitude 200, outside the global range: neither checks the
    range, unlike the PBF handler. *)
Theorem xml_parsers_emit_out_of_range (py_float : string → option float) :
  py_float "95.0" = Some 95%float →
  py_float "200.0" = Some 200%float →
  parse_osm_xml py_float Samples.far_xml None None
  = [Poi "Far Cafe" "restaurant" 95%float 200%float "Amenity: cafe"]
  ∧ GeofabrikToCsv.parse_osm_xml py_float Samples.far_xml 1000
    = [Poi "Far Cafe" "restaurant" 95%float 200%float "cafe"]
  ∧ valid_coordinates 95%float 200%float = false.
Proof.
  intros Hlat Hlon. split; [|split].
  - unfold parse_osm_xml, parse_osm_xml_try.
    let ev := eval vm_compute in (xml_events Samples.far_xml) in
    change (xml_events Samples.far_xml) with ev.
    cbn [parse_loop on_event].
    match goal with
    | |- context [on_start py_float ?st ?tag ?a] =>
        assert (Hs : on_start py_float st tag a
                     = Continue (ParserState (Some (95%float, 200%float)) ∅ []))
          by (vm_compute; rewrite Hlat, Hlon; reflexivity)
    end.
    rewrite Hs. vm_compute. reflexivity.
  - unfold GeofabrikToCsv.parse_osm_xml, GeofabrikToCsv.parse_osm_xml_try.
    vm_compute. rewrite Hlat, Hlon. reflexivity.
  - reflexivity.
Qed.

(** The same run with a reader of decimal literals for [float]. *)
Lemma xml_parsers_emit_out_of_range_witness :
  parse_osm_xml Samples.decimal_float Samples.far_xml None None
  = [Poi "Far Cafe" "restaurant" 95%float 200%float "Amenity: cafe"]
  ∧ GeofabrikToCsv.parse_osm_xml Samples.decimal_float Samples.far_xml 1000
    = [Poi "Far Cafe" "restaurant" 95%float 200%float "cafe"]
  ∧ valid_coordinates 95%float 200%float = false.
Proof.
  apply (xml_parsers_emit_out_of_range Samples.decimal_float); reflexivity.
Defined.

(** C8: the XML-only script emits a row with an empty name for a node named
    by a single space (the name is stripped after the test that it is not
    empty), and the PBF handler emits one for a node whose name tag has an
    empty value (the fallback label is used only when the tag is absent). *)
Theorem empty_names_are_emitted (py_float : string → option float) :
  py_float "25.5" = Some 25.5%float →
  py_float "85.25" = Some 85.25%float →
  GeofabrikToCsv.parse_osm_xml py_float Samples.blank_name_xml 1000
  = [Poi "" "restaurant" 25.5%float 85.25%float "cafe"]
  ∧ parse_osm_pbf true (PbfSource [Samples.empty_name_node] Eof) None None
    = Returned [Poi "" "restaurant" 25.5%float 85.25%float "Amenity: cafe"].
Proof.
  intros Hlat Hlon. split.
  - unfold GeofabrikToCsv.parse_osm_xml, GeofabrikToCsv.parse_osm_xml_try.
    vm_compute. rewrite Hlat, Hlon. reflexivity.
  - reflexivity.
Qed.

(** The same runs with a reader of decimal literals for [float]. *)
Lemma empty_names_are_emitted_witness :
  GeofabrikToCsv.parse_osm_xml Samples.decimal_float Samples.blank_name_xml 1000
  = [Poi "" "restaurant" 25.5%float 85.25%float "cafe"]
  ∧ parse_osm_pbf true (PbfSource [Samples.empty_name_node] Eof) None None
    = Returned [Poi "" "restaurant" 25.5%float 85.25%float "Amenity: cafe"].
Proof.
  apply (empty_names_are_emitted Samples.decimal_float); reflexivity.
Defined.

(** The XML parser of the PBF converter keeps [k, v] pairs with a non-empty
    value only, so the name of each of its rows, taken from the tags or
    made up as [Unknown <Category>], is not empty. *)
Section XmlNames.

Variable py_float : string → option float.

Lemma on_start_named (st : parser_state) (tag : string)
    (attrib : gmap string string) :
  Spec.named_state st →
  match on_start py_float st tag attrib with
  | Continue st' | Break st' => Spec.named_state st'
  | Raise => True
  end.
Proof.
  intros [Htags Hrows]. unfold on_start.
  destruct (tag =? "node").
  - destruct (attrib !! "lat") as [lat|]; [|split; assumption].
    destruct (attrib !! "lon") as [lon|]; [|split; assumption].
    destruct (truthy lat && truthy lon); [|split; assumption].
    destruct (py_float lat); [|exact I].
    destruct (py_float lon); [|exact I].
    split; [|exact Hrows]. simpl. intros k v Hk.
    rewrite lookup_empty in Hk. discriminate Hk.
  - destruct ((tag =? "tag") && _); [|split; assumption].
    destruct (attrib !! "k") as [k|]; [|split; assumption].
    destruct (attrib !! "v") as [v|]; [|split; assumption].
    destruct (truthy k && truthy v) eqn:Hkv; [|split; assumption].
    apply andb_true_iff in Hkv as [_ Hv].
    split; [|exact Hrows]. simpl. intros k' v' Hk'.
    destruct (decide (k = k')) as [<-|Hne].
    + rewrite lookup_insert_eq in Hk'. injection Hk' as <-. exact Hv.
    + rewrite lookup_insert_ne in Hk' by exact Hne. eapply Htags, Hk'.
Qed.

Lemma on_end_named (bounds : option bbox) (max_pois : option Z)
    (st : parser_state) (tag : string) :
  Spec.named_state st →
  match on_end bounds max_pois st tag with
  | Continue st' | Break st' => Spec.named_state st'
  | Raise => True
  end.
Proof.
  intros [Htags Hrows].
  assert (Hreset : Spec.named_state (ParserState None ∅ (pois st))).
  { split; [|exact Hrows]. simpl. intros k v Hk.
    rewrite lookup_empty in Hk. discriminate Hk. }
  unfold on_end.
  destruct (current_node st) as [[lat lon]|]; [|split; assumption].
  destruct ((tag =? "node") && nonempty_dict (current_tags st));
    [|split; assumption].
  destruct (match bounds with
            | Some b => negb (in_bounds b lat lon)
            | None => false
            end); [exact Hreset|].
  destruct (categorize_poi_xml (current_tags st)) as [c|]; [|exact Hreset].
  destruct (truthy c); [|exact Hreset].
  assert (Hnew : Forall Spec.has_name
            (append (pois st)
               (Poi (get (current_tags st) "name" ("Unknown " ++ title c))
                    c lat lon (get_description_xml (current_tags st))))).
  { apply Forall_app. split; [exact Hrows|].
    constructor; [|constructor].
    unfold Spec.has_name, get. simpl.
    destruct (current_tags st !! "name") as [v|] eqn:Hv.
    - eapply Htags, Hv.
    - reflexivity. }
  destruct (cap_reached max_pois _); split;
    solve [exact Hnew | exact Htags
          | simpl; intros k v Hk; rewrite lookup_empty in Hk; discriminate Hk].
Qed.

Lemma parse_loop_named (bounds : option bbox) (max_pois : option Z)
    (events : list xml_event) (fin : stream_end) (st : parser_state)
    (rows : list poi) :
  Spec.named_state st →
  parse_loop py_float bounds max_pois st events fin = Returned rows →
  Forall Spec.has_name rows.
Proof.
  revert st. induction events as [|ev events IH]; intros st Hst; simpl.
  - destruct fin; [|discriminate]. intros [= <-]. apply Hst.
  - assert (Hev : match on_event py_float bounds max_pois st ev with
                  | Continue st' | Break st' => Spec.named_state st'
                  | Raise => True
                  end).
    { destruct ev as [tag attrib|tag]; simpl.
      - apply on_start_named, Hst.
      - apply on_end_named, Hst. }
    destruct (on_event py_float bounds max_pois st ev) as [st'|st'|].
    + apply IH, Hev.
    + intros [= <-]. apply Hev.
    + discriminate.
Qed.

Lemma parse_osm_xml_named (src : xml_source) (bounds : option bbox)
    (max_pois : option Z) :
  Forall Spec.has_name (parse_osm_xml py_float src bounds max_pois).
Proof.
  unfold parse_osm_xml.
  destruct (parse_osm_xml_try py_float src bounds max_pois) as [rows|] eqn:Hp;
    [|constructor].
  unfold parse_osm_xml_try in Hp.
  destruct (xml_events src) as [|_ events]; [discriminate|].
  eapply parse_loop_named; [|exact Hp].
  split; [|constructor]. simpl. intros k v Hk.
  rewrite lookup_empty in Hk. discriminate Hk.
Qed.

End XmlNames.


(** * Further properties *)

(** ** Categories *)

Ltac first_rule_cases H :=
  repeat match type of H with
         | (if ?b then _ else _) = _ =>
             destruct b; [injection H as <-; reflexivity|]
         end.

(** [categorize_poi_xml] answers with one of the ten labels, or with
    nothing. *)
Lemma categorize_poi_xml_label (tags : gmap string string) (c : string) :
  categorize_poi_xml tags = Some c → in_list c Rows.pbf_labels = true.
Proof.
  intros Hx. unfold categorize_poi_xml in Hx. cbv zeta in Hx.
  first_rule_cases Hx. discriminate Hx.
Qed.

(** The categorizer of the XML-only script always answers with one of its
    eleven labels. *)
Lemma categorize_poi_label (tags : gmap string string) :
  in_list (GeofabrikToCsv.categorize_poi tags) Rows.csv_labels = true.
Proof.
  unfold GeofabrikToCsv.categorize_poi. cbv zeta.
  repeat match goal with
         | |- in_list (if ?b then _ else _) _ = true =>
             destruct b; [reflexivity|]
         end.
  reflexivity.
Qed.

(** ** Rows of the PBF handler *)

Section HandlerRows.

Import POIHandler.

Lemma matching_poi_checked (b : option bbox) (n : osm_node) (r : poi) :
  Spec.matching_poi b n = Some r →
  Spec.in_global_range r ∧ Rows.in_box b r
  ∧ in_list (category r) Rows.pbf_labels = true.
Proof.
  unfold Spec.matching_poi. intros Hr.
  destruct (match b with
            | Some b0 => in_bounds b0 (location_lat n) (location_lon n)
            | None => true
            end) eqn:Hb; [|discriminate Hr].
  destruct (nonempty_dict (dict_of_tags (node_tags n))); [|discriminate Hr].
  destruct (valid_coordinates (location_lat n) (location_lon n)) eqn:Hv;
    [|discriminate Hr].
  simpl in Hr.
  destruct (categorize_poi (dict_of_tags (node_tags n))) as [c|] eqn:Hc;
    [|discriminate Hr].
  destruct (truthy c); [|discriminate Hr].
  injection Hr as <-. split; [exact Hv|]. split.
  - destruct b as [b0|]; [exact Hb|exact I].
  - simpl. apply (categorize_poi_xml_label _ _ Hc).
Qed.

End HandlerRows.

(** X1: every row [parse_osm_pbf] returns has coordinates in the global
    range, lies in the bounding box when one is given, and has one of the
    ten categories. *)
Theorem pbf_rows_checked (avail : bool) (src : pbf_source)
    (bounds : option bbox) (max_pois : option Z) (rows : list poi) :
  parse_osm_pbf avail src bounds max_pois = Returned rows →
  Forall (λ r, Spec.in_global_range r ∧ Rows.in_box bounds r
               ∧ in_list (category r) Rows.pbf_labels = true) rows.
Proof.
  intros H. apply parse_osm_pbf_returned in H as (h & Hh & <- & _ & _).
  eapply apply_nodes_rows in Hh; [exact Hh| |constructor].
  intros n r. apply matching_poi_checked.
Qed.

(** The two-node sample file inside a box around it. *)
Lemma pbf_rows_checked_witness :
  Forall (λ r, Spec.in_global_range r
               ∧ Rows.in_box (Some (20, 30, 80, 90)%float) r
               ∧ in_list (category r) Rows.pbf_labels = true)
         (omap (Spec.matching_poi (Some (20, 30, 80, 90)%float))
               [Samples.cafe_node; Samples.bank_node]).
Proof.
  apply (pbf_rows_checked true Samples.town_pbf
           (Some (20, 30, 80, 90)%float) None).
  vm_compute. reflexivity.
Defined.

(** ** Rows of the XML parser of the PBF converter *)

Lemma get_description_xml_truthy (tags : gmap string string) :
  Rows.no_empty_value tags → truthy (get_description_xml tags) = true.
Proof.
  intros Hne. pose proof (Hne "description") as Hd. revert Hd.
  unfold get_description_xml, has_key, get. cbn -[lookup].
  generalize (tags !! "amenity") (tags !! "shop") (tags !! "tourism")
             (tags !! "addr:street") (tags !! "addr:city")
             (tags !! "cuisine") (tags !! "description").
  intros [?|] [?|] [?|] [?|] [?|] [?|] [v|] Hd;
    solve [reflexivity | apply (Hd v); reflexivity].
Qed.

Lemma xml_row_checked (b : option bbox) (tags : gmap string string)
    (lat lon : float) (r : poi) :
  Rows.no_empty_value tags →
  Rows.xml_row b tags lat lon = Some r →
  Rows.in_box b r ∧ Spec.has_name r ∧ truthy (description r) = true
  ∧ in_list (category r) Rows.pbf_labels = true.
Proof.
  intros Hne. unfold Rows.xml_row. intros Hr.
  destruct (nonempty_dict tags); [|discriminate Hr].
  destruct (match b with
            | Some b0 => in_bounds b0 lat lon
            | None => true
            end) eqn:Hb; [|discriminate Hr].
  simpl in Hr.
  destruct (categorize_poi_xml tags) as [c|] eqn:Hc; [|discriminate Hr].
  destruct (truthy c); [|discriminate Hr].
  injection Hr as <-. repeat split.
  - destruct b as [b0|]; [exact Hb|exact I].
  - unfold Spec.has_name, get. simpl.
    destruct (tags !! "name") as [v|] eqn:Hv; [eapply Hne, Hv|reflexivity].
  - simpl. apply get_description_xml_truthy, Hne.
  - simpl. apply (categorize_poi_xml_label _ _ Hc).
Qed.

Section XmlRows.

Variable py_float : string → option float.

Lemma no_empty_value_empty : Rows.no_empty_value ∅.
Proof. intros k v Hk. rewrite lookup_empty in Hk. discriminate Hk. Qed.

Lemma on_start_made (bounds : option bbox) (st : parser_state)
    (tag : string) (attrib : gmap string string) :
  Rows.made_state bounds st →
  match on_start py_float st tag attrib with
  | Continue st' | Break st' => Rows.made_state bounds st'
  | Raise => True
  end.
Proof.
  intros [Htags Hrows]. unfold on_start.
  destruct (tag =? "node").
  - destruct (attrib !! "lat") as [lat|]; [|split; assumption].
    destruct (attrib !! "lon") as [lon|]; [|split; assumption].
    destruct (truthy lat && truthy lon); [|split; assumption].
    destruct (py_float lat); [|exact I].
    destruct (py_float lon); [|exact I].
    split; [apply no_empty_value_empty|exact Hrows].
  - destruct ((tag =? "tag") && _); [|split; assumption].
    destruct (attrib !! "k") as [k|]; [|split; assumption].
    destruct (attrib !! "v") as [v|]; [|split; assumption].
    destruct (truthy k && truthy v) eqn:Hkv; [|split; assumption].
    apply andb_true_iff in Hkv as [_ Hv].
    split; [|exact Hrows]. simpl. intros k' v' Hk'.
    destruct (decide (k = k')) as [<-|Hne].
    + rewrite lookup_insert_eq in Hk'. injection Hk' as <-. exact Hv.
    + rewrite lookup_insert_ne in Hk' by exact Hne. eapply Htags, Hk'.
Qed.

Lemma on_end_made (bounds : option bbox) (max_pois : option Z)
    (st : parser_state) (tag : string) :
  Rows.made_state bounds st →
  match on_end bounds max_pois st tag with
  | Continue st' | Break st' => Rows.made_state bounds st'
  | Raise => True
  end.
Proof.
  intros [Htags Hrows].
  assert (Hreset : Rows.made_state bounds (ParserState None ∅ (pois st)))
    by (split; [apply no_empty_value_empty|exact Hrows]).
  unfold on_end.
  destruct (current_node st) as [[lat lon]|]; [|split; assumption].
  destruct (tag =? "node"); [|split; assumption].
  destruct (nonempty_dict (current_tags st)) eqn:Hdict; [|split; assumption].
  simpl.
  destruct (match bounds with
            | Some b => negb (in_bounds b lat lon)
            | None => false
            end) eqn:Hb; [exact Hreset|].
  destruct (categorize_poi_xml (current_tags st)) as [c|] eqn:Hc;
    [|exact Hreset].
  destruct (truthy c) eqn:Htc; [|exact Hreset].
  assert (Hnew : Forall (Rows.xml_made bounds)
            (append (pois st)
               (Poi (get (current_tags st) "name" ("Unknown " ++ title c))
                    c lat lon (get_description_xml (current_tags st))))).
  { apply Forall_app. split; [exact Hrows|].
    constructor; [|constructor].
    exists (current_tags st), lat, lon. split; [exact Htags|].
    unfold Rows.xml_row. rewrite Hdict, Hc, Htc.
    destruct bounds as [b|]; simpl in *.
    - apply negb_false_iff in Hb. rewrite Hb. reflexivity.
    - reflexivity. }
  destruct (cap_reached max_pois _); split;
    solve [exact Hnew | exact Htags | apply no_empty_value_empty].
Qed.

Lemma parse_loop_made (bounds : option bbox) (max_pois : option Z)
    (events : list xml_event) (fin : stream_end) (st : parser_state)
    (rows : list poi) :
  Rows.made_state bounds st →
  parse_loop py_float bounds max_pois st events fin = Returned rows →
  Forall (Rows.xml_made bounds) rows.
Proof.
  revert st. induction events as [|ev events IH]; intros st Hst; simpl.
  - destruct fin; [|discriminate]. intros [= <-]. apply Hst.
  - assert (Hev : match on_event py_float bounds max_pois st ev with
                  | Continue st' | Break st' => Rows.made_state bounds st'
                  | Raise => True
                  end).
    { destruct ev as [tag attrib|tag]; simpl.
      - apply on_start_made, Hst.
      - apply on_end_made, Hst. }
    destruct (on_event py_float bounds max_pois st ev) as [st'|st'|].
    + apply IH, Hev.
    + intros [= <-]. apply Hev.
    + discriminate.
Qed.

Lemma parse_osm_xml_made (src : xml_source) (bounds : option bbox)
    (max_pois : option Z) :
  Forall (Rows.xml_made bounds) (parse_osm_xml py_float src bounds max_pois).
Proof.
  unfold parse_osm_xml.
  destruct (parse_osm_xml_try py_float src bounds max_pois) as [rows|] eqn:Hp;
    [|constructor].
  unfold parse_osm_xml_try in Hp.
  destruct (xml_events src) as [|_ events]; [discriminate|].
  eapply parse_loop_made; [|exact Hp].
  split; [apply no_empty_value_empty|constructor].
Qed.

(** X2: every row the XML parser of the PBF converter returns lies in the
    bounding box when one is given, has a name and a description that are
    not empty, and has one of the ten categories. *)
Theorem xml_rows_checked (src : xml_source) (bounds : option bbox)
    (max_pois : option Z) :
  Forall (λ r, Rows.in_box bounds r ∧ Spec.has_name r
               ∧ truthy (description r) = true
               ∧ in_list (category r) Rows.pbf_labels = true)
         (parse_osm_xml py_float src bounds max_pois).
Proof.
  eapply Forall_impl; [apply parse_osm_xml_made|].
  intros r (tags & lat & lon & Hne & Hr).
  eapply xml_row_checked; [exact Hne|exact Hr].
Qed.

End XmlRows.

(** ** Rows of the XML-only script *)

(** A string that does not start with white space. *)
Lemma lstrip_fixed (s : string) :
  match s with
  | EmptyString => True
  | String c _ => is_space c = false
  end →
  lstrip s = s.
Proof. destruct s as [|c s]; simpl; [reflexivity|]. intros ->. reflexivity. Qed.

Lemma lstrip_head (s : string) :
  match lstrip s with
  | EmptyString => True
  | String c _ => is_space c = false
  end.
Proof.
  induction s as [|c s IH]; simpl; [exact I|].
  destruct (is_space c) eqn:Hc; [exact IH|exact Hc].
Qed.

Lemma rstrip_head (s : string) :
  match s with
  | EmptyString => True
  | String c _ => is_space c = false
  end →
  match rstrip s with
  | EmptyString => True
  | String c _ => is_space c = false
  end.
Proof.
  destruct s as [|c s]; simpl; [trivial|]. intros Hc.
  destruct (rstrip s); [rewrite Hc|]; exact Hc.
Qed.

Lemma rstrip_idempotent (s : string) : rstrip (rstrip s) = rstrip s.
Proof.
  induction s as [|c s IH]; simpl; [reflexivity|].
  destruct (rstrip s) as [|c' r] eqn:Hr.
  - destruct (is_space c) eqn:Hc; simpl; [reflexivity|].
    rewrite Hc. reflexivity.
  - simpl in *. rewrite IH. reflexivity.
Qed.

(** [strip] leaves its own results as they are. *)
Lemma strip_stripped (s : string) : Rows.stripped (strip s).
Proof.
  unfold Rows.stripped, strip.
  rewrite (lstrip_fixed (rstrip (lstrip s)))
    by apply rstrip_head, lstrip_head.
  apply rstrip_idempotent.
Qed.

Section CsvRows.

Import GeofabrikToCsv.

Variable py_float : string → option float.

Lemma csv_on_event_checked (m : Z) (st : parser_state) (ev : xml_event) :
  Forall Rows.csv_checked (pois st) →
  match on_event py_float m st ev with
  | Continue st' | Break st' => Forall Rows.csv_checked (pois st')
  | Raise => True
  end.
Proof.
  intros Hrows. destruct ev as [tag attrib|tag]; simpl.
  - destruct (CsvParser.csv_on_start_pois st tag attrib) as [-> _].
    exact Hrows.
  - assert (Hreset : Forall Rows.csv_checked (pois (reset_after tag st))).
    { destruct (CsvParser.csv_reset_after_pois tag st) as [-> _].
      exact Hrows. }
    unfold on_end.
    destruct ((tag =? "node") && truthy_opt (current_lat st)
              && truthy_opt (current_lon st)); [|exact Hreset].
    destruct (truthy (get (current_tags st) "name" "") && _);
      [|exact Hreset].
    destruct (py_float (default "" (current_lat st))) as [lat|]; [|exact I].
    destruct (py_float (default "" (current_lon st))) as [lon|]; [|exact I].
    match goal with
    | |- context [append (pois st) ?r] =>
        assert (Hnew : Forall Rows.csv_checked (append (pois st) r))
    end.
    { apply Forall_app. split; [exact Hrows|].
      constructor; [|constructor].
      split; [apply strip_stripped|]. split; [apply strip_stripped|].
      apply categorize_poi_label. }
    match goal with
    | |- context [(m <=? ?c)%Z] => destruct (m <=? c)%Z
    end; simpl.
    + exact Hnew.
    + match goal with
      | |- context [reset_after tag ?s] =>
          destruct (CsvParser.csv_reset_after_pois tag s) as [-> _]
      end. exact Hnew.
Qed.

Lemma csv_parse_loop_checked (m : Z) (events : list xml_event)
    (fin : stream_end) (st : parser_state) (rows : list poi) :
  Forall Rows.csv_checked (pois st) →
  parse_loop py_float m st events fin = Returned rows →
  Forall Rows.csv_checked rows.
Proof.
  revert st. induction events as [|ev events IH]; intros st Hst; simpl.
  - destruct fin; [|discriminate]. intros [= <-]. exact Hst.
  - pose proof (csv_on_event_checked m st ev Hst) as Hev.
    destruct (on_event py_float m st ev) as [st'|st'|].
    + apply IH, Hev.
    + intros [= <-]. exact Hev.
    + discriminate.
Qed.

(** X3: in every row the XML-only script writes, the name and the
    description carry no white space at either end and the category is one
    of the script's eleven labels. *)
Theorem csv_rows_checked (src : xml_source) (max_pois : Z) :
  Forall Rows.csv_checked (parse_osm_xml py_float src max_pois).
Proof.
  unfold parse_osm_xml.
  destruct (parse_osm_xml_try py_float src max_pois) as [rows|] eqn:Hp;
    [|constructor].
  unfold parse_osm_xml_try in Hp.
  destruct (xml_events src) as [|_ events]; [discriminate|].
  eapply csv_parse_loop_checked; [|exact Hp]. constructor.
Qed.

End CsvRows.

(** ** What a cap keeps *)

Section HandlerCap.

Import POIHandler.

Lemma cap_reached_spec (m : Z) (rows : list poi) :
  (0 < m)%Z →
  cap_reached (Some m) rows = true ↔ (m ≤ len rows)%Z.
Proof.
  intros Hm. unfold cap_reached.
  rewrite andb_true_iff, negb_true_iff, Z.eqb_neq, Z.leb_le. lia.
Qed.

(** Under a cap of at least one, and when no node makes the callback
    raise, the handler ends with the first rows of the file, as many as the
    cap allows. *)
Lemma apply_nodes_take (m : Z) (nodes : list osm_node) (h : t) :
  max_pois h = Some m → (0 < m)%Z → (len (pois h) ≤ m)%Z →
  existsb (Rows.reads_invalid_location (bounds h)) nodes = false →
  apply_nodes h nodes
  = Returned
      (Handler (take (Z.to_nat m)
                     (pois h ++ omap (Spec.matching_poi (bounds h)) nodes))
               (bounds h) (max_pois h) (processed_count h)).
Proof.
  revert h.
  induction nodes as [|n nodes IH]; intros h Hm Hpos Hlen Hread; simpl.
  - rewrite app_nil_r, take_ge by (unfold len in Hlen; lia).
    destruct h; reflexivity.
  - simpl in Hread. apply orb_false_iff in Hread as [Hn Hread].
    destruct (cap_reached (max_pois h) (pois h)) eqn:Hcap.
    + rewrite (node_at_cap h n Hcap).
      rewrite (IH h Hm Hpos Hlen Hread).
      rewrite Hm in Hcap. apply cap_reached_spec in Hcap; [|exact Hpos].
      assert (Hfull : Z.to_nat m = length (pois h))
        by (unfold len in *; lia).
      rewrite !Hfull, !take_app_length. reflexivity.
    + rewrite (node_below_cap h n Hcap), Hn.
      assert (Hbelow : (len (pois h) < m)%Z).
      { rewrite Hm in Hcap.
        destruct (Z.lt_ge_cases (len (pois h)) m) as [Hlt|Hge]; [exact Hlt|].
        apply (cap_reached_spec m _ Hpos) in Hge. congruence. }
      destruct (Spec.matching_poi (bounds h) n) as [r|].
      * rewrite IH; simpl; [|exact Hm|exact Hpos| |exact Hread].
        -- rewrite <- app_assoc. reflexivity.
        -- unfold len in *. rewrite length_app. simpl. lia.
      * apply IH; assumption.
Qed.

End HandlerCap.

(** X21: read without an effective cap ([None] or [0]), a PBF file gives
    the rows of its matching nodes exactly when its decode ends well and no
    node makes the handler read a location that is not valid; otherwise the
    call raises, and the rows the handler held are lost with it. *)
Theorem uncapped_pbf_read_outcome (bounds : option bbox)
    (max_pois : option Z) (src : pbf_source) :
  max_pois = None ∨ max_pois = Some 0%Z →
  parse_osm_pbf true src bounds max_pois
  = if existsb (Rows.reads_invalid_location bounds) (pbf_nodes src)
    then Raised
    else match pbf_end src with
         | Eof => Returned (omap (Spec.matching_poi bounds) (pbf_nodes src))
         | ParseError => Raised
         end.
Proof.
  intros Hcap. unfold parse_osm_pbf, POIHandler.apply_file. simpl.
  rewrite apply_nodes_uncapped by (destruct Hcap as [-> | ->]; reflexivity).
  simpl.
  destruct (existsb (Rows.reads_invalid_location bounds) (pbf_nodes src));
    [reflexivity|].
  destruct (pbf_end src); reflexivity.
Qed.

(** A node outside the global range between the two sample nodes: the file
    gives nothing. *)
Lemma uncapped_pbf_read_outcome_witness :
  parse_osm_pbf true
    (PbfSource [Samples.cafe_node; Samples.far_node; Samples.bank_node] Eof)
    None None
  = Raised.
Proof.
  apply (uncapped_pbf_read_outcome None None
           (PbfSource [Samples.cafe_node; Samples.far_node; Samples.bank_node]
                      Eof)).
  left. reflexivity.
Defined.

(** X4: on a file that decodes to its end and whose nodes have valid
    locations, [parse_osm_pbf] under a cap [m >= 1] returns the rows of the
    first [m] matching nodes, in file order, and all of them when there are
    fewer. *)
Theorem pbf_cap_takes_first (bounds : option bbox) (m : Z)
    (nodes : list osm_node) :
  (0 < m)%Z →
  Forall (λ n, valid_coordinates (location_lat n) (location_lon n) = true)
         nodes →
  parse_osm_pbf true (PbfSource nodes Eof) bounds (Some m)
  = Returned (take (Z.to_nat m) (omap (Spec.matching_poi bounds) nodes)).
Proof.
  intros Hm Hvalid. unfold parse_osm_pbf, POIHandler.apply_file. simpl.
  rewrite (apply_nodes_take m);
    [reflexivity|reflexivity|exact Hm|unfold len; simpl; lia|].
  apply valid_locations_read, Hvalid.
Qed.

(** A cap of one on the two-node sample file keeps the first row. *)
Lemma pbf_cap_takes_first_witness :
  parse_osm_pbf true (PbfSource [Samples.cafe_node; Samples.bank_node] Eof)
                None (Some 1%Z)
  = Returned (take 1 (omap (Spec.matching_poi None)
                           [Samples.cafe_node; Samples.bank_node])).
Proof.
  apply (pbf_cap_takes_first None 1); [lia|].
  repeat constructor.
Defined.

Section XmlCap.

Variable py_float : string → option float.

(** A turn of the loop only ever appends to the rows. *)
Lemma on_event_extends (bounds : option bbox) (max_pois : option Z)
    (st : parser_state) (ev : xml_event) :
  match on_event py_float bounds max_pois st ev with
  | Continue st' | Break st' => pois st `prefix_of` pois st'
  | Raise => True
  end.
Proof.
  destruct ev as [tag attrib|tag]; simpl.
  - destruct (on_start py_float st tag attrib) as [st'|st'|] eqn:Hs.
    + rewrite (on_start_pois _ _ _ _ _ Hs). reflexivity.
    + exfalso. exact (on_start_no_break _ _ _ _ _ Hs).
    + exact I.
  - unfold on_end.
    repeat match goal with
           | |- context [match ?o with Some _ => _ | None => _ end] =>
               destruct o
           | |- context [let '(_, _) := ?p in _] => destruct p
           | |- context [if ?b then _ else _] => destruct b
           end; simpl; try reflexivity; apply prefix_app_r; reflexivity.
Qed.

Lemma parse_loop_extends (bounds : option bbox) (max_pois : option Z)
    (events : list xml_event) (fin : stream_end) (st : parser_state)
    (rows : list poi) :
  parse_loop py_float bounds max_pois st events fin = Returned rows →
  pois st `prefix_of` rows.
Proof.
  revert st. induction events as [|ev events IH]; intros st; simpl.
  - destruct fin; [|discriminate]. intros [= <-]. reflexivity.
  - pose proof (on_event_extends bounds max_pois st ev) as Hev.
    destruct (on_event py_float bounds max_pois st ev) as [st'|st'|].
    + intros Hp. etrans; [exact Hev|apply (IH _ Hp)].
    + intros [= <-]. exact Hev.
    + discriminate.
Qed.

(** One turn of the loop with and without a cap [m >= 1], entered below
    the cap: the same turn, except that the capped loop breaks where the
    rows reach the cap. *)
Lemma on_event_capped (bounds : option bbox) (m : Z) (st : parser_state)
    (ev : xml_event) :
  cap_reached (Some m) (pois st) = false →
  match on_event py_float bounds None st ev with
  | Continue st' =>
      if cap_reached (Some m) (pois st')
      then ∃ st'', on_event py_float bounds (Some m) st ev = Break st''
                   ∧ pois st'' = pois st'
      else on_event py_float bounds (Some m) st ev = Continue st'
  | Break _ => False
  | Raise => on_event py_float bounds (Some m) st ev = Raise
  end.
Proof.
  intros Hcap. destruct ev as [tag attrib|tag]; cbn [on_event].
  - destruct (on_start py_float st tag attrib) as [st'|st'|] eqn:Hs.
    + cbv beta iota. rewrite (on_start_pois _ _ _ _ _ Hs), Hcap.
      rewrite <- Hs. reflexivity.
    + exact (on_start_no_break _ _ _ _ _ Hs).
    + reflexivity.
  - unfold on_end.
    destruct (current_node st) as [[lat lon]|];
      [|cbn [pois]; rewrite Hcap; reflexivity].
    destruct ((tag =? "node") && nonempty_dict (current_tags st));
      [|cbn [pois]; rewrite Hcap; reflexivity].
    destruct (match bounds with
              | Some b => negb (in_bounds b lat lon)
              | None => false
              end); [cbn [pois]; rewrite Hcap; reflexivity|].
    destruct (categorize_poi_xml (current_tags st)) as [c|];
      [|cbn [pois]; rewrite Hcap; reflexivity].
    destruct (truthy c); [|cbn [pois]; rewrite Hcap; reflexivity].
    change (cap_reached None) with (λ _ : list poi, false).
    cbv beta iota. cbn [pois].
    match goal with
    | |- context [cap_reached (Some m) ?l] =>
        destruct (cap_reached (Some m) l) eqn:Hnew
    end.
    + eexists. split; reflexivity.
    + reflexivity.
Qed.

Lemma parse_loop_capped (bounds : option bbox) (m : Z)
    (events : list xml_event) (fin : stream_end) (st : parser_state)
    (rows : list poi) :
  (0 < m)%Z → (len (pois st) < m)%Z →
  parse_loop py_float bounds None st events fin = Returned rows →
  parse_loop py_float bounds (Some m) st events fin
  = Returned (take (Z.to_nat m) rows).
Proof.
  intros Hm. revert st.
  induction events as [|ev events IH]; intros st Hlen; simpl.
  - destruct fin; [|discriminate]. intros [= <-].
    rewrite take_ge; [reflexivity|]. unfold len in Hlen. lia.
  - assert (Hcap : cap_reached (Some m) (pois st) = false).
    { destruct (cap_reached (Some m) (pois st)) eqn:Hc; [|reflexivity].
      apply cap_reached_spec in Hc; [lia|exact Hm]. }
    pose proof (on_event_capped bounds m st ev Hcap) as Hev.
    pose proof (on_event_within_cap py_float bounds m st ev Hm Hlen) as Hin.
    destruct (on_event py_float bounds None st ev) as [st'|st'|];
      [|contradiction|discriminate].
    intros Hp.
    destruct (cap_reached (Some m) (pois st')) eqn:Hc.
    + destruct Hev as (st'' & Hbreak & Hrows).
      rewrite Hbreak in Hin |- *. rewrite Hrows in Hin |- *.
      apply cap_reached_spec in Hc; [|exact Hm].
      apply parse_loop_extends in Hp as [more ->].
      rewrite take_app_length'; [reflexivity|]. unfold len in *. lia.
    + rewrite Hev. apply IH; [|exact Hp].
      destruct (Z.lt_ge_cases (len (pois st')) m) as [Hlt|Hge]; [exact Hlt|].
      apply (cap_reached_spec m _ Hm) in Hge. congruence.
Qed.

(** X5: when the XML parser of the PBF converter reads a file to its end
    without a cap, the same file under a cap [m >= 1] gives the first [m]
    of these rows, and all of them when there are fewer. *)
Theorem xml_cap_takes_first (src : xml_source) (bounds : option bbox)
    (m : Z) (rows : list poi) :
  (0 < m)%Z →
  parse_osm_xml_try py_float src bounds None = Returned rows →
  parse_osm_xml py_float src bounds (Some m) = take (Z.to_nat m) rows.
Proof.
  intros Hm. unfold parse_osm_xml, parse_osm_xml_try.
  destruct (xml_events src) as [|_ events]; [discriminate|].
  intros Hp. rewrite (parse_loop_capped bounds m events (xml_end src)
                        initial_state rows Hm); [reflexivity| |exact Hp].
  unfold len. simpl. lia.
Qed.

End XmlCap.

(** The two-POI sample extract under a cap of one. *)
Lemma xml_cap_takes_first_witness :
  parse_osm_xml Samples.decimal_float Samples.town_xml None (Some 1%Z)
  = take 1 (parse_osm_xml Samples.decimal_float Samples.town_xml None None).
Proof.
  apply (xml_cap_takes_first Samples.decimal_float Samples.town_xml None 1).
  - lia.
  - vm_compute. reflexivity.
Defined.

(** ** Files cut short *)

Section CutShort.

Variable py_float : string → option float.

(** Under a cap [m >= 1] the loop breaks only when the rows have just
    reached the cap. *)
Lemma on_event_break_full (bounds : option bbox) (m : Z)
    (st st' : parser_state) (ev : xml_event) :
  (0 < m)%Z → (len (pois st) < m)%Z →
  on_event py_float bounds (Some m) st ev = Break st' →
  len (pois st') = m.
Proof.
  intros Hm Hlen Hbreak.
  assert (Hcap : cap_reached (Some m) (pois st) = false).
  { destruct (cap_reached (Some m) (pois st)) eqn:Hc; [|reflexivity].
    apply cap_reached_spec in Hc; [lia|exact Hm]. }
  pose proof (on_event_capped py_float bounds m st ev Hcap) as Hev.
  pose proof (on_event_within_cap py_float bounds m st ev Hm Hlen) as Hin.
  rewrite Hbreak in Hin.
  destruct (on_event py_float bounds None st ev) as [st0|st0|];
    [|contradiction|congruence].
  destruct (cap_reached (Some m) (pois st0)) eqn:Hc; [|congruence].
  destruct Hev as (st'' & Hb & Hrows).
  rewrite Hbreak in Hb. injection Hb as <-.
  apply cap_reached_spec in Hc; [|exact Hm].
  cbv beta iota in Hin. rewrite Hrows in Hin |- *. lia.
Qed.

Lemma parse_loop_cut_short (bounds : option bbox) (m : Z)
    (events : list xml_event) (st : parser_state) (rows : list poi) :
  (0 < m)%Z → (len (pois st) < m)%Z →
  parse_loop py_float bounds (Some m) st events ParseError = Returned rows →
  len rows = m.
Proof.
  intros Hm. revert st.
  induction events as [|ev events IH]; intros st Hlen; simpl; [discriminate|].
  pose proof (on_event_within_cap py_float bounds m st ev Hm Hlen) as Hin.
  destruct (on_event py_float bounds (Some m) st ev) as [st'|st'|] eqn:Hev.
  - apply IH, Hin.
  - intros [= <-]. eapply on_event_break_full; eassumption.
  - discriminate.
Qed.

Lemma csv_on_event_break_full (m : Z) (st st' : GeofabrikToCsv.parser_state)
    (ev : xml_event) :
  GeofabrikToCsv.poi_count st = len (GeofabrikToCsv.pois st) →
  (len (GeofabrikToCsv.pois st) < m)%Z →
  GeofabrikToCsv.on_event py_float m st ev = Break st' →
  len (GeofabrikToCsv.pois st') = m.
Proof.
  intros Hcount Hlen. destruct ev as [tag attrib|tag]; simpl; [discriminate|].
  unfold GeofabrikToCsv.on_end.
  destruct ((tag =? "node") && _ && _); [|discriminate].
  destruct (truthy _ && _); [|discriminate].
  destruct (py_float (default "" (GeofabrikToCsv.current_lat st)));
    [|discriminate].
  destruct (py_float (default "" (GeofabrikToCsv.current_lon st)));
    [|discriminate].
  match goal with
  | |- context [(m <=? ?c)%Z] => destruct (Z.leb_spec m c) as [Hle|Hgt]
  end; [|discriminate].
  intros [= <-]. simpl in *.
  unfold append, len in *. rewrite length_app. simpl. lia.
Qed.

Lemma csv_parse_loop_cut_short (m : Z) (events : list xml_event)
    (st : GeofabrikToCsv.parser_state) (rows : list poi) :
  (0 < m)%Z →
  GeofabrikToCsv.poi_count st = len (GeofabrikToCsv.pois st) →
  (len (GeofabrikToCsv.pois st) < m)%Z →
  GeofabrikToCsv.parse_loop py_float m st events ParseError = Returned rows →
  len rows = m.
Proof.
  intros Hm. revert st.
  induction events as [|ev events IH]; intros st Hcount Hlen; simpl;
    [discriminate|].
  pose proof (CsvParser.csv_on_event_within_cap py_float m st ev Hm Hcount Hlen)
    as Hin.
  destruct (GeofabrikToCsv.on_event py_float m st ev) as [st'|st'|] eqn:Hev.
  - destruct Hin as [Hc Hl]. apply IH; assumption.
  - intros [= <-]. eapply csv_on_event_break_full; eassumption.
  - discriminate.
Qed.

(** X6: a file whose read ends in a failure gives either no row at all or,
    when the cap [m >= 1] was filled before the failure, exactly [m] rows;
    this holds for the XML parsers of both scripts. *)
Theorem cut_short_xml_all_or_nothing :
  (∀ (src : xml_source) (bounds : option bbox) (m : Z),
     xml_end src = ParseError → (0 < m)%Z →
     parse_osm_xml py_float src bounds (Some m) = []
     ∨ len (parse_osm_xml py_float src bounds (Some m)) = m)
  ∧ (∀ (src : xml_source) (m : Z),
       xml_end src = ParseError → (0 < m)%Z →
       GeofabrikToCsv.parse_osm_xml py_float src m = []
       ∨ len (GeofabrikToCsv.parse_osm_xml py_float src m) = m).
Proof.
  split.
  - intros src bounds m Hend Hm. unfold parse_osm_xml.
    destruct (parse_osm_xml_try py_float src bounds (Some m)) as [rows|] eqn:Hp;
      [right|left; reflexivity].
    unfold parse_osm_xml_try in Hp. rewrite Hend in Hp.
    destruct (xml_events src) as [|_ events]; [discriminate|].
    eapply parse_loop_cut_short; [exact Hm| |exact Hp].
    unfold len. simpl. lia.
  - intros src m Hend Hm. unfold GeofabrikToCsv.parse_osm_xml.
    destruct (GeofabrikToCsv.parse_osm_xml_try py_float src m) as [rows|] eqn:Hp;
      [right|left; reflexivity].
    unfold GeofabrikToCsv.parse_osm_xml_try in Hp. rewrite Hend in Hp.
    destruct (xml_events src) as [|_ events]; [discriminate|].
    apply (csv_parse_loop_cut_short m events GeofabrikToCsv.initial_state
             rows Hm); [reflexivity| |exact Hp].
    unfold len. simpl. lia.
Qed.

End CutShort.

(** The sample extract cut off after its two POIs, under a cap of two. *)
Lemma cut_short_xml_all_or_nothing_witness :
  (parse_osm_xml Samples.decimal_float Samples.truncated_town_xml None
                 (Some 2%Z) = []
   ∨ len (parse_osm_xml Samples.decimal_float Samples.truncated_town_xml None
                        (Some 2%Z)) = 2%Z)
  ∧ (GeofabrikToCsv.parse_osm_xml Samples.decimal_float
       Samples.truncated_town_xml 2 = []
     ∨ len (GeofabrikToCsv.parse_osm_xml Samples.decimal_float
              Samples.truncated_town_xml 2) = 2%Z).
Proof.
  split.
  - apply (proj1 (cut_short_xml_all_or_nothing Samples.decimal_float));
      [reflexivity|lia].
  - apply (proj2 (cut_short_xml_all_or_nothing Samples.decimal_float));
      [reflexivity|lia].
Defined.

(** ** Caps that are not positive *)

Lemma cap_reached_negative (m : Z) (rows : list poi) :
  (m < 0)%Z → cap_reached (Some m) rows = true.
Proof.
  intros Hm. unfold cap_reached, len.
  rewrite andb_true_iff, negb_true_iff, Z.eqb_neq, Z.leb_le. lia.
Qed.

Lemma cap_reached_zero (rows : list poi) : cap_reached (Some 0%Z) rows = false.
Proof. reflexivity. Qed.

(** Under a negative cap the handler takes no row. *)
Lemma parse_osm_pbf_negative (avail : bool) (src : pbf_source)
    (bounds : option bbox) (m : Z) (rows : list poi) :
  (m < 0)%Z →
  parse_osm_pbf avail src bounds (Some m) = Returned rows → rows = [].
Proof.
  intros Hm H. apply parse_osm_pbf_returned in H as (h & Hh & <- & _ & _).
  rewrite apply_nodes_at_cap in Hh by (apply cap_reached_negative, Hm).
  injection Hh as <-. reflexivity.
Qed.

Section NegativeCap.

Variable py_float : string → option float.

Lemma on_event_negative (bounds : option bbox) (m : Z) (st : parser_state)
    (ev : xml_event) :
  (m < 0)%Z → pois st = [] →
  match on_event py_float bounds (Some m) st ev with
  | Continue st' => pois st' = []
  | Break st' => length (pois st') = 1%nat
  | Raise => True
  end.
Proof.
  intros Hm Hnil. destruct ev as [tag attrib|tag]; cbn [on_event].
  - destruct (on_start py_float st tag attrib) as [st'|st'|] eqn:Hs.
    + rewrite (on_start_pois _ _ _ _ _ Hs). exact Hnil.
    + exfalso. exact (on_start_no_break _ _ _ _ _ Hs).
    + exact I.
  - unfold on_end.
    destruct (current_node st) as [[lat lon]|]; [|exact Hnil].
    destruct ((tag =? "node") && nonempty_dict (current_tags st));
      [|exact Hnil].
    destruct (match bounds with
              | Some b => negb (in_bounds b lat lon)
              | None => false
              end); [exact Hnil|].
    destruct (categorize_poi_xml (current_tags st)) as [c|]; [|exact Hnil].
    destruct (truthy c); [|exact Hnil].
    rewrite cap_reached_negative by exact Hm.
    cbn [pois]. rewrite Hnil. reflexivity.
Qed.

Lemma parse_loop_negative (bounds : option bbox) (m : Z)
    (events : list xml_event) (fin : stream_end) (st : parser_state)
    (rows : list poi) :
  (m < 0)%Z → pois st = [] →
  parse_loop py_float bounds (Some m) st events fin = Returned rows →
  (length rows ≤ 1)%nat.
Proof.
  intros Hm. revert st.
  induction events as [|ev events IH]; intros st Hnil; simpl.
  - destruct fin; [|discriminate]. intros [= <-]. rewrite Hnil. simpl. lia.
  - pose proof (on_event_negative bounds m st ev Hm Hnil) as Hev.
    destruct (on_event py_float bounds (Some m) st ev) as [st'|st'|].
    + apply IH, Hev.
    + intros [= <-]. lia.
    + discriminate.
Qed.

(** Under a negative cap the XML parser stops at its first row. *)
Lemma parse_osm_xml_negative (src : xml_source) (bounds : option bbox)
    (m : Z) :
  (m < 0)%Z → (len (parse_osm_xml py_float src bounds (Some m)) ≤ 1)%Z.
Proof.
  intros Hm. unfold parse_osm_xml.
  destruct (parse_osm_xml_try py_float src bounds (Some m)) as [rows|] eqn:Hp;
    [|unfold len; simpl; lia].
  unfold parse_osm_xml_try in Hp.
  destruct (xml_events src) as [|_ events]; [discriminate|].
  apply (parse_loop_negative bounds m events (xml_end src) initial_state
           rows Hm eq_refl) in Hp.
  unfold len. lia.
Qed.

(** With a cap that is not positive the parser of the XML-only script stops
    at its first row. *)
Lemma csv_on_event_nonpositive (m : Z) (st : GeofabrikToCsv.parser_state)
    (ev : xml_event) :
  (m ≤ 0)%Z →
  GeofabrikToCsv.pois st = [] → GeofabrikToCsv.poi_count st = 0%Z →
  match GeofabrikToCsv.on_event py_float m st ev with
  | Continue st' =>
      GeofabrikToCsv.pois st' = [] ∧ GeofabrikToCsv.poi_count st' = 0%Z
  | Break st' => length (GeofabrikToCsv.pois st') = 1%nat
  | Raise => True
  end.
Proof.
  intros Hm Hnil Hcount. destruct ev as [tag attrib|tag]; simpl.
  - destruct (CsvParser.csv_on_start_pois st tag attrib) as [-> ->].
    split; assumption.
  - assert (Hreset : GeofabrikToCsv.pois (GeofabrikToCsv.reset_after tag st) = []
                     ∧ GeofabrikToCsv.poi_count
                         (GeofabrikToCsv.reset_after tag st) = 0%Z).
    { destruct (CsvParser.csv_reset_after_pois tag st) as [-> ->].
      split; assumption. }
    unfold GeofabrikToCsv.on_end.
    destruct ((tag =? "node") && _ && _); [|exact Hreset].
    destruct (truthy _ && _); [|exact Hreset].
    destruct (py_float (default "" (GeofabrikToCsv.current_lat st)));
      [|exact I].
    destruct (py_float (default "" (GeofabrikToCsv.current_lon st)));
      [|exact I].
    match goal with
    | |- context [(m <=? ?c)%Z] => destruct (Z.leb_spec m c) as [Hle|Hgt]
    end; simpl in *.
    + rewrite Hnil. reflexivity.
    + lia.
Qed.

Lemma csv_parse_osm_xml_nonpositive (src : xml_source) (m : Z) :
  (m ≤ 0)%Z → (len (GeofabrikToCsv.parse_osm_xml py_float src m) ≤ 1)%Z.
Proof.
  intros Hm. unfold GeofabrikToCsv.parse_osm_xml.
  destruct (GeofabrikToCsv.parse_osm_xml_try py_float src m) as [rows|] eqn:Hp;
    [|unfold len; simpl; lia].
  unfold GeofabrikToCsv.parse_osm_xml_try in Hp.
  destruct (xml_events src) as [|_ events]; [discriminate|].
  assert (Hloop : ∀ evs st,
            GeofabrikToCsv.pois st = [] → GeofabrikToCsv.poi_count st = 0%Z →
            GeofabrikToCsv.parse_loop py_float m st evs (xml_end src)
            = Returned rows → (length rows ≤ 1)%nat).
  { induction evs as [|ev evs IH]; intros st Hnil Hcount; simpl.
    - destruct (xml_end src); [|discriminate]. intros [= <-].
      rewrite Hnil. simpl. lia.
    - pose proof (csv_on_event_nonpositive m st ev Hm Hnil Hcount) as Hev.
      destruct (GeofabrikToCsv.on_event py_float m st ev) as [st'|st'|].
      + destruct Hev as [Hn Hc]. apply IH; assumption.
      + intros [= <-]. lia.
      + discriminate. }
  apply Hloop in Hp; [|reflexivity|reflexivity]. unfold len. lia.
Qed.

(** The loop of [main] under a negative cap, started with no rows, ends
    with at most one row. *)
Lemma main_loop_negative (avail : bool) (bounds : option bbox) (K : Z)
    (files : list osm_file) (out : list poi) :
  (K < 0)%Z →
  main_loop py_float avail bounds K files [] = Some out →
  (len out ≤ 1)%Z.
Proof.
  intros HK. induction files as [|f files IH].
  - intros [= <-]. unfold len. simpl. lia.
  - destruct f as [src|src].
    + rewrite main_loop_xml. cbv zeta.
      rewrite cap_reached_negative by exact HK.
      intros [= <-]. cbn [app].
      apply parse_osm_xml_negative. unfold len. simpl. lia.
    + simpl. destruct avail; simpl; [|discriminate].
      destruct (parse_osm_pbf true src bounds (Some (K - len [])))
        as [rows|] eqn:Hp; [|exact IH].
      apply parse_osm_pbf_negative in Hp; [|unfold len; simpl; lia].
      subst rows. simpl.
      fold (cap_reached (Some K) []).
      rewrite cap_reached_negative by exact HK.
      intros [= <-]. unfold len. simpl. lia.
Qed.

(** X7: a cap that is not positive does not lift the limit across a run:
    under a negative [--max-pois] the PBF converter writes at most one row,
    and so does the XML-only script under a cap of zero or less. *)
Theorem nonpositive_cap_runs :
  (∀ avail bounds (K : Z) (files : list osm_file),
     (K < 0)%Z →
     (len (rows_of (main py_float avail bounds K files)) ≤ 1)%Z)
  ∧ (∀ (K : Z) (files : list xml_source),
       (K ≤ 0)%Z →
       (len (rows_of (GeofabrikToCsv.process_geofabrik_data py_float files K))
        ≤ 1)%Z).
Proof.
  split.
  - intros avail bounds K files HK. unfold main.
    destruct files as [|f files]; [unfold len; simpl; lia|].
    destruct (main_loop py_float avail bounds K (f :: files) [])
      as [out|] eqn:Hloop; [|unfold len; simpl; lia].
    apply main_loop_negative in Hloop; [|exact HK].
    destruct out; [unfold len; simpl; lia|exact Hloop].
  - intros K files HK. unfold GeofabrikToCsv.process_geofabrik_data.
    destruct files as [|f files]; [unfold len; simpl; lia|].
    assert (Hloop : ∀ out,
              GeofabrikToCsv.process_files py_float K (f :: files) 0 []
              = Returned out → (len out ≤ 1)%Z).
    { generalize (f :: files). intros fs.
      induction fs as [|g fs IH]; intros out; simpl.
      - intros [= <-]. unfold len. simpl. lia.
      - rewrite Z.sub_0_r.
        pose proof (csv_parse_osm_xml_nonpositive g K HK) as Hrows.
        destruct (Z.ltb_spec 0
                    (len (GeofabrikToCsv.parse_osm_xml py_float g K)))
          as [Hsome|Hnone]; [|apply IH].
        destruct (GeofabrikToCsv.read_rows
                    (GeofabrikToCsv.parse_osm_xml py_float g K))
          as [back|] eqn:Hback; [|discriminate].
        apply CsvParser.read_rows_length in Hback.
        destruct (Z.leb_spec K
                    (0 + len (GeofabrikToCsv.parse_osm_xml py_float g K)))
          as [Hfull|Hmore]; [|lia].
        intros [= <-]. unfold len in *. simpl. lia. }
    destruct (GeofabrikToCsv.process_files py_float K (f :: files) 0 [])
      as [out|]; [|unfold len; simpl; lia].
    specialize (Hloop out eq_refl).
    destruct out; [unfold len; simpl; lia|exact Hloop].
Qed.

(** X8: under [--max-pois 0] only the first rows are read without a cap:
    once rows are collected, the next file is handed a negative budget, so
    a [.pbf] file adds nothing and an XML file adds at most one row. *)
Theorem zero_cap_starves_later_files (bounds : option bbox)
    (rest : list osm_file) (all_pois : list poi) :
  all_pois ≠ [] →
  (∀ src, main_loop py_float true bounds 0 (PbfFile src :: rest) all_pois
          = main_loop py_float true bounds 0 rest all_pois)
  ∧ (∀ src, ∃ rows,
       (len rows ≤ 1)%Z
       ∧ main_loop py_float true bounds 0 (XmlFile src :: rest) all_pois
         = main_loop py_float true bounds 0 rest (all_pois ++ rows)).
Proof.
  intros Hsome.
  assert (Hneg : (0 - len all_pois < 0)%Z).
  { destruct all_pois; [contradiction|]. unfold len. simpl. lia. }
  split.
  - intros src. simpl.
    destruct (parse_osm_pbf true src bounds (Some (0 - len all_pois)))
      as [rows|] eqn:Hp; [|reflexivity].
    apply parse_osm_pbf_negative in Hp; [|exact Hneg].
    subst rows. rewrite app_nil_r. reflexivity.
  - intros src.
    exists (parse_osm_xml py_float src bounds (Some (0 - len all_pois))).
    split; [apply parse_osm_xml_negative, Hneg|].
    rewrite main_loop_xml. reflexivity.
Qed.

End NegativeCap.

(** Three sample files under a cap of [-1], and two under a cap of [0] in
    the XML-only script. *)
Lemma nonpositive_cap_runs_witness :
  (len (rows_of (main Samples.decimal_float true None (-1)
                   [XmlFile Samples.town_xml; PbfFile Samples.town_pbf;
                    XmlFile Samples.town_xml])) ≤ 1)%Z
  ∧ (len (rows_of (GeofabrikToCsv.process_geofabrik_data Samples.decimal_float
                     [Samples.town_xml; Samples.town_xml] 0)) ≤ 1)%Z.
Proof.
  split.
  - apply (proj1 (nonpositive_cap_runs Samples.decimal_float)). lia.
  - apply (proj2 (nonpositive_cap_runs Samples.decimal_float)). lia.
Defined.

(** After the sample XML extract, the sample PBF file adds nothing under a
    cap of zero. *)
Lemma zero_cap_starves_later_files_witness :
  main_loop Samples.decimal_float true None 0 [PbfFile Samples.town_pbf]
            (parse_osm_xml Samples.decimal_float Samples.town_xml None (Some 0%Z))
  = main_loop Samples.decimal_float true None 0 []
              (parse_osm_xml Samples.decimal_float Samples.town_xml None
                             (Some 0%Z)).
Proof.
  apply (zero_cap_starves_later_files Samples.decimal_float None []).
  vm_compute. discriminate.
Defined.

(** ** The two readers on the same extract *)

Section SameExtract.

Import Samples.

Variable py_float : string → option float.

Lemma cap_reached_falsy (cap : option Z) (rows : list poi) :
  truthy_int cap = false → cap_reached cap rows = false.
Proof.
  destruct cap as [m|]; [|reflexivity]. simpl. intros Hm.
  unfold cap_reached. rewrite Hm. reflexivity.
Qed.

(** The start of a node element with both coordinate texts. *)
Lemma on_start_node (st : parser_state) (lat lon : string) (la lo : float) :
  truthy lat = true → truthy lon = true →
  py_float lat = Some la → py_float lon = Some lo →
  on_start py_float st "node" (<["lat" := lat]> (<["lon" := lon]> ∅))
  = Continue (ParserState (Some (la, lo)) ∅ (pois st)).
Proof.
  intros Hlat Hlon Hla Hlo. unfold on_start.
  change ("node" =? "node") with true. cbv iota.
  rewrite lookup_insert_eq, lookup_insert_ne, lookup_insert_eq by discriminate.
  rewrite Hlat, Hlon, Hla, Hlo. reflexivity.
Qed.

(** A tag element inside a node adds its pair to the collected tags. *)
Lemma on_start_tag (c : float * float) (d : gmap string string)
    (rows : list poi) (k v : string) :
  truthy k = true → truthy v = true →
  on_start py_float (ParserState (Some c) d rows) "tag"
           (<["k" := k]> (<["v" := v]> ∅))
  = Continue (ParserState (Some c) (<[k := v]> d) rows).
Proof.
  intros Hk Hv. unfold on_start.
  change ("tag" =? "node") with false.
  change ("tag" =? "tag") with true. cbn [current_node current_tags pois].
  change (bool_decide (is_Some (Some c))) with true. cbv iota beta.
  cbn [andb].
  rewrite lookup_insert_eq, lookup_insert_ne, lookup_insert_eq by discriminate.
  rewrite Hk, Hv. reflexivity.
Qed.

(** The end of an element that is not a node changes nothing. *)
Lemma on_end_other (bounds : option bbox) (cap : option Z)
    (st : parser_state) (tag : string) :
  (tag =? "node") = false → on_end bounds cap st tag = Continue st.
Proof.
  intros Htag. unfold on_end. rewrite Htag.
  destruct (current_node st) as [[lat lon]|]; reflexivity.
Qed.

Lemma parse_loop_tags (bounds : option bbox) (cap : option Z)
    (tags : list (string * string)) (c : float * float)
    (d : gmap string string) (rows : list poi) (rest : list xml_event)
    (fin : stream_end) :
  Forall (λ kv, truthy kv.1 = true ∧ truthy kv.2 = true) tags →
  parse_loop py_float bounds cap (ParserState (Some c) d rows)
    (concat (map (λ kv, tag_events kv.1 kv.2) tags) ++ rest) fin
  = parse_loop py_float bounds cap
      (ParserState (Some c) (foldl (λ d kv, <[kv.1 := kv.2]> d) d tags) rows)
      rest fin.
Proof.
  intros Htags. revert d.
  induction Htags as [|[k v] tags [Hk Hv] _ IH]; intros d; [reflexivity|].
  cbn [map concat foldl tag_events fst snd app parse_loop on_event].
  simpl in Hk, Hv.
  rewrite (on_start_tag c d rows k v Hk Hv).
  rewrite on_end_other by reflexivity.
  apply IH.
Qed.

(** The end of a node element without an effective cap: the row of the
    node, if it has one, is appended. *)
Lemma on_end_node (bounds : option bbox) (cap : option Z)
    (la lo : float) (d : gmap string string) (rows : list poi) :
  truthy_int cap = false →
  ∃ cn d',
    on_end bounds cap (ParserState (Some (la, lo)) d rows) "node"
    = Continue (ParserState cn d'
                  (rows ++ option_list (Rows.xml_row bounds d la lo))%list).
Proof.
  intros Hcap. unfold on_end, Rows.xml_row.
  cbn [current_node current_tags pois].
  change ("node" =? "node") with true. cbn [andb].
  destruct (nonempty_dict d).
  - destruct bounds as [b|].
    + destruct (in_bounds b la lo); cbn [negb andb].
      * destruct (categorize_poi_xml d) as [c|].
        -- destruct (truthy c).
           ++ rewrite cap_reached_falsy by exact Hcap.
              eexists _, _. reflexivity.
           ++ eexists _, _. cbn [option_list]. rewrite app_nil_r. reflexivity.
        -- eexists _, _. cbn [option_list]. rewrite app_nil_r. reflexivity.
      * eexists _, _. cbn [option_list]. rewrite app_nil_r. reflexivity.
    + cbn [andb]. destruct (categorize_poi_xml d) as [c|].
      * destruct (truthy c).
        -- rewrite cap_reached_falsy by exact Hcap.
           eexists _, _. reflexivity.
        -- eexists _, _. cbn [option_list]. rewrite app_nil_r. reflexivity.
      * eexists _, _. cbn [option_list]. rewrite app_nil_r. reflexivity.
  - eexists _, _. cbn [andb option_list]. rewrite app_nil_r. reflexivity.
Qed.

(** For a node with coordinates in the global range, the row of the XML
    parser is the row of the handler. *)
Lemma xml_row_matching_poi (bounds : option bbox) (n : osm_node) :
  valid_coordinates (location_lat n) (location_lon n) = true →
  Rows.xml_row bounds (dict_of_tags (node_tags n))
               (location_lat n) (location_lon n)
  = Spec.matching_poi bounds n.
Proof.
  intros Hv. unfold Rows.xml_row, Spec.matching_poi. rewrite Hv.
  rewrite andb_true_r, (andb_comm (nonempty_dict _)). reflexivity.
Qed.

(** The events of one node element, read without an effective cap. *)
Lemma parse_loop_node (bounds : option bbox) (cap : option Z)
    (x : Rows.xml_node) (n : osm_node) (st : parser_state)
    (rest : list xml_event) (fin : stream_end) :
  truthy_int cap = false →
  Rows.same_node py_float x n →
  valid_coordinates (location_lat n) (location_lon n) = true →
  ∃ cn d,
    parse_loop py_float bounds cap st (Rows.node_xml x ++ rest) fin
    = parse_loop py_float bounds cap
        (ParserState cn d
           (pois st ++ option_list (Spec.matching_poi bounds n))%list)
        rest fin.
Proof.
  intros Hcap (Hlat & Hlon & Hla & Hlo & Htags & Hclean) Hv.
  unfold Rows.node_xml, node_events.
  cbn [app parse_loop on_event].
  rewrite (on_start_node st _ _ _ _ Hlat Hlon Hla Hlo).
  rewrite <- app_assoc.
  rewrite (parse_loop_tags bounds cap _ _ _ _ _ fin Hclean).
  cbn [app parse_loop on_event].
  destruct (on_end_node bounds cap (location_lat n) (location_lon n)
              (foldl (λ d kv, <[kv.1 := kv.2]> d) ∅ (Rows.xml_tags x))
              (pois st) Hcap) as (cn & d & ->).
  exists cn, d. rewrite Htags.
  change (foldl (λ d0 kv, <[kv.1 := kv.2]> d0) ∅ (node_tags n))
    with (dict_of_tags (node_tags n)).
  rewrite (xml_row_matching_poi bounds n Hv). reflexivity.
Qed.

Lemma parse_loop_nodes (bounds : option bbox) (cap : option Z)
    (xs : list Rows.xml_node) (nodes : list osm_node) (st : parser_state) :
  truthy_int cap = false →
  Forall2 (Rows.same_node py_float) xs nodes →
  Forall (λ n, valid_coordinates (location_lat n) (location_lon n) = true)
         nodes →
  parse_loop py_float bounds cap st
    (concat (map Rows.node_xml xs) ++ [End "osm"]) Eof
  = Returned (pois st ++ omap (Spec.matching_poi bounds) nodes)%list.
Proof.
  intros Hcap Hsame. revert st.
  induction Hsame as [|x n xs nodes Hx _ IH]; intros st Hvalid.
  - cbn [map concat app parse_loop on_event omap list_omap].
    rewrite on_end_other by reflexivity. rewrite app_nil_r. reflexivity.
  - apply Forall_cons in Hvalid as [Hv Hvalid].
    cbn [map concat]. rewrite <- app_assoc.
    destruct (parse_loop_node bounds cap x n st
                (concat (map Rows.node_xml xs) ++ [End "osm"]) Eof
                Hcap Hx Hv) as (cn & d & ->).
    rewrite IH by exact Hvalid. cbn [pois]. f_equal.
    rewrite <- app_assoc. f_equal.
    cbn [omap list_omap]. destruct (Spec.matching_poi bounds n); reflexivity.
Qed.

End SameExtract.

(** The extract of a node list read by the XML parser without an
    effective cap. *)
Lemma parse_osm_xml_try_nodes (py_float : string → option float)
    (bounds : option bbox) (cap : option Z) (xs : list Rows.xml_node)
    (nodes : list osm_node) :
  truthy_int cap = false →
  Forall2 (Rows.same_node py_float) xs nodes →
  Forall (λ n, valid_coordinates (location_lat n) (location_lon n) = true)
         nodes →
  parse_osm_xml_try py_float (Rows.xml_of_nodes xs) bounds cap
  = Returned (omap (Spec.matching_poi bounds) nodes).
Proof.
  intros Hcap Hsame Hvalid.
  unfold parse_osm_xml_try, Rows.xml_of_nodes, Samples.osm_document.
  cbn [xml_events xml_end].
  rewrite (parse_loop_nodes py_float bounds cap xs nodes initial_state
             Hcap Hsame Hvalid).
  reflexivity.
Qed.

(** X9: on an extract whose nodes have readable coordinates in the global
    range and tags without empty keys or values, the XML parser of the PBF
    converter and the PBF handler return the same rows, under no cap and
    under every cap that is not negative. *)
Theorem readers_agree_on_clean_extract (py_float : string → option float)
    (bounds : option bbox) (max_pois : option Z)
    (xs : list Rows.xml_node) (nodes : list osm_node) :
  match max_pois with
  | Some m => (0 ≤ m)%Z
  | None => True
  end →
  Forall2 (Rows.same_node py_float) xs nodes →
  Forall (λ n, valid_coordinates (location_lat n) (location_lon n) = true)
         nodes →
  parse_osm_pbf true (PbfSource nodes Eof) bounds max_pois
  = Returned (parse_osm_xml py_float (Rows.xml_of_nodes xs) bounds max_pois).
Proof.
  intros Hcap Hsame Hvalid.
  assert (Hfree : ∀ cap, truthy_int cap = false →
            parse_osm_pbf true (PbfSource nodes Eof) bounds cap
            = Returned (parse_osm_xml py_float (Rows.xml_of_nodes xs)
                                      bounds cap)).
  { intros cap Hfalsy. unfold parse_osm_xml.
    rewrite (parse_osm_xml_try_nodes py_float bounds cap xs nodes
               Hfalsy Hsame Hvalid).
    unfold parse_osm_pbf, POIHandler.apply_file. simpl.
    rewrite apply_nodes_uncapped by exact Hfalsy. simpl.
    rewrite (valid_locations_read bounds nodes Hvalid). reflexivity. }
  destruct max_pois as [m|]; [|apply Hfree; reflexivity].
  destruct (Z.eq_dec m 0) as [->|Hne]; [apply Hfree; reflexivity|].
  assert (Hm : (0 < m)%Z) by lia.
  pose proof (parse_osm_xml_try_nodes py_float bounds None xs nodes
                eq_refl Hsame Hvalid) as Hxml.
  unfold parse_osm_xml, parse_osm_xml_try in *.
  destruct (xml_events (Rows.xml_of_nodes xs)) as [|e events];
    [discriminate Hxml|].
  assert (Hbelow : (len (pois initial_state) < m)%Z)
    by (unfold len; simpl; lia).
  rewrite (parse_loop_capped py_float bounds m events _ initial_state _
             Hm Hbelow Hxml).
  unfold parse_osm_pbf, POIHandler.apply_file. simpl.
  rewrite (apply_nodes_take m);
    [reflexivity|reflexivity|exact Hm|unfold len; simpl; lia|].
  apply valid_locations_read, Hvalid.
Qed.

(** The two sample nodes, as an XML extract and as a PBF file, under a
    cap of one. *)
Lemma readers_agree_on_clean_extract_witness :
  parse_osm_pbf true (PbfSource [Samples.cafe_node; Samples.bank_node] Eof)
                None (Some 1%Z)
  = Returned (parse_osm_xml Samples.decimal_float
                (Rows.xml_of_nodes Rows.sample_xml_nodes) None (Some 1%Z)).
Proof.
  apply (readers_agree_on_clean_extract Samples.decimal_float None (Some 1%Z)
           Rows.sample_xml_nodes [Samples.cafe_node; Samples.bank_node]).
  - simpl. lia.
  - repeat constructor.
  - repeat constructor.
Defined.

(** ** A run over files that read to their end *)

Section SoundRun.

Variable py_float : string → option float.

(** The turn of the loop of [main] on a [.pbf] file with the decoder
    installed. *)
Lemma main_loop_pbf (bounds : option bbox) (K : Z) (src : pbf_source)
    (rest : list osm_file) (all_pois : list poi) :
  main_loop py_float true bounds K (PbfFile src :: rest) all_pois
  = match parse_osm_pbf true src bounds (Some (K - len all_pois)) with
    | Returned pois =>
        if cap_reached (Some K) (all_pois ++ pois) then Some (all_pois ++ pois)%list
        else main_loop py_float true bounds K rest (all_pois ++ pois)
    | Raised => main_loop py_float true bounds K rest all_pois
    end.
Proof. reflexivity. Qed.

(** Under a cap [m >= 1] a file that reads to its end gives the first [m]
    of its rows. *)
Lemma capped_file_rows (bounds : option bbox) (m : Z) (f : osm_file)
    (rows : list poi) :
  (0 < m)%Z → Rows.file_rows py_float bounds f = Some rows →
  match f with
  | XmlFile src => parse_osm_xml py_float src bounds (Some m)
  | PbfFile src =>
      match parse_osm_pbf true src bounds (Some m) with
      | Returned pois => pois
      | Raised => []
      end
  end = take (Z.to_nat m) rows
  ∧ match f with
    | XmlFile _ => True
    | PbfFile src => parse_osm_pbf true src bounds (Some m) ≠ Raised
    end.
Proof.
  intros Hm. destruct f as [src|src]; simpl.
  - destruct (parse_osm_xml_try py_float src bounds None) as [r|] eqn:Hp;
      [|discriminate].
    intros [= <-]. split; [|exact I].
    unfold parse_osm_xml, parse_osm_xml_try in *.
    destruct (xml_events src) as [|e events]; [discriminate Hp|].
    assert (Hbelow : (len (pois initial_state) < m)%Z)
      by (unfold len; simpl; lia).
    rewrite (parse_loop_capped py_float bounds m events _ initial_state _
               Hm Hbelow Hp). reflexivity.
  - unfold parse_osm_pbf, POIHandler.apply_file. simpl.
    rewrite apply_nodes_uncapped by reflexivity. simpl.
    destruct (existsb (Rows.reads_invalid_location bounds) (pbf_nodes src))
      eqn:Hread; [discriminate|].
    destruct (pbf_end src); [|discriminate].
    intros [= <-].
    rewrite (apply_nodes_take m);
      [|reflexivity|exact Hm|unfold len; simpl; lia|exact Hread].
    simpl. split; [reflexivity|discriminate].
Qed.

(** A run in which every file reads to its end is a run in which no file
    fails. *)
Lemma run_parsed_all {F : Type} (fails : Z → F → Prop)
    (gives : F → list poi → Prop) (K : Z) (files : list F)
    (rowss : list (list poi)) (collected : Z) :
  Forall2 gives files rowss →
  Rows.run_parsed fails gives K collected files (map Some rowss)
  ∧ Rows.surviving_rows (map Some rowss) = concat rowss.
Proof.
  intros Hall. revert collected.
  induction Hall as [|f rows files rowss Hf _ IH]; intros collected.
  - split; [exact I|reflexivity].
  - destruct (IH (collected + len rows)%Z) as [Hrun Hrows].
    split; [split; assumption|].
    change (Rows.surviving_rows (map Some (rows :: rowss)))
      with (rows ++ Rows.surviving_rows (map Some rowss))%list.
    rewrite Hrows. reflexivity.
Qed.

(** The loop of [main] under a cap [K >= 1], entered below the cap, over
    files that fail or read to their end: it ends with the first [K] of the
    rows it held and the rows of the files that parsed. *)
Lemma main_loop_parsed (bounds : option bbox) (K : Z)
    (files : list osm_file) (parsed : list (option (list poi)))
    (all_pois : list poi) :
  (0 < K)%Z → (len all_pois < K)%Z →
  Rows.run_parsed (Spec.parse_fails py_float true bounds)
                  (λ f rows, Rows.file_rows py_float bounds f = Some rows)
                  K (len all_pois) files parsed →
  main_loop py_float true bounds K files all_pois
  = Some (take (Z.to_nat K) (all_pois ++ Rows.surviving_rows parsed)).
Proof.
  intros HK. revert parsed all_pois.
  induction files as [|f files IH]; intros [|[rows|] parsed] all_pois Hlen;
    cbn [Rows.run_parsed]; try contradiction.
  - intros _. simpl. rewrite app_nil_r, take_ge; [reflexivity|].
    unfold len in Hlen. lia.
  - intros [Hf Hrest].
    assert (Hbudget : (0 < K - len all_pois)%Z) by lia.
    destruct (capped_file_rows bounds (K - len all_pois) f rows Hbudget Hf)
      as [Hrows Hok].
    change (Rows.surviving_rows (Some rows :: parsed))
      with (rows ++ Rows.surviving_rows parsed)%list.
    assert (Hstep :
      (if cap_reached (Some K)
            (all_pois ++ take (Z.to_nat (K - len all_pois)) rows)
       then Some (all_pois ++ take (Z.to_nat (K - len all_pois)) rows)%list
       else main_loop py_float true bounds K files
              (all_pois ++ take (Z.to_nat (K - len all_pois)) rows))
      = Some (take (Z.to_nat K)
                   (all_pois ++ rows ++ Rows.surviving_rows parsed))).
    { assert (Hsplit : take (Z.to_nat K)
                            (all_pois ++ rows ++ Rows.surviving_rows parsed)
                       = (all_pois
                          ++ take (Z.to_nat (K - len all_pois))
                                  (rows ++ Rows.surviving_rows parsed))%list).
      { rewrite take_app, take_ge by (unfold len in *; lia).
        f_equal. f_equal. unfold len in *. lia. }
      destruct (cap_reached (Some K)
                  (all_pois ++ take (Z.to_nat (K - len all_pois)) rows))
        eqn:Hcap.
      - apply cap_reached_spec in Hcap; [|exact HK].
        rewrite Hsplit. f_equal. f_equal.
        unfold len in Hcap. rewrite length_app, length_take in Hcap.
        rewrite take_app_le by (unfold len in *; lia). reflexivity.
      - assert (Hlt : (len (all_pois
                              ++ take (Z.to_nat (K - len all_pois)) rows) < K)%Z).
        { destruct (Z.lt_ge_cases
                      (len (all_pois
                            ++ take (Z.to_nat (K - len all_pois)) rows)) K)
            as [H|H]; [exact H|].
          apply (cap_reached_spec K _ HK) in H. congruence. }
        assert (Hall : take (Z.to_nat (K - len all_pois)) rows = rows).
        { apply take_ge. unfold len in Hlt.
          rewrite length_app, length_take in Hlt. unfold len. lia. }
        rewrite Hall in *.
        rewrite (IH parsed _ Hlt).
        + rewrite <- app_assoc. reflexivity.
        + replace (len (all_pois ++ rows)) with (len all_pois + len rows)%Z
            by (unfold len; rewrite length_app; lia).
          exact Hrest. }
    destruct f as [src|src].
    + rewrite main_loop_xml. cbv zeta. rewrite Hrows. exact Hstep.
    + rewrite main_loop_pbf.
      destruct (parse_osm_pbf true src bounds (Some (K - len all_pois)))
        as [pois|]; [|contradiction].
      rewrite Hrows. exact Hstep.
  - intros [Hf Hrest].
    assert (Hcap : cap_reached (Some K) all_pois = false).
    { destruct (cap_reached (Some K) all_pois) eqn:Hc; [|reflexivity].
      apply (cap_reached_spec K _ HK) in Hc. lia. }
    rewrite (main_loop_skips_failed py_float true bounds K f files all_pois
               Hcap (Hf Hlen)).
    change (Rows.surviving_rows (None :: parsed))
      with (Rows.surviving_rows parsed).
    apply IH; assumption.
Qed.

Lemma main_loop_sound (bounds : option bbox) (K : Z)
    (files : list osm_file) (rowss : list (list poi)) (all_pois : list poi) :
  (0 < K)%Z → (len all_pois < K)%Z →
  Forall2 (λ f rows, Rows.file_rows py_float bounds f = Some rows)
          files rowss →
  main_loop py_float true bounds K files all_pois
  = Some (take (Z.to_nat K) (all_pois ++ concat rowss)).
Proof.
  intros HK Hlen Hsound.
  destruct (run_parsed_all (Spec.parse_fails py_float true bounds) _ K
              files rowss (len all_pois) Hsound) as [Hrun Hrows].
  rewrite (main_loop_parsed bounds K files _ all_pois HK Hlen Hrun), Hrows.
  reflexivity.
Qed.

(** X10: when every file reads to its end and the decoder is installed, a
    run of [main] under a cap [K >= 1] writes the first [K] rows of the
    files' rows taken in file order, and all of them when there are fewer;
    it writes nothing when there is none. *)
Theorem sound_run_takes_first (bounds : option bbox) (K : Z)
    (files : list osm_file) (rowss : list (list poi)) :
  (0 < K)%Z →
  Forall2 (λ f rows, Rows.file_rows py_float bounds f = Some rows)
          files rowss →
  rows_of (main py_float true bounds K files)
  = take (Z.to_nat K) (concat rowss).
Proof.
  intros HK Hsound. unfold main.
  destruct files as [|f files].
  - apply Forall2_nil_inv_l in Hsound as ->. simpl. rewrite take_nil.
    reflexivity.
  - rewrite (main_loop_sound bounds K (f :: files) rowss [] HK)
      by (unfold len; simpl; lia || exact Hsound).
    cbn [app]. destruct (take (Z.to_nat K) (concat rowss)); reflexivity.
Qed.

End SoundRun.

(** The sample XML extract followed by the sample PBF file, under a cap of
    three. *)
Lemma sound_run_takes_first_witness :
  rows_of (main Samples.decimal_float true None 3
             [XmlFile Samples.town_xml; PbfFile Samples.town_pbf])
  = take 3 (concat
              [parse_osm_xml Samples.decimal_float Samples.town_xml None None;
               omap (Spec.matching_poi None)
                    [Samples.cafe_node; Samples.bank_node]]).
Proof.
  apply (sound_run_takes_first Samples.decimal_float None 3).
  - lia.
  - repeat constructor.
Defined.

(** ** Rule entries that cannot fire *)

Lemma emergency_only_police_fire (tags : gmap string string) :
  GeofabrikToCsv.categorize_poi tags = "emergency" →
  tags !! "amenity" = Some "police" ∨ tags !! "amenity" = Some "fire_station".
Proof.
  unfold GeofabrikToCsv.categorize_poi, get.
  destruct (tags !! "amenity") as [a|] eqn:Ha; simpl.
  - repeat match goal with
           | |- context [String.eqb a ?s] =>
               destruct (String.eqb_spec a s); [subst a; simpl|]
           end;
      repeat match goal with
             | |- context [if ?b then _ else _] => destruct b; simpl
             end; solve [discriminate | auto].
  - repeat match goal with
           | |- context [if ?b then _ else _] => destruct b; simpl
           end; discriminate.
Qed.

(** X11: two rule entries are shadowed by earlier rules: the PBF converter
    gives [gas_station] only for [amenity=charging_station] (never for
    [fuel]), and the XML-only script gives [emergency] only for
    [amenity=police] or [fire_station] (never for [hospital]). *)
Theorem shadowed_rule_entries :
  (∀ tags : gmap string string,
     categorize_poi_xml tags = Some "gas_station" →
     tags !! "amenity" = Some "charging_station")
  ∧ (∀ tags : gmap string string,
       GeofabrikToCsv.categorize_poi tags = "emergency" →
       tags !! "amenity" = Some "police"
       ∨ tags !! "amenity" = Some "fire_station").
Proof.
  split.
  - apply gas_station_only_charging.
  - apply emergency_only_police_fire.
Qed.

(** A charging station and a police station. *)
Lemma shadowed_rule_entries_witness :
  ({[ "amenity" := "charging_station" ]} : gmap string string) !! "amenity"
  = Some "charging_station"
  ∧ (({[ "amenity" := "police" ]} : gmap string string) !! "amenity"
     = Some "police"
     ∨ ({[ "amenity" := "police" ]} : gmap string string) !! "amenity"
       = Some "fire_station").
Proof.
  split.
  - apply (proj1 shadowed_rule_entries). reflexivity.
  - apply (proj2 shadowed_rule_entries). reflexivity.
Defined.

(** ** The category breakdown *)

Lemma count_categories_snoc (rows : list poi) (r : poi) :
  Rows.count_categories (rows ++ [r])
  = <[category r :=
        (default 0 (Rows.count_categories rows !! category r) + 1)%Z]>
      (Rows.count_categories rows).
Proof. unfold Rows.count_categories. rewrite foldl_app. reflexivity. Qed.

Lemma rows_of_category_snoc (c : string) (rows : list poi) (r : poi) :
  Rows.rows_of_category c (rows ++ [r])
  = (Rows.rows_of_category c rows + if decide (category r = c) then 1 else 0)%Z.
Proof.
  unfold Rows.rows_of_category, len.
  rewrite filter_app, length_app.
  destruct (decide (category r = c)) as [Hc|Hc].
  - rewrite (filter_cons_True (λ r0, category r0 = c) r [] Hc). simpl. lia.
  - rewrite (filter_cons_False (λ r0, category r0 = c) r [] Hc). simpl. lia.
Qed.

(** X12: the category breakdown printed after a run has an entry exactly
    for the categories that occur in the rows, and the entry of a category is
    the number of rows of that category. *)
Theorem count_categories_counts (rows : list poi) (c : string) :
  Rows.count_categories rows !! c
  = if decide (Rows.rows_of_category c rows = 0%Z) then None
    else Some (Rows.rows_of_category c rows).
Proof.
  induction rows as [|r rows IH] using rev_ind.
  - reflexivity.
  - rewrite count_categories_snoc, rows_of_category_snoc.
    assert (Hn : (0 ≤ Rows.rows_of_category c rows)%Z)
      by (unfold Rows.rows_of_category, len; lia).
    destruct (decide (category r = c)) as [->|Hc].
    + rewrite lookup_insert_eq, IH. cbv beta iota.
      set (n := Rows.rows_of_category c rows) in *.
      destruct (decide (n = 0%Z)) as [Hz|Hz];
        destruct (decide (n + 1 = 0)%Z) as [H1|H1];
        simpl; try lia; f_equal; lia.
    + rewrite lookup_insert_ne by exact Hc. cbv beta iota.
      rewrite IH, Z.add_0_r. reflexivity.
Qed.

(** ** Elements the parsers pass over *)

Section PassedOver.

Variable py_float : string → option float.

Lemma on_event_passed_over (bounds : option bbox) (cap : option Z)
    (st : parser_state) (ev : xml_event) :
  Rows.pbf_relevant ev = false →
  on_event py_float bounds cap st ev = Continue st.
Proof.
  destruct ev as [tag attrib|tag]; simpl; intros Hev.
  - apply orb_false_iff in Hev as [Hnode Htag].
    unfold on_start. rewrite Hnode, Htag. reflexivity.
  - apply on_end_other, Hev.
Qed.

Lemma parse_loop_passed_over (bounds : option bbox) (cap : option Z)
    (events : list xml_event) (fin : stream_end) (st : parser_state) :
  parse_loop py_float bounds cap st events fin
  = parse_loop py_float bounds cap st (List.filter Rows.pbf_relevant events) fin.
Proof.
  revert st. induction events as [|ev events IH]; intros st; [reflexivity|].
  cbn [List.filter]. destruct (Rows.pbf_relevant ev) eqn:Hev.
  - cbn [parse_loop].
    destruct (on_event py_float bounds cap st ev); [apply IH| |]; reflexivity.
  - cbn [parse_loop]. rewrite (on_event_passed_over _ _ _ _ Hev). apply IH.
Qed.

Lemma csv_on_event_passed_over (m : Z) (st : GeofabrikToCsv.parser_state)
    (ev : xml_event) :
  Rows.csv_relevant ev = false →
  GeofabrikToCsv.on_event py_float m st ev = Continue st.
Proof.
  destruct ev as [tag attrib|tag]; simpl; intros Hev.
  - apply orb_false_iff in Hev as [Hev Htag].
    apply orb_false_iff in Hev as [Hnode Hway].
    unfold GeofabrikToCsv.on_start. rewrite Hnode, Hway, Htag. reflexivity.
  - apply orb_false_iff in Hev as [Hnode Hway].
    unfold GeofabrikToCsv.on_end, GeofabrikToCsv.reset_after.
    rewrite Hnode, Hway. reflexivity.
Qed.

Lemma csv_parse_loop_passed_over (m : Z) (events : list xml_event)
    (fin : stream_end) (st : GeofabrikToCsv.parser_state) :
  GeofabrikToCsv.parse_loop py_float m st events fin
  = GeofabrikToCsv.parse_loop py_float m st
      (List.filter Rows.csv_relevant events) fin.
Proof.
  revert st. induction events as [|ev events IH]; intros st; [reflexivity|].
  cbn [List.filter]. destruct (Rows.csv_relevant ev) eqn:Hev.
  - cbn [GeofabrikToCsv.parse_loop].
    destruct (GeofabrikToCsv.on_event py_float m st ev);
      [apply IH| |]; reflexivity.
  - cbn [GeofabrikToCsv.parse_loop].
    rewrite (csv_on_event_passed_over _ _ _ Hev). apply IH.
Qed.

(** X13: after the first event, which both parsers drop, only some events
    count: for the XML parser of the PBF converter the starts of node and tag
    elements and the ends of node elements, for the XML-only script the
    starts of node, way and tag elements and the ends of node and way
    elements.  Removing every other event from a file leaves the rows
    unchanged. *)
Theorem other_elements_passed_over :
  (∀ (first : xml_event) (events : list xml_event) (fin : stream_end)
     (bounds : option bbox) (cap : option Z),
     parse_osm_xml py_float (XmlSource (first :: events) fin) bounds cap
     = parse_osm_xml py_float
         (XmlSource (first :: List.filter Rows.pbf_relevant events) fin)
         bounds cap)
  ∧ (∀ (first : xml_event) (events : list xml_event) (fin : stream_end)
       (m : Z),
       GeofabrikToCsv.parse_osm_xml py_float
         (XmlSource (first :: events) fin) m
       = GeofabrikToCsv.parse_osm_xml py_float
           (XmlSource (first :: List.filter Rows.csv_relevant events) fin) m).
Proof.
  split.
  - intros first events fin bounds cap.
    unfold parse_osm_xml, parse_osm_xml_try. cbn [xml_events xml_end].
    rewrite parse_loop_passed_over. reflexivity.
  - intros first events fin m.
    unfold GeofabrikToCsv.parse_osm_xml, GeofabrikToCsv.parse_osm_xml_try.
    cbn [xml_events xml_end].
    rewrite csv_parse_loop_passed_over. reflexivity.
Qed.

End PassedOver.

(** ** The tag dictionary of a decoded node *)

Lemma dict_of_tags_snoc (l : list (string * string)) (kv : string * string) :
  dict_of_tags (l ++ [kv]) = <[kv.1 := kv.2]> (dict_of_tags l).
Proof. unfold dict_of_tags. rewrite foldl_app. reflexivity. Qed.

(** X14: in the dictionary the handler builds from a node's tag list, a key
    has the value of its last occurrence in the list, and the dictionary is
    empty (the node is dropped by [if not tags]) exactly when the list is. *)
Theorem dict_of_tags_last_wins (l : list (string * string)) (k : string) :
  dict_of_tags l !! k = Rows.last_value k l
  ∧ (nonempty_dict (dict_of_tags l) = true ↔ l ≠ []).
Proof.
  split.
  - unfold Rows.last_value.
    induction l as [|[k' v] l IH] using rev_ind; [reflexivity|].
    rewrite dict_of_tags_snoc, omap_app. cbn [fst snd omap list_omap].
    destruct (decide (k' = k)) as [->|Hne].
    + rewrite lookup_insert_eq, last_snoc. reflexivity.
    + rewrite lookup_insert_ne by exact Hne. rewrite app_nil_r. exact IH.
  - unfold nonempty_dict. rewrite negb_true_iff, bool_decide_eq_false.
    destruct l as [|kv l _] using rev_ind.
    + split; [intros H; contradiction H; reflexivity|intros H; contradiction].
    + rewrite dict_of_tags_snoc. split.
      * intros _ Hnil. apply app_eq_nil in Hnil as [_ Hnil]. discriminate Hnil.
      * intros _. apply insert_non_empty.
Qed.

(** ** Rows once collected *)

(** X15: a later file never drops or reorders the rows collected before
    it: whatever the loops of both scripts end with starts with the rows they
    were entered with. *)
Theorem collected_rows_kept (py_float : string → option float) :
  (∀ avail bounds (K : Z) (files : list osm_file) (all_pois out : list poi),
     main_loop py_float avail bounds K files all_pois = Some out →
     all_pois `prefix_of` out)
  ∧ (∀ (K : Z) (files : list xml_source) (total_pois : Z)
       (all_pois out : list poi),
       GeofabrikToCsv.process_files py_float K files total_pois all_pois
       = Returned out →
       all_pois `prefix_of` out).
Proof.
  split.
  - intros avail bounds K files. induction files as [|f files IH];
      intros all_pois out.
    + intros [= <-]. reflexivity.
    + assert (Hstep : ∀ rows,
                (if cap_reached (Some K) (all_pois ++ rows)
                 then Some (all_pois ++ rows)%list
                 else main_loop py_float avail bounds K files (all_pois ++ rows))
                = Some out → all_pois `prefix_of` out).
      { intros rows. destruct (cap_reached (Some K) (all_pois ++ rows)).
        - intros [= <-]. apply prefix_app_r. reflexivity.
        - intros Hout. apply IH in Hout.
          etrans; [|exact Hout]. apply prefix_app_r. reflexivity. }
      destruct f as [src|src].
      * rewrite main_loop_xml. cbv zeta. apply Hstep.
      * simpl. destruct avail; simpl; [|discriminate].
        destruct (parse_osm_pbf true src bounds (Some (K - len all_pois)))
          as [rows|]; [apply Hstep|apply IH].
  - intros K files. induction files as [|f files IH];
      intros total_pois all_pois out; simpl.
    + intros [= <-]. reflexivity.
    + destruct (0 <? _)%Z; [|apply IH].
      destruct (GeofabrikToCsv.read_rows _) as [back|]; [|discriminate].
      destruct (K <=? _)%Z.
      * intros [= <-]. apply prefix_app_r. reflexivity.
      * intros Hout. apply IH in Hout.
        etrans; [|exact Hout]. apply prefix_app_r. reflexivity.
Qed.

(** A run of two sample files entered with one row. *)
Lemma collected_rows_kept_witness :
  omap (Spec.matching_poi None) [Samples.bank_node]
  `prefix_of`
  (omap (Spec.matching_poi None) [Samples.bank_node]
   ++ parse_osm_xml Samples.decimal_float Samples.town_xml None (Some 4%Z))%list.
Proof.
  apply (proj1 (collected_rows_kept Samples.decimal_float) true None 5
           [XmlFile Samples.town_xml]).
  vm_compute. reflexivity.
Defined.

(** ** Files found in an extracted archive *)

Section Found.

Import Discovery.

Lemma string_app_assoc (a b c : string) : (a ++ b) ++ c = a ++ (b ++ c).
Proof.
  induction a as [|x a IH]; [reflexivity|].
  change (String x ((a ++ b) ++ c) = String x (a ++ (b ++ c))).
  rewrite IH. reflexivity.
Qed.

Lemma string_length_app (a b : string) :
  String.length (a ++ b) = (String.length a + String.length b)%nat.
Proof.
  induction a as [|x a IH]; [reflexivity|].
  change (S (String.length (a ++ b)) = S (String.length a + String.length b)).
  rewrite IH. reflexivity.
Qed.

(** [endswith] holds exactly when the suffix can be split off. *)
Lemma endswith_spec (s suffix : string) :
  endswith s suffix = true ↔ ∃ pre, s = pre ++ suffix.
Proof.
  split.
  - induction s as [|c s IH]; cbn [endswith].
    + rewrite orb_false_r. intros H. apply String.eqb_eq in H as <-.
      exists "". reflexivity.
    + intros H. apply orb_true_iff in H as [H|H].
      * apply String.eqb_eq in H as <-. exists "". reflexivity.
      * destruct (IH H) as [pre ->]. exists (String c pre). reflexivity.
  - intros [pre ->]. induction pre as [|c pre IH].
    + change ("" ++ suffix) with suffix.
      destruct suffix as [|c s]; [reflexivity|]. cbn [endswith].
      rewrite (String.eqb_refl (String c s)). reflexivity.
    + change (String c pre ++ suffix) with (String c (pre ++ suffix)).
      cbn [endswith]. rewrite IH. apply orb_true_r.
Qed.

(** A suffix no longer than [b] is looked for in [b] alone. *)
Lemma endswith_app (a b suffix : string) :
  (String.length suffix ≤ String.length b)%nat →
  endswith (a ++ b) suffix = endswith b suffix.
Proof.
  intros Hlen. induction a as [|c a IH]; [reflexivity|].
  change (String c a ++ b) with (String c (a ++ b)).
  cbn [endswith]. rewrite IH.
  destruct (String.eqb_spec (String c (a ++ b)) suffix) as [<-|_];
    [|reflexivity].
  simpl in Hlen. rewrite string_length_app in Hlen. lia.
Qed.

(** A joined path ends as its last component does. *)
Lemma path_join_suffix (root file pre suffix : string) :
  file = pre ++ suffix → ∃ pre', path_join root file = pre' ++ suffix.
Proof.
  intros ->. unfold path_join.
  destruct (String.prefix "/" (pre ++ suffix)); [exists pre; reflexivity|].
  destruct ((root =? "") || endswith root "/").
  - exists (root ++ pre). rewrite string_app_assoc. reflexivity.
  - exists (root ++ "/" ++ pre). rewrite !string_app_assoc. reflexivity.
Qed.

Lemma find_files_inv (keeps : string → bool) (walk : list walk_entry)
    (path : string) :
  In path (find_files keeps walk) →
  ∃ root file, path = path_join root file ∧ keeps file = true.
Proof.
  unfold find_files. rewrite in_flat_map.
  intros ([[root dirs] files] & _ & Hin).
  apply in_map_iff in Hin as (file & <- & Hfile).
  apply filter_In in Hfile as [_ Hkeeps].
  exists root, file. split; [reflexivity|exact Hkeeps].
Qed.

Lemma find_files_mono (keeps keeps' : string → bool)
    (walk : list walk_entry) (path : string) :
  (∀ file, keeps file = true → keeps' file = true) →
  In path (find_files keeps walk) → In path (find_files keeps' walk).
Proof.
  intros Hsub. unfold find_files. rewrite !in_flat_map.
  intros ([[root dirs] files] & Hentry & Hin).
  exists (root, dirs, files). split; [exact Hentry|].
  apply in_map_iff in Hin as (file & <- & Hfile).
  apply filter_In in Hfile as [Hfile Hkeeps].
  apply in_map, filter_In. split; [exact Hfile|apply Hsub, Hkeeps].
Qed.

(** The reader chosen for a path that ends in one of the four extensions. *)
Lemma reader_of_fits (pre ext : string) :
  In ext [".osm"; ".osm.bz2"; ".osm.gz"; ".osm.pbf"] →
  fits (pre ++ ext) (Pbf.reader_of (pre ++ ext)).
Proof.
  intros Hext. unfold Pbf.reader_of, Pbf.open_osm_file.
  assert (Hshort : ∀ suffix,
            (String.length suffix ≤ 3)%nat →
            endswith (pre ++ ext) suffix = endswith ext suffix).
  { intros suffix Hlen. apply endswith_app.
    simpl in Hext.
    destruct Hext as [<-|[<-|[<-|[<-|[]]]]]; simpl; lia. }
  assert (Hpbf : endswith (pre ++ ext) ".pbf" = endswith ext ".pbf").
  { apply endswith_app. simpl in Hext.
    destruct Hext as [<-|[<-|[<-|[<-|[]]]]]; simpl; lia. }
  assert (Hbz2 : endswith (pre ++ ext) ".bz2" = endswith ext ".bz2").
  { apply endswith_app. simpl in Hext.
    destruct Hext as [<-|[<-|[<-|[<-|[]]]]]; simpl; lia. }
  rewrite Hpbf, Hbz2, (Hshort ".gz") by (simpl; lia).
  simpl in Hext.
  destruct Hext as [<-|[<-|[<-|[<-|[]]]]]; cbn -[String.append];
    apply endswith_spec; exists pre; reflexivity.
Qed.

(** X16: every file [find_osm_files] of the PBF converter finds is handed
    to the reader that fits its extension: [.osm.pbf] to osmium, [.osm.bz2]
    to the XML parser through bz2, [.osm.gz] through gzip and [.osm] as plain
    text; and it finds every file [find_osm_files] of the XML-only script
    finds in the same tree. *)
Theorem found_files_fit_their_reader (walk : list walk_entry)
    (path : string) :
  (In path (Pbf.find_osm_files walk) → fits path (Pbf.reader_of path))
  ∧ (In path (XmlOnly.find_osm_files walk) →
     In path (Pbf.find_osm_files walk)).
Proof.
  split.
  - intros Hin. apply find_files_inv in Hin as (root & file & -> & Hkeeps).
    unfold pbf_keeps in Hkeeps. apply existsb_exists in Hkeeps as (ext & Hext & Hend).
    apply endswith_spec in Hend as [pre Hfile].
    destruct (path_join_suffix root file pre ext Hfile) as [pre' ->].
    apply reader_of_fits, Hext.
  - apply find_files_mono. intros file. unfold csv_keeps, pbf_keeps. simpl.
    destruct (endswith file ".osm"), (endswith file ".osm.bz2"),
      (endswith file ".osm.gz"), (endswith file ".osm.pbf");
      simpl; intros H; solve [reflexivity | discriminate H].
Qed.

End Found.

(** A tree with one directory that holds a bz2 extract and a text file. *)
Lemma found_files_fit_their_reader_witness :
  Discovery.fits "data/patna.osm.bz2"
    (Discovery.Pbf.reader_of "data/patna.osm.bz2")
  ∧ In "data/patna.osm.bz2"
       (Discovery.Pbf.find_osm_files
          [("data", [], ["patna.osm.bz2"; "readme.txt"])]).
Proof.
  split.
  - apply (proj1 (found_files_fit_their_reader
                    [("data", [], ["patna.osm.bz2"; "readme.txt"])]
                    "data/patna.osm.bz2")).
    vm_compute. left. reflexivity.
  - apply (proj2 (found_files_fit_their_reader
                    [("data", [], ["patna.osm.bz2"; "readme.txt"])]
                    "data/patna.osm.bz2")).
    vm_compute. left. reflexivity.
Defined.

(** ** What a cap keeps in the XML-only script *)

Section CsvCap.

Import GeofabrikToCsv.

Variable py_float : string → option float.

Lemma csv_on_event_extends (m : Z) (st : parser_state) (ev : xml_event) :
  match on_event py_float m st ev with
  | Continue st' | Break st' => pois st `prefix_of` pois st'
  | Raise => True
  end.
Proof.
  destruct ev as [tag attrib|tag]; simpl.
  - destruct (CsvParser.csv_on_start_pois st tag attrib) as [-> _].
    reflexivity.
  - assert (Hreset : pois st `prefix_of` pois (reset_after tag st)).
    { destruct (CsvParser.csv_reset_after_pois tag st) as [-> _].
      reflexivity. }
    unfold on_end.
    destruct ((tag =? "node") && _ && _); [|exact Hreset].
    destruct (truthy _ && _); [|exact Hreset].
    destruct (py_float (default "" (current_lat st))); [|exact I].
    destruct (py_float (default "" (current_lon st))); [|exact I].
    match goal with
    | |- context [(m <=? ?c)%Z] => destruct (m <=? c)%Z
    end.
    + apply prefix_app_r. reflexivity.
    + match goal with
      | |- context [reset_after tag ?s] =>
          destruct (CsvParser.csv_reset_after_pois tag s) as [-> _]
      end. apply prefix_app_r. reflexivity.
Qed.

Lemma csv_parse_loop_extends (m : Z) (events : list xml_event)
    (fin : stream_end) (st : parser_state) (rows : list poi) :
  parse_loop py_float m st events fin = Returned rows →
  pois st `prefix_of` rows.
Proof.
  revert st. induction events as [|ev events IH]; intros st; simpl.
  - destruct fin; [|discriminate]. intros [= <-]. reflexivity.
  - pose proof (csv_on_event_extends m st ev) as Hev.
    destruct (on_event py_float m st ev) as [st'|st'|].
    + intros Hp. etrans; [exact Hev|apply (IH _ Hp)].
    + intros [= <-]. exact Hev.
    + discriminate.
Qed.

(** [poi_count] keeps counting the rows. *)
Lemma csv_on_event_count (m : Z) (st st' : parser_state) (ev : xml_event) :
  poi_count st = len (pois st) →
  on_event py_float m st ev = Continue st' →
  poi_count st' = len (pois st').
Proof.
  intros Hcount. destruct ev as [tag attrib|tag]; simpl.
  - intros [= <-].
    destruct (CsvParser.csv_on_start_pois st tag attrib) as [-> ->].
    exact Hcount.
  - assert (Hreset : poi_count (reset_after tag st)
                     = len (pois (reset_after tag st))).
    { destruct (CsvParser.csv_reset_after_pois tag st) as [-> ->].
      exact Hcount. }
    unfold on_end.
    destruct ((tag =? "node") && _ && _); [|intros [= <-]; exact Hreset].
    destruct (truthy _ && _); [|intros [= <-]; exact Hreset].
    destruct (py_float (default "" (current_lat st))); [|discriminate].
    destruct (py_float (default "" (current_lon st))); [|discriminate].
    match goal with
    | |- context [(m <=? ?c)%Z] => destruct (m <=? c)%Z
    end; [discriminate|].
    intros [= <-].
    match goal with
    | |- context [reset_after tag ?s] =>
        destruct (CsvParser.csv_reset_after_pois tag s) as [-> ->]
    end. simpl. unfold append, len in *. rewrite length_app. simpl. lia.
Qed.

(** One turn of the loop under two caps, entered below the smaller one
    [m]: the same turn, except that the loop under [m] breaks where the rows
    reach [m]. *)
Lemma csv_on_event_capped (m M : Z) (st : parser_state) (ev : xml_event) :
  poi_count st = len (pois st) → (len (pois st) < m)%Z →
  match on_event py_float M st ev with
  | Continue st' =>
      if (m <=? len (pois st'))%Z
      then ∃ st'', on_event py_float m st ev = Break st''
                   ∧ pois st'' = pois st'
      else on_event py_float m st ev = Continue st'
  | Break _ => True
  | Raise => on_event py_float m st ev = Raise
  end.
Proof.
  intros Hcount Hlen.
  assert (Hsame : ∀ s, pois s = pois st →
            (if (m <=? len (pois s))%Z
             then ∃ st'', Continue s = Break st'' ∧ pois st'' = pois s
             else Continue s = Continue s)).
  { intros s Hs. rewrite Hs.
    destruct (Z.leb_spec m (len (pois st))); [lia|reflexivity]. }
  destruct ev as [tag attrib|tag]; cbn [on_event].
  - apply Hsame. apply CsvParser.csv_on_start_pois.
  - assert (Hreset : pois (reset_after tag st) = pois st)
      by apply CsvParser.csv_reset_after_pois.
    unfold on_end.
    destruct ((tag =? "node") && _ && _); [|apply Hsame, Hreset].
    destruct (truthy _ && _); [|apply Hsame, Hreset].
    destruct (py_float (default "" (current_lat st))) as [lat|];
      [|reflexivity].
    destruct (py_float (default "" (current_lon st))) as [lon|];
      [|reflexivity].
    cbv zeta. cbn [poi_count].
    destruct (M <=? poi_count st + 1)%Z; [exact I|].
    match goal with
    | |- context [reset_after tag ?s] =>
        destruct (CsvParser.csv_reset_after_pois tag s) as [-> _]
    end. cbn [pois].
    replace (len (append (pois st) _)) with (poi_count st + 1)%Z
      by (unfold append, len in *; rewrite length_app; simpl; lia).
    destruct (m <=? poi_count st + 1)%Z.
    + eexists. split; reflexivity.
    + reflexivity.
Qed.

Lemma csv_parse_loop_capped (m M : Z) (events : list xml_event)
    (fin : stream_end) (st : parser_state) (rows : list poi) :
  (0 < m)%Z → poi_count st = len (pois st) → (len (pois st) < m)%Z →
  parse_loop py_float M st events fin = Returned rows → (len rows < M)%Z →
  parse_loop py_float m st events fin = Returned (take (Z.to_nat m) rows).
Proof.
  intros Hm. revert st.
  induction events as [|ev events IH]; intros st Hcount Hlen; simpl.
  - destruct fin; [|discriminate]. intros [= <-] _.
    rewrite take_ge; [reflexivity|]. unfold len in Hlen. lia.
  - pose proof (csv_on_event_capped m M st ev Hcount Hlen) as Hev.
    pose proof (CsvParser.csv_on_event_within_cap py_float m st ev
                  Hm Hcount Hlen) as Hin.
    pose proof (csv_on_event_extends M st ev) as Hext.
    destruct (on_event py_float M st ev) as [st'|st'|] eqn:HM.
    + intros Hp HM'.
      destruct (Z.leb_spec m (len (pois st'))) as [Hfull|Hmore].
      * destruct Hev as (st'' & Hbreak & Hrows).
        rewrite Hbreak in Hin |- *. cbv beta iota in Hin.
        rewrite Hrows in Hin |- *.
        apply csv_parse_loop_extends in Hp as [more ->].
        rewrite take_app_length'; [reflexivity|]. unfold len in *. lia.
      * rewrite Hev. apply IH; [|exact Hmore|exact Hp|exact HM'].
        eapply csv_on_event_count; eassumption.
    + intros [= <-] HM'. exfalso.
      assert (Hst : (len (pois st) < M)%Z).
      { destruct Hext as [more Hmore]. rewrite Hmore in HM'.
        unfold len in *. rewrite length_app in HM'. lia. }
      pose proof (csv_on_event_break_full py_float M st st' ev
                    Hcount Hst HM) as Hfull.
      lia.
    + discriminate.
Qed.

Lemma csv_cap_takes_first_aux (src : xml_source) (m : Z) (rows : list poi) :
  (0 < m)%Z → Rows.csv_file_rows py_float src rows →
  parse_osm_xml py_float src m = take (Z.to_nat m) rows.
Proof.
  intros Hm (M & Hp & HM). unfold parse_osm_xml, parse_osm_xml_try in *.
  destruct (xml_events src) as [|e events]; [discriminate Hp|].
  rewrite (csv_parse_loop_capped m M events (xml_end src) initial_state rows
             Hm eq_refl); [reflexivity| |exact Hp|exact HM].
  unfold len. simpl. lia.
Qed.

(** X17: when the XML-only script reads a file to its end under a cap it
    does not fill, the same file under a cap [m >= 1] gives the first [m]
    of these rows, and all of them when there are fewer. *)
Theorem csv_cap_takes_first (src : xml_source) (m : Z) (rows : list poi) :
  (0 < m)%Z → Rows.csv_file_rows py_float src rows →
  parse_osm_xml py_float src m = take (Z.to_nat m) rows.
Proof. apply csv_cap_takes_first_aux. Qed.

(** The loop of [process_geofabrik_data] under a cap [K >= 1], entered
    below the cap, over files that fail or read to their end: it ends with
    the first [K] of the rows it held and the rows of the files that parsed,
    as they are read back. *)
Lemma process_files_parsed (K : Z) (files : list xml_source)
    (parsed : list (option (list poi))) (total_pois : Z)
    (all_pois back : list poi) :
  (0 < K)%Z → total_pois = len all_pois → (total_pois < K)%Z →
  Rows.run_parsed (λ budget f, parse_osm_xml_try py_float f budget = Raised)
                  (Rows.csv_file_rows py_float) K total_pois files parsed →
  read_rows (Rows.surviving_rows parsed) = Returned back →
  process_files py_float K files total_pois all_pois
  = Returned (take (Z.to_nat K) (all_pois ++ back)).
Proof.
  intros HK. revert parsed total_pois all_pois back.
  induction files as [|f files IH];
    intros [|[rows|] parsed] total all_pois back Htotal Hlt;
    cbn [Rows.run_parsed]; try contradiction.
  - intros _ [= <-]. simpl. rewrite app_nil_r, take_ge; [reflexivity|].
    unfold len in *. lia.
  - intros [Hf Hrest].
    change (Rows.surviving_rows (Some rows :: parsed))
      with (rows ++ Rows.surviving_rows parsed)%list.
    rewrite CsvParser.read_rows_app.
    destruct (read_rows rows) as [back1|] eqn:Hback1; [|discriminate].
    destruct (read_rows (Rows.surviving_rows parsed)) as [back2|] eqn:Hback2;
      [|discriminate].
    intros [= <-].
    pose proof (CsvParser.read_rows_length rows back1 Hback1) as Hlen1.
    cbn [process_files]. cbv zeta.
    assert (Hbudget : (0 < K - total)%Z) by lia.
    rewrite (csv_cap_takes_first_aux f (K - total) rows Hbudget Hf).
    rewrite (CsvParser.read_rows_take (Z.to_nat (K - total)) rows back1 Hback1).
    set (taken := take (Z.to_nat (K - total)) rows).
    assert (Hsplit :
      take (Z.to_nat K) (all_pois ++ back1 ++ back2)
      = (all_pois ++ take (Z.to_nat (K - total)) (back1 ++ back2))%list).
    { rewrite take_app, take_ge by (unfold len in *; lia).
      f_equal. f_equal. unfold len in *. lia. }
    assert (Htaken : len taken
                     = Z.of_nat (min (Z.to_nat (K - total)) (length rows)))
      by (unfold taken, len; rewrite length_take; reflexivity).
    destruct (Z.ltb_spec 0 (len taken)) as [Hsome|Hnone].
    + destruct (Z.leb_spec K (total + len taken)) as [Hfull|Hmore].
      * rewrite Hsplit. f_equal. f_equal.
        rewrite take_app_le by lia. reflexivity.
      * assert (Hall : take (Z.to_nat (K - total)) back1 = back1)
          by (apply take_ge; lia).
        assert (Hrows : len taken = len rows)
          by (unfold len in *; lia).
        rewrite Hall, Hrows.
        rewrite (IH parsed (total + len rows)%Z (all_pois ++ back1)%list back2).
        -- rewrite <- app_assoc. reflexivity.
        -- unfold len in *. rewrite length_app. lia.
        -- lia.
        -- exact Hrest.
        -- exact Hback2.
    + assert (Hrows : rows = []).
      { destruct rows as [|r rows']; [reflexivity|]. simpl in Htaken. lia. }
      subst rows. simpl in Hback1. injection Hback1 as <-.
      simpl. apply (IH parsed); [exact Htotal|exact Hlt| |exact Hback2].
      unfold len in Hrest. simpl in Hrest. rewrite Z.add_0_r in Hrest.
      exact Hrest.
  - intros [Hf Hrest]. 
    change (Rows.surviving_rows (None :: parsed))
      with (Rows.surviving_rows parsed).
    intros Hback.
    rewrite (process_files_skips_failed py_float K f files total all_pois
               (Hf Hlt)).
    apply (IH parsed); assumption.
Qed.

Lemma process_files_sound (K : Z) (files : list xml_source)
    (rowss : list (list poi)) (total_pois : Z) (all_pois back : list poi) :
  (0 < K)%Z → total_pois = len all_pois → (total_pois < K)%Z →
  Forall2 (Rows.csv_file_rows py_float) files rowss →
  read_rows (concat rowss) = Returned back →
  process_files py_float K files total_pois all_pois
  = Returned (take (Z.to_nat K) (all_pois ++ back)).
Proof.
  intros HK Htotal Hlt Hsound Hback.
  destruct (run_parsed_all
              (λ budget f, parse_osm_xml_try py_float f budget = Raised)
              _ K files rowss total_pois Hsound) as [Hrun Hrows].
  rewrite <- Hrows in Hback.
  exact (process_files_parsed K files _ total_pois all_pois back HK Htotal
           Hlt Hrun Hback).
Qed.

End CsvCap.

(** The sample extract, read to its end under a cap of five, then under a
    cap of one. *)
Lemma csv_cap_takes_first_witness :
  GeofabrikToCsv.parse_osm_xml Samples.decimal_float Samples.town_xml 1
  = take 1 (GeofabrikToCsv.parse_osm_xml Samples.decimal_float
              Samples.town_xml 5).
Proof.
  apply (csv_cap_takes_first Samples.decimal_float Samples.town_xml 1).
  - lia.
  - exists 5%Z. split; vm_compute; reflexivity.
Defined.

(** X18: when the XML-only script reads every file to its end and the
    rows of the files can be read back from the temporary CSV files, giving
    [back], a run of [process_geofabrik_data] under a cap [K >= 1] writes
    the first [K] rows of [back], which holds the files' rows in file order,
    and all of them when there are fewer; it writes nothing when there is
    none. *)
Theorem csv_sound_run_takes_first (py_float : string → option float)
    (K : Z) (files : list xml_source) (rowss : list (list poi))
    (back : list poi) :
  (0 < K)%Z →
  Forall2 (Rows.csv_file_rows py_float) files rowss →
  GeofabrikToCsv.read_rows (concat rowss) = Returned back →
  rows_of (GeofabrikToCsv.process_geofabrik_data py_float files K)
  = take (Z.to_nat K) back.
Proof.
  intros HK Hsound Hback. unfold GeofabrikToCsv.process_geofabrik_data.
  destruct files as [|f files].
  - apply Forall2_nil_inv_l in Hsound as ->. simpl in Hback.
    injection Hback as <-. rewrite take_nil. reflexivity.
  - rewrite (process_files_sound py_float K (f :: files) rowss 0 [] back HK
               eq_refl HK Hsound Hback).
    cbn [app]. destruct (take (Z.to_nat K) back); reflexivity.
Qed.

(** Two copies of the sample extract under a cap of three: the rows come
    back as they were written. *)
Lemma csv_sound_run_takes_first_witness :
  rows_of (GeofabrikToCsv.process_geofabrik_data Samples.decimal_float
             [Samples.town_xml; Samples.town_xml] 3)
  = take 3 (concat
              [GeofabrikToCsv.parse_osm_xml Samples.decimal_float
                 Samples.town_xml 5;
               GeofabrikToCsv.parse_osm_xml Samples.decimal_float
                 Samples.town_xml 5]).
Proof.
  apply (csv_sound_run_takes_first Samples.decimal_float 3
           [Samples.town_xml; Samples.town_xml]
           [GeofabrikToCsv.parse_osm_xml Samples.decimal_float
              Samples.town_xml 5;
            GeofabrikToCsv.parse_osm_xml Samples.decimal_float
              Samples.town_xml 5]).
  - lia.
  - repeat constructor; exists 5%Z; split; vm_compute; reflexivity.
  - vm_compute. reflexivity.
Defined.

(** ** Runs with failing files *)





(** ** Rows read back from the temporary files *)

Lemma universal_newlines_cr_free (s : string) :
  Rows.has_cr (GeofabrikToCsv.universal_newlines s) = false.
Proof.
  enough (H : Rows.has_cr (GeofabrikToCsv.universal_newlines s) = false
              ∧ ∀ c, Rows.has_cr
                       (GeofabrikToCsv.universal_newlines (String c s))
                     = false) by exact (proj1 H).
  induction s as [|c' s [IH1 IH2]].
  - split; [reflexivity|]. intros c. simpl.
    destruct (Ascii.eqb c "013"%char) eqn:Hc; simpl; [reflexivity|].
    rewrite Hc. reflexivity.
  - split; [apply IH2|]. intros c.
    cbn [GeofabrikToCsv.universal_newlines].
    destruct (Ascii.eqb c "013"%char) eqn:Hc.
    + destruct (Ascii.eqb c' "010"%char); cbn [Rows.has_cr];
        [exact IH1|apply IH2].
    + cbn [Rows.has_cr]. rewrite Hc. apply IH2.
Qed.

Lemma read_field_cr_free (s s' : string) :
  GeofabrikToCsv.read_field s = Returned s' → Rows.has_cr s' = false.
Proof.
  unfold GeofabrikToCsv.read_field. cbv zeta.
  destruct (_ <? _)%Z; [discriminate|].
  intros [= <-]. apply universal_newlines_cr_free.
Qed.

Lemma read_rows_cr_free (rows back : list poi) :
  GeofabrikToCsv.read_rows rows = Returned back → Forall Rows.cr_free back.
Proof.
  revert back. induction rows as [|r rows IH]; intros back; simpl.
  - intros [= <-]. constructor.
  - destruct (GeofabrikToCsv.read_back r) as [r'|] eqn:Hr; [|discriminate].
    destruct (GeofabrikToCsv.read_rows rows) as [rows'|]; [|discriminate].
    intros [= <-]. constructor; [|apply IH; reflexivity].
    unfold GeofabrikToCsv.read_back in Hr.
    destruct (GeofabrikToCsv.read_field (name r)) as [n|] eqn:Hn;
      [|discriminate].
    destruct (GeofabrikToCsv.read_field (category r)) as [c|] eqn:Hc;
      [|discriminate].
    destruct (GeofabrikToCsv.read_field (description r)) as [d|] eqn:Hd;
      [|discriminate].
    injection Hr as <-. repeat split; simpl; eapply read_field_cr_free;
      eassumption.
Qed.

(** X22: no row that a run of the XML-only script writes to its output
    holds a carriage return in its name, category or description: every row
    went through a temporary CSV file that is read with universal newlines,
    which turns the carriage returns of a tag value into line feeds. *)
Theorem csv_run_rows_cr_free (py_float : string → option float)
    (files : list xml_source) (K : Z) :
  Forall Rows.cr_free
         (rows_of (GeofabrikToCsv.process_geofabrik_data py_float files K)).
Proof.
  unfold GeofabrikToCsv.process_geofabrik_data.
  destruct files as [|f files]; [constructor|].
  assert (Hloop : ∀ fs total all_pois out,
            Forall Rows.cr_free all_pois →
            GeofabrikToCsv.process_files py_float K fs total all_pois
            = Returned out →
            Forall Rows.cr_free out).
  { induction fs as [|g fs IH]; intros total all_pois out Hall; simpl.
    - intros [= <-]. exact Hall.
    - destruct (0 <? _)%Z; [|apply IH, Hall].
      destruct (GeofabrikToCsv.read_rows _) as [back|] eqn:Hback;
        [|discriminate].
      apply read_rows_cr_free in Hback.
      assert (Hboth : Forall Rows.cr_free (all_pois ++ back))
        by (apply Forall_app; split; assumption).
      destruct (K <=? _)%Z; [intros [= <-]; exact Hboth|apply IH, Hboth]. }
  destruct (GeofabrikToCsv.process_files py_float K (f :: files) 0 [])
    as [out|] eqn:Hout; [|constructor].
  apply Hloop in Hout; [|constructor].
  destruct out; [constructor|exact Hout].
Qed.

(** ** A coordinate that does not read as a number *)

Section Unreadable.

Variable py_float : string → option float.

(** The nodes of a clean extract, followed by any further events. *)
Lemma parse_loop_nodes_then (bounds : option bbox) (cap : option Z)
    (xs : list Rows.xml_node) (nodes : list osm_node) (st : parser_state)
    (rest : list xml_event) (fin : stream_end) :
  truthy_int cap = false →
  Forall2 (Rows.same_node py_float) xs nodes →
  Forall (λ n, valid_coordinates (location_lat n) (location_lon n) = true)
         nodes →
  ∃ cn d,
    parse_loop py_float bounds cap st
      (concat (map Rows.node_xml xs) ++ rest) fin
    = parse_loop py_float bounds cap
        (ParserState cn d (pois st ++ omap (Spec.matching_poi bounds) nodes)%list)
        rest fin.
Proof.
  intros Hcap Hsame. revert st.
  induction Hsame as [|x n xs nodes Hx _ IH]; intros st Hvalid.
  - exists (current_node st), (current_tags st).
    cbn [map concat app omap list_omap]. rewrite app_nil_r.
    destruct st; reflexivity.
  - apply Forall_cons in Hvalid as [Hv Hvalid].
    cbn [map concat]. rewrite <- app_assoc.
    destruct (parse_loop_node py_float bounds cap x n st
                (concat (map Rows.node_xml xs) ++ rest) fin Hcap Hx Hv)
      as (cn & d & ->).
    destruct (IH (ParserState cn d
                    (pois st ++ option_list (Spec.matching_poi bounds n))%list)
                 Hvalid) as (cn' & d' & ->).
    exists cn', d'. cbn [pois]. f_equal. f_equal.
    rewrite <- app_assoc. f_equal.
    cbn [omap list_omap]. destruct (Spec.matching_poi bounds n); reflexivity.
Qed.

(** The start of a node element one of whose coordinate texts does not
    read as a number. *)
Lemma on_start_unreadable (st : parser_state) (lat lon : string) :
  truthy lat = true → truthy lon = true →
  py_float lat = None ∨ py_float lon = None →
  on_start py_float st "node" (<["lat" := lat]> (<["lon" := lon]> ∅)) = Raise.
Proof.
  intros Hlat Hlon Hbad. unfold on_start.
  change ("node" =? "node") with true. cbv iota.
  rewrite lookup_insert_eq, lookup_insert_ne, lookup_insert_eq by discriminate.
  rewrite Hlat, Hlon. cbn [andb].
  destruct Hbad as [-> | ->]; [reflexivity|].
  destruct (py_float lat); reflexivity.
Qed.

(** X19: read without a cap, an extract with one node whose latitude or
    longitude text does not read as a number gives no row at all: the rows
    of the nodes before it are dropped with the rest of the file. *)
Theorem unreadable_coordinate_voids_file (bounds : option bbox)
    (xs : list Rows.xml_node) (nodes : list osm_node) (bad : Rows.xml_node)
    (ys : list Rows.xml_node) :
  Forall2 (Rows.same_node py_float) xs nodes →
  Forall (λ n, valid_coordinates (location_lat n) (location_lon n) = true)
         nodes →
  truthy (Rows.lat_text bad) = true → truthy (Rows.lon_text bad) = true →
  py_float (Rows.lat_text bad) = None ∨ py_float (Rows.lon_text bad) = None →
  parse_osm_xml py_float (Rows.xml_of_nodes (xs ++ bad :: ys)) bounds None = [].
Proof.
  intros Hsame Hvalid Hlat Hlon Hbad.
  unfold parse_osm_xml, parse_osm_xml_try, Rows.xml_of_nodes,
    Samples.osm_document.
  cbn [xml_events xml_end].
  rewrite map_app, concat_app, <- app_assoc.
  destruct (parse_loop_nodes_then bounds None xs nodes initial_state
              (concat (map Rows.node_xml (bad :: ys)) ++ [End "osm"]) Eof
              eq_refl Hsame Hvalid) as (cn & d & ->).
  cbn [map concat]. unfold Rows.node_xml at 1, Samples.node_events.
  cbn [app parse_loop on_event].
  rewrite (on_start_unreadable _ _ _ Hlat Hlon Hbad). reflexivity.
Qed.

End Unreadable.

(** The two sample nodes followed by a node whose latitude is the text
    [north]. *)
Lemma unreadable_coordinate_voids_file_witness :
  parse_osm_xml Samples.decimal_float
    (Rows.xml_of_nodes
       (Rows.sample_xml_nodes
        ++ Rows.XmlNode "north" "85.5" [("amenity", "cafe")] :: []))
    None None
  = [].
Proof.
  apply (unreadable_coordinate_voids_file Samples.decimal_float None
           Rows.sample_xml_nodes [Samples.cafe_node; Samples.bank_node]).
  - repeat constructor.
  - repeat constructor.
  - reflexivity.
  - reflexivity.
  - left. reflexivity.
Defined.

(** ** A file that fails whatever its budget *)

(** X20: a file whose parse raises under every budget the loop of [main]
    can hand it may stand anywhere in the file list: under a cap that is not
    negative the run gives what it gives without that file. *)
Theorem failing_file_anywhere (py_float : string → option float)
    (avail : bool) (bounds : option bbox) (K : Z) (bad : osm_file)
    (pre post : list osm_file) :
  (0 ≤ K)%Z →
  (∀ budget, Spec.parse_fails py_float avail bounds budget bad) →
  main py_float avail bounds K (pre ++ bad :: post)%list
  = main py_float avail bounds K (pre ++ post)%list.
Proof.
  intros HK Hfail.
  assert (Hstart : cap_reached (Some K) [] = false).
  { unfold cap_reached, len. simpl.
    destruct (Z.eqb_spec K 0) as [->|Hne]; [reflexivity|].
    simpl. apply Z.leb_gt. lia. }
  pose proof (main_loop_without_failed py_float avail bounds K bad pre post []
                (λ acc _, Hfail (K - len acc)%Z) Hstart) as Hloop.
  unfold main. rewrite <- Hloop.
  destruct (pre ++ post)%list as [|f fs] eqn:Hrest.
  - apply app_eq_nil in Hrest as [-> ->]. simpl in *.
    rewrite Hloop. reflexivity.
  - destruct pre; reflexivity.
Qed.

(** An empty XML file between two copies of the sample extract. *)
Lemma failing_file_anywhere_witness :
  main Samples.decimal_float true None 5
       ([XmlFile Samples.town_xml] ++ XmlFile (XmlSource [] Eof)
        :: [XmlFile Samples.town_xml])%list
  = main Samples.decimal_float true None 5
         ([XmlFile Samples.town_xml] ++ [XmlFile Samples.town_xml])%list.
Proof.
  apply (failing_file_anywhere Samples.decimal_float true None 5
           (XmlFile (XmlSource [] Eof))).
  - lia.
  - intros budget. reflexivity.
Defined.
